(** * Project-Analyzer-AI: the classification pipeline of
      [backend/services/project_analyzer.py] and the upload endpoint of
      [backend/main.py], embedded in Rocq, with the URL parser and the
      file filter of [backend/services/github_service.py] and the diagram
      of [backend/services/flow_diagram_service.py].

    Python values are modelled as follows.
    - [str] is [string]; the model covers ASCII text, so [str.lower] and
      the case-insensitive regex flag fold the letters A-Z only.
    - [int] line and file counts are [nat].
    - a [dict] is an association list in insertion order (Python dicts
      iterate in insertion order, and [max] over a dict depends on it).
    - a [set] is the duplicate-free list of its elements in the order they
      were added; the order in which Python iterates over a set depends on
      the hashes of the strings, which change from process to process, so
      [list(s)] goes through a [SetOrder] that every function taking part
      in it receives.
    - [None] in an optional field is [None] of [option]. *)

From Stdlib Require Import Bool Arith PeanoNat List Ascii String Lia.
From Stdlib Require Import ZArith QArith Qround Qpower Lqa Permutation Sorted.
From Stdlib Require Import SpecFloat.
From Stdlib Require Import DecimalString.
Import ListNotations.

Local Open Scope string_scope.
Local Open Scope list_scope.
Local Open Scope nat_scope.

(* ================================================================= *)
(** ** Python strings *)

Module PyStr.

Definition newline : ascii := "010"%char.
Definition dquote : ascii := "034"%char.
Definition squote : ascii := "039"%char.
Definition backslash : ascii := "092"%char.

Definition is_upper (c : ascii) : bool :=
  let n := nat_of_ascii c in (65 <=? n) && (n <=? 90).

Definition is_lower (c : ascii) : bool :=
  let n := nat_of_ascii c in (97 <=? n) && (n <=? 122).

Definition lower_char (c : ascii) : ascii :=
  if is_upper c then ascii_of_nat (nat_of_ascii c + 32) else c.

Definition upper_char (c : ascii) : ascii :=
  if is_lower c then ascii_of_nat (nat_of_ascii c - 32) else c.

(** [s.lower()] *)
Fixpoint lower (s : string) : string :=
  match s with
  | EmptyString => EmptyString
  | String c t => String (lower_char c) (lower t)
  end.

(** [s.upper()] *)
Fixpoint upper (s : string) : string :=
  match s with
  | EmptyString => EmptyString
  | String c t => String (upper_char c) (upper t)
  end.

(** [needle in hay] on strings: substring test. *)
Fixpoint contains (needle hay : string) : bool :=
  String.prefix needle hay ||
  match hay with
  | EmptyString => false
  | String _ t => contains needle t
  end.

(** [any(k in s for k in keys)] *)
Definition contains_any (keys : list string) (s : string) : bool :=
  existsb (fun k => contains k s) keys.

(** [s.split(sep)] for a one-character separator: always at least one
    segment, and a trailing separator yields a trailing empty segment. *)
Fixpoint split (sep : ascii) (s : string) : list string :=
  match s with
  | EmptyString => [EmptyString]
  | String c t =>
      if Ascii.eqb c sep then EmptyString :: split sep t
      else match split sep t with
           | [] => [String c EmptyString]
           | h :: r => String c h :: r
           end
  end.

(** [sep.join(parts)] *)
Fixpoint join (sep : string) (parts : list string) : string :=
  match parts with
  | [] => EmptyString
  | [p] => p
  | p :: rest => p ++ sep ++ join sep rest
  end.

(** [str(n)] for a non-negative int, as an f-string renders it. *)
Definition str_of_nat (n : nat) : string :=
  NilZero.string_of_uint (Nat.to_uint n).

(** Number of occurrences of a character. *)
Fixpoint count_char (c : ascii) (s : string) : nat :=
  match s with
  | EmptyString => 0
  | String a t => (if Ascii.eqb a c then 1 else 0) + count_char c t
  end.

(** [s.rfind(c)] for a character: index of the last occurrence. *)
Fixpoint rfind_from (c : ascii) (s : string) (i : nat) (acc : option nat)
  : option nat :=
  match s with
  | EmptyString => acc
  | String a t => rfind_from c t (S i) (if Ascii.eqb a c then Some i else acc)
  end.

Definition rfind (c : ascii) (s : string) : option nat := rfind_from c s 0 None.

(** [s[i:]] *)
Fixpoint drop (i : nat) (s : string) : string :=
  match i, s with
  | O, _ => s
  | S j, EmptyString => EmptyString
  | S j, String _ t => drop j t
  end.

(** [s[:i]] *)
Fixpoint take (i : nat) (s : string) : string :=
  match i, s with
  | O, _ => EmptyString
  | S j, EmptyString => EmptyString
  | S j, String c t => String c (take j t)
  end.

End PyStr.

(* ================================================================= *)
(** ** Python dicts and sets *)

Module PyDict.

Definition dict (V : Type) : Type := list (string * V).

Fixpoint get {V} (d : dict V) (k : string) : option V :=
  match d with
  | [] => None
  | (k', v) :: r => if String.eqb k' k then Some v else get r k
  end.

(** [d.get(k, default)] *)
Definition get_default {V} (d : dict V) (k : string) (default : V) : V :=
  match get d k with Some v => v | None => default end.

(** [d[k] = v]: an existing key keeps its place, a new key goes last. *)
Fixpoint set {V} (d : dict V) (k : string) (v : V) : dict V :=
  match d with
  | [] => [(k, v)]
  | (k', v') :: r =>
      if String.eqb k' k then (k', v) :: r else (k', v') :: set r k v
  end.

Definition keys {V} (d : dict V) : list string := map fst d.
Definition values {V} (d : dict V) : list V := map snd d.

(** [k in d] *)
Definition mem {V} (d : dict V) (k : string) : bool :=
  match get d k with Some _ => true | None => false end.

(** [max(iterable, key=f)] scans left to right and replaces the running
    best only by a strictly greater item, so the first of several maxima
    wins. *)
Fixpoint max_from (key : string -> nat) (best : string) (rest : list string)
  : string :=
  match rest with
  | [] => best
  | k :: r => if key best <? key k then max_from key k r
              else max_from key best r
  end.

Definition max_by (key : string -> nat) (l : list string) : option string :=
  match l with
  | [] => None
  | k :: r => Some (max_from key k r)
  end.

End PyDict.

Module PySet.

(** A set as the list of its elements in the order they were added. *)
Definition t : Type := list string.

Definition empty : t := [].

Definition mem (x : string) (s : t) : bool := existsb (String.eqb x) s.

(** [s.add(x)] *)
Definition add (x : string) (s : t) : t := if mem x s then s else s ++ [x].

(** [set(l)] *)
Definition of_list (l : list string) : t := fold_left (fun s x => add x s) l empty.

(** [bool(s)] *)
Definition nonempty (s : t) : bool := match s with [] => false | _ => true end.

(** The order in which one Python process iterates over a set.  It is
    a function of the table the additions built, and all it guarantees is
    that every element comes out once. *)
Record SetOrder : Type := {
  iter : list string -> list string;
  iter_perm : forall l, Permutation (iter l) l
}.

(** [list(s)] *)
Definition to_list (o : SetOrder) (s : t) : list string := iter o s.

(** [s.intersection(other)]: the interpreter walks over [other], or over
    [s] when [other] is the larger of the two, and keeps what the operand
    it does not walk over contains. *)
Definition intersection (o : SetOrder) (s other : t) : t :=
  if List.length s <? List.length other
  then filter (fun x => mem x other) (iter o s)
  else filter (fun x => mem x s) (iter o other).

(** Two orders that a process can exhibit: elements come out as they
    were added, or the other way round. *)
Definition insertion_order : SetOrder :=
  {| iter := fun l => l; iter_perm := fun l => Permutation_refl l |}.

Definition reverse_order : SetOrder :=
  {| iter := fun l => rev l;
     iter_perm := fun l => Permutation_sym (Permutation_rev l) |}.

End PySet.

(* ================================================================= *)
(** ** [pathlib.Path(...).suffix] *)

Module PyPath.
Import PyStr.

(** The parts of a POSIX path: empty and ["."] components are dropped. *)
Definition parts (p : string) : list string :=
  filter (fun x => negb (String.eqb x "") && negb (String.eqb x "."))
         (split "/"%char p).

(** [Path(p).name]: the last part, or the empty string. *)
Definition name (p : string) : string := last (parts p) "".

(** [Path(p).suffix]: from the last dot of the name, unless that dot
    starts or ends the name. *)
Definition suffix (p : string) : string :=
  let n := name p in
  match rfind "."%char n with
  | Some i => if (0 <? i) && (i <? String.length n - 1) then drop i n else ""
  | None => ""
  end.

End PyPath.

(* ================================================================= *)
(** ** Python's [re]: a backtracking matcher

    The patterns of the analyzer use literals, [.], character classes,
    [\w], [\s], greedy [*], [+], [?], alternation, groups and [$].  The
    matcher tries alternatives in the order Python's engine does (left
    branch first, one more iteration before leaving a loop), so the first
    match it finds, and the groups of that match, are Python's. *)

Module Re.
Import PyStr.

Inductive item : Type :=
| Ch (c : ascii)                 (* a character *)
| Range (lo hi : ascii)          (* lo-hi *)
| Word                           (* \w *)
| Space.                         (* \s *)

Inductive re : Type :=
| Eps
| Lit (c : ascii)
| Dot                            (* any character but a newline *)
| Cls (neg : bool) (items : list item)
| Cat (a b : re)
| Alt (a b : re)
| Star (a : re)
| Grp (n : nat) (a : re)         (* capturing group number n *)
| Eol.                           (* $ *)

Definition Plus (a : re) : re := Cat a (Star a).
Definition Opt (a : re) : re := Alt a Eps.

Fixpoint Str (s : string) : re :=
  match s with
  | EmptyString => Eps
  | String c t => Cat (Lit c) (Str t)
  end.

Fixpoint Seq (l : list re) : re :=
  match l with
  | [] => Eps
  | [a] => a
  | a :: r => Cat a (Seq r)
  end.

Definition is_digit (c : ascii) : bool :=
  let n := nat_of_ascii c in (48 <=? n) && (n <=? 57).

Definition is_word (c : ascii) : bool :=
  is_upper c || is_lower c || is_digit c || Ascii.eqb c "_"%char.

Definition is_space (c : ascii) : bool :=
  let n := nat_of_ascii c in
  ((9 <=? n) && (n <=? 13)) || ((28 <=? n) && (n <=? 32)).

Definition item_match (it : item) (c : ascii) : bool :=
  match it with
  | Ch a => Ascii.eqb a c
  | Range lo hi =>
      (nat_of_ascii lo <=? nat_of_ascii c) && (nat_of_ascii c <=? nat_of_ascii hi)
  | Word => is_word c
  | Space => is_space c
  end.

(** [ic] is the IGNORECASE flag. *)
Definition lit_match (ic : bool) (c a : ascii) : bool :=
  if ic then Ascii.eqb (lower_char c) (lower_char a) else Ascii.eqb c a.

Definition cls_match (ic neg : bool) (items : list item) (c : ascii) : bool :=
  let hit x := existsb (fun it => item_match it x) items in
  xorb neg (hit c || (ic && (hit (lower_char c) || hit (upper_char c)))).

(** Group bindings, the latest first. *)
Definition caps : Type := list (nat * string).
Definition result : Type := option (string * caps).
Definition cont : Type := string -> caps -> result.

(** A greedy loop: one more iteration if it consumes input and the rest
    then matches, else leave the loop. *)
Fixpoint star_loop (step : string -> caps -> cont -> result) (fuel : nat)
  (s : string) (cs : caps) (k : cont) : result :=
  match fuel with
  | O => k s cs
  | S n =>
      match step s cs (fun s' cs' =>
              if String.length s' <? String.length s
              then star_loop step n s' cs' k else None) with
      | Some r => Some r
      | None => k s cs
      end
  end.

(** [run ic r s cs k]: match [r] at the start of [s], then run [k] on
    what is left. *)
Fixpoint run (ic : bool) (r : re) (s : string) (cs : caps) (k : cont)
  {struct r} : result :=
  match r with
  | Eps => k s cs
  | Lit c =>
      match s with
      | String a t => if lit_match ic c a then k t cs else None
      | EmptyString => None
      end
  | Dot =>
      match s with
      | String a t => if Ascii.eqb a newline then None else k t cs
      | EmptyString => None
      end
  | Cls neg items =>
      match s with
      | String a t => if cls_match ic neg items a then k t cs else None
      | EmptyString => None
      end
  | Cat a b => run ic a s cs (fun s' cs' => run ic b s' cs' k)
  | Alt a b =>
      match run ic a s cs k with
      | Some x => Some x
      | None => run ic b s cs k
      end
  | Star a => star_loop (run ic a) (String.length s) s cs k
  | Grp n a =>
      run ic a s cs (fun s' cs' =>
        k s' ((n, take (String.length s - String.length s') s) :: cs'))
  | Eol =>
      match s with
      | EmptyString => k s cs
      | String a EmptyString => if Ascii.eqb a newline then k s cs else None
      | _ => None
      end
  end.

(** A match starting exactly at the head of [s]: what is left, and the
    groups. *)
Definition match_at (ic : bool) (r : re) (s : string) : result :=
  run ic r s [] (fun s' cs' => Some (s', cs')).

(** [re.search(r, s)] as a truth value: a match starting anywhere. *)
Fixpoint search (ic : bool) (r : re) (s : string) : bool :=
  match match_at ic r s with
  | Some _ => true
  | None =>
      match s with
      | EmptyString => false
      | String _ t => search ic r t
      end
  end.

(** [m.group(n)], the empty string for a group that took no part. *)
Fixpoint group (cs : caps) (n : nat) : string :=
  match cs with
  | [] => EmptyString
  | (m, v) :: r => if Nat.eqb m n then v else group r n
  end.

(** The matches of [re.findall]: leftmost first, not overlapping; after
    a match the scan resumes where it ended ([skip] characters on), and
    an empty match moves on by one character. *)
Fixpoint find_from (ic : bool) (r : re) (skip : nat) (s : string)
  {struct s} : list caps :=
  match skip with
  | S n =>
      match s with
      | EmptyString => []
      | String _ t => find_from ic r n t
      end
  | O =>
      match match_at ic r s with
      | Some (s', cs) =>
          cs :: match s with
                | EmptyString => []
                | String _ t =>
                    find_from ic r (String.length s - String.length s' - 1) t
                end
      | None =>
          match s with
          | EmptyString => []
          | String _ t => find_from ic r 0 t
          end
      end
  end.

(** [re.findall] for a pattern with one group, and with two. *)
Definition findall1 (ic : bool) (r : re) (s : string) : list string :=
  map (fun cs => group cs 1) (find_from ic r 0 s).

Definition findall2 (ic : bool) (r : re) (s : string) : list (string * string) :=
  map (fun cs => (group cs 1, group cs 2)) (find_from ic r 0 s).

(** A quote character of either kind, as in the bracket class the
    patterns write for it. *)
Definition quote : re := Cls false [Ch squote; Ch dquote].
(** One or more characters that are not quotes. *)
Definition unquoted : re := Plus (Cls true [Ch squote; Ch dquote]).

End Re.

(* ================================================================= *)
(** ** Python floats

    A finite, non-negative binary64 value is the rational it stands for.
    Every float operation returns the exact result rounded to the nearest
    value with a 53-bit mantissa, ties going to the even mantissa.  The
    conversion of an int raises OverflowError from 2^1024 on; a line total
    cannot get there, and the model leaves the exponent unbounded above. *)

Module Float64.
Local Open Scope Q_scope.

Definition pow2 (e : Z) : Q := Qpower 2 e.

(** The integer part of the binary logarithm of a positive rational. *)
Definition floor_log2 (x : Q) : Z :=
  let l := (Z.log2 (Qnum x) - Z.log2 (Zpos (Qden x)))%Z in
  if Qle_bool (pow2 l) x then l else (l - 1)%Z.

(** Nearest integer, ties to even. *)
Definition round_half_even (x : Q) : Z :=
  let f := Qfloor x in
  match Qcompare (x - inject_Z f) (1 # 2) with
  | Lt => f
  | Gt => (f + 1)%Z
  | Eq => if Z.even f then f else (f + 1)%Z
  end.

(** The exponent of the last mantissa bit of the float nearest to [x];
    -1074 is where the subnormal numbers sit. *)
Definition ulp_exp (x : Q) : Z := Z.max (floor_log2 x - 52) (-1074).

Definition round (x : Q) : Q :=
  if Qle_bool x 0 then 0
  else inject_Z (round_half_even (x / pow2 (ulp_exp x))) * pow2 (ulp_exp x).

(** [float(n)], the conversion that [n / 1000.0] applies to its int. *)
Definition of_int (n : Z) : Q := round (inject_Z n).

(** [a / b] on floats *)
Definition div (a b : Q) : Q := round (a / b).

(** [a < b] on floats *)
Definition ltb (a b : Q) : bool := negb (Qle_bool b a).

(** [min(a, b)]: the first argument unless the second is smaller. *)
Definition min (a b : Q) : Q := if ltb b a then b else a.

(** The same conversion and division in the Standard Library's
    specification of IEEE 754 binary64, to compare the model with. *)
Definition spec_of_int (n : Z) : spec_float := binary_normalize 53 1024 n 0 false.

Definition spec_div (a b : spec_float) : spec_float := SFdiv 53 1024 a b.

(** The rational a finite, non-negative [spec_float] stands for. *)
Definition spec_value (x : spec_float) : option Q :=
  match x with
  | S754_zero _ => Some 0
  | S754_finite false m e => Some (inject_Z (Zpos m) * pow2 e)
  | _ => None
  end.

(** Line totals on which the two are compared: the totals up to 300,
    those around the saturation point, and some beyond the integers that
    binary64 holds exactly. *)
Definition sample_totals : list Z :=
  (map Z.of_nat (seq 0 301)
   ++ map (fun k => 9900 + Z.of_nat k) (seq 0 201)
   ++ [2 ^ 53 - 1; 2 ^ 53; 2 ^ 53 + 1; 2 ^ 53 + 3; 2 ^ 54 + 2; 2 ^ 54 + 6;
       10 ^ 18 + 1; 10 ^ 30 + 7; 3 ^ 200 + 5])%list%Z.

Definition agrees_with_spec (n : Z) : bool :=
  match spec_value (spec_div (spec_of_int n) (spec_of_int 1000)) with
  | Some q => Qeq_bool q (div (of_int n) 1000)
  | None => false
  end.

End Float64.

(* ================================================================= *)
(** ** [services/project_analyzer.py] *)

Module ProjectAnalyzer.
Import PyStr PyDict Re.

(** One entry of [file_contents]: the keys ['name'], ['content'], ['type']. *)
Record FileRecord : Type := {
  name : string;
  content : string;
  type_ : option string
}.

(** [self.supported_extensions] *)
Definition supported_extensions : dict string :=
  [ (".py", "Python"); (".js", "JavaScript"); (".jsx", "React");
    (".ts", "TypeScript"); (".tsx", "React TypeScript"); (".java", "Java");
    (".cpp", "C++"); (".c", "C"); (".cs", "C#"); (".php", "PHP");
    (".rb", "Ruby"); (".go", "Go"); (".rs", "Rust"); (".swift", "Swift");
    (".kt", "Kotlin"); (".scala", "Scala"); (".html", "HTML");
    (".css", "CSS"); (".scss", "SCSS"); (".sass", "SASS");
    (".json", "JSON"); (".xml", "XML"); (".yaml", "YAML"); (".yml", "YAML");
    (".md", "Markdown"); (".txt", "Text") ].

(** [self.framework_patterns], each pattern under the source's text. *)
Definition framework_patterns : list (string * list re) :=
  [ ("React",
      [ Seq [Str "import"; Star Dot; Str "react"];        (* import.*react *)
        Seq [Str "from "; quote; Str "react"; quote];     (* from [..]react[..] *)
        Str "React." ]);                                  (* React\. *)
    ("Vue",
      [ Seq [Str "import"; Star Dot; Str "vue"];
        Seq [Str "from "; quote; Str "vue"; quote];
        Str "Vue." ]);
    ("Angular",
      [ Str "@angular";
        Seq [Str "import"; Star Dot; Str "@angular"];
        Str "ng-" ]);
    ("Express",
      [ Str "express()";                                  (* express\(\) *)
        Seq [Str "require("; quote; Str "express"; quote];
        Seq [Str "import"; Star Dot; Str "express"] ]);
    ("Django",
      [ Str "from django"; Str "import django"; Str "django." ]);
    ("Flask",
      [ Str "from flask"; Str "import flask"; Str "Flask(" ]);
    ("FastAPI",
      [ Str "from fastapi"; Str "import fastapi"; Str "FastAPI(" ]);
    ("Spring",
      [ Str "@SpringBootApplication";
        Seq [Str "import"; Star Dot; Str "springframework"];
        Str "@RestController" ]);
    ("Laravel",
      [ Str "use Illuminate";
        Seq [Str "Illuminate"; Lit backslash];            (* Illuminate\\ *)
        Seq [Opt (Lit "<"); Str "php"; Star Dot; Str "laravel"] ]);
                                                          (* <?php.*laravel *)
    ("Rails",
      [ Seq [Str "require "; quote; Str "rails"; quote];
        Str "Rails.";
        Seq [Str "class"; Star Dot; Str "< ApplicationController"] ]) ].

(** [self.database_patterns] *)
Definition database_patterns : list (string * list re) :=
  [ ("MongoDB",
      [ Str "mongoose"; Str "mongodb://"; Str "MongoClient"; Str "from pymongo" ]);
    ("PostgreSQL",
      [ Str "postgresql://"; Str "psycopg2"; Str "pg_"; Str "PostgreSQL" ]);
    ("MySQL",
      [ Str "mysql://"; Str "pymysql"; Str "mysql2"; Str "MySQL" ]);
    ("SQLite",
      [ Str "sqlite3"; Seq [Str ".db"; Eol]; Str "sqlite://" ]);   (* \.db$ *)
    ("Redis",
      [ Str "redis://"; Str "import redis"; Str "Redis(" ]);
    ("Firebase",
      [ Str "firebase"; Str "firestore"; Str "Firebase" ]) ].

(* ----------------------------------------------------------------- *)
(** *** The result object *)

Record KeyFile : Type := {
  kf_name : string; kf_purpose : string; kf_lines : nat }.

Record ComplexityIndicators : Type := {
  total_files : nat;
  ci_total_lines : nat;
  avg_lines_per_file : nat;
  complexity_level : string }.

Record Overview : Type := {
  key_files : list KeyFile;
  entry_points : list string;
  project_type : string;
  complexity_indicators : ComplexityIndicators }.

Record Component : Type := {
  comp_name : string; comp_type : string;
  exports : list string; imports : list string }.

Record Stylesheet : Type := {
  style_name : string; style_type : string; classes : list string }.

Record Frontend : Type := {
  components : list Component;
  styles : list Stylesheet;
  routing_files : list string;
  state_management : list string;
  frontend_frameworks_used : list string }.

Record Endpoint : Type := { method : string; path : string }.

Record ApiFile : Type := { api_file : string; endpoints : list Endpoint }.

Record ModelFile : Type := { model_file : string; models : list string }.

Record Backend : Type := {
  api_files : list ApiFile;
  backend_models : list ModelFile;
  middleware : list string;
  backend_frameworks_used : list string;
  databases_used : list string }.

Record SchemaFile : Type := { schema_file : string; tables : list string }.

Record Database : Type := {
  schemas : list SchemaFile;
  migrations : list string;
  databases_detected : list string }.

Record Architecture : Type := {
  patterns : list string;
  layers : list string;
  separation_of_concerns : bool }.

Record ComponentHierarchy : Type := {
  total_components : nat; component_files : list string }.

Record Flow : Type := {
  data_flow : list string;
  request_flow : list string;
  component_hierarchy : ComponentHierarchy }.

Record DetailedAnalysis : Type := {
  overview : Overview;
  frontend : Frontend;
  backend : Backend;
  database : Database;
  architecture : Architecture;
  flow : Flow }.

(** [context['repository']], which [analyze_repository] adds. *)
Record RepositoryInfo : Type := {
  repo_url : option string;
  repo_name : option string;
  repo_description : option string;
  repo_stars : nat;
  repo_forks : nat;
  repo_language : option string;
  repo_topics : list string }.

Record Context : Type := {
  ctx_files : list FileRecord;
  ctx_languages : dict nat;
  ctx_frameworks : list string;
  ctx_databases : list string;
  ctx_total_lines : nat;
  ctx_file_count : nat;
  ctx_repository : option RepositoryInfo }.

(** [analysis_result].  The three keys the source initialises to [None]
    are options. *)
Record AnalysisResult : Type := {
  summary : string;
  technologies : list string;
  structure : string;
  context : Context;
  files_analyzed : nat;
  main_language : option string;
  framework : option string;
  architecture_type : option string;
  complexity_score : Q;
  detailed_analysis : DetailedAnalysis }.

(* ----------------------------------------------------------------- *)
(** *** [analyze_files]: the scan over the files *)

(** [self.supported_extensions.get(Path(filename).suffix.lower(), 'Unknown')] *)
Definition language_of (filename : string) : string :=
  get_default supported_extensions (lower (PyPath.suffix filename)) "Unknown".

(** [len(content.split('\n'))] *)
Definition line_count (text : string) : nat :=
  List.length (split newline text).

(** The inner [for pattern in patterns] with its [break]: some pattern
    of the technology is found in the content, case ignored. *)
Definition matches_any (pats : list re) (text : string) : bool :=
  existsb (fun p => search true p text) pats.

(** The loop over the items of a pattern table, adding to a set. *)
Definition detect (table : list (string * list re)) (text : string)
  (found : PySet.t) : PySet.t :=
  fold_left
    (fun acc entry =>
       if matches_any (snd entry) text then PySet.add (fst entry) acc else acc)
    table found.

(** The f-string appended to [file_structure]. *)
Definition structure_entry (f : FileRecord) : string :=
  name f ++ " (" ++ language_of (name f) ++ ", "
         ++ str_of_nat (line_count (content f)) ++ " lines)".

(** The local variables of the loop. *)
Record Scan : Type := {
  languages : dict nat;
  frameworks : PySet.t;
  databases : PySet.t;
  file_structure : list string;
  total_lines : nat }.

Definition scan_init : Scan :=
  {| languages := []; frameworks := PySet.empty; databases := PySet.empty;
     file_structure := []; total_lines := 0 |}.

(** [languages[language] = languages.get(language, 0) + 1] *)
Definition count_language (langs : dict nat) (language : string) : dict nat :=
  if negb (String.eqb language "Unknown")
  then set langs language (get_default langs language 0 + 1)
  else langs.

(** One iteration of [for file_info in file_contents]. *)
Definition scan_file (st : Scan) (f : FileRecord) : Scan :=
  {| languages := count_language (languages st) (language_of (name f));
     frameworks := detect framework_patterns (content f) (frameworks st);
     databases := detect database_patterns (content f) (databases st);
     file_structure := file_structure st ++ [structure_entry f];
     total_lines := total_lines st + line_count (content f) |}.

Definition scan (files : list FileRecord) : Scan :=
  fold_left scan_file files scan_init.

(* ----------------------------------------------------------------- *)
(** *** [_determine_architecture] *)

Definition frontend_frameworks : PySet.t := ["React"; "Vue"; "Angular"].
Definition backend_frameworks : PySet.t :=
  ["Express"; "Django"; "Flask"; "FastAPI"; "Spring"; "Laravel"; "Rails"].

Definition _determine_architecture (o : PySet.SetOrder)
  (fws : PySet.t) (langs : dict nat) : string :=
  let has_frontend := PySet.nonempty (PySet.intersection o frontend_frameworks fws) in
  let has_backend := PySet.nonempty (PySet.intersection o backend_frameworks fws) in
  if has_frontend && has_backend then "Full-stack"
  else if has_frontend then "Frontend"
  else if has_backend then "Backend"
  else if mem langs "HTML" && mem langs "CSS" then "Static Website"
  else "Unknown".

(* ----------------------------------------------------------------- *)
(** *** [_generate_summary] *)

(** How an f-string renders an optional string. *)
Definition str_of_option (x : option string) : string :=
  match x with Some s => s | None => "None" end.

Definition option_is (x : option string) (s : string) : bool :=
  match x with Some y => String.eqb y s | None => false end.

(** The keys it reads are all present in [analysis_result], so none of
    the defaults of its [get] calls is used. *)
Definition _generate_summary (main_lang fw : option string) (arch_type : string)
  (file_count : nat) (techs : list string) (complexity : Q) : string :=
  let s0 :=
    ("This is a " ++ lower arch_type ++ " project primarily written in "
     ++ str_of_option main_lang)%string in
  let s1 :=
    if negb (option_is fw "No specific framework")
    then (s0 ++ " using the " ++ str_of_option fw ++ " framework")%string
    else s0 in
  let s2 :=
    (s1 ++ ". The project contains " ++ str_of_nat file_count ++ " files")%string in
  let s3 :=
    match techs with
    | [] => s2
    | _ => (s2 ++ " and uses technologies including "
               ++ join ", " (firstn 5 techs))%string
    end in
  if Float64.ltb complexity 2
  then s3 ++ ". This appears to be a small to medium-sized project."
  else if Float64.ltb complexity 5
  then s3 ++ ". This appears to be a medium-sized project."
  else s3 ++ ". This appears to be a large and complex project.".

(** [min(total_lines / 1000.0, 10.0)] *)
Definition complexity_of (lines : nat) : Q :=
  Float64.min (Float64.div (Float64.of_int (Z.of_nat lines)) 1000) 10.

(* ----------------------------------------------------------------- *)
(** *** Helpers of the detailed analysis *)

Definition sp : re := Cls false [Space].              (* \s *)
Definition word : re := Plus (Cls false [Word]).      (* \w+ *)

Definition _identify_file_purpose (filename text : string) : string :=
  let filename_lower := lower filename in
  if contains "package.json" filename_lower then "Node.js package configuration"
  else if contains "requirements.txt" filename_lower then "Python dependencies"
  else if contains "main" filename_lower then "Application entry point"
  else if contains "index" filename_lower then "Index/entry file"
  else if contains "app" filename_lower then "Main application file"
  else if contains "config" filename_lower then "Configuration file"
  else "Source file".

(** export\s+(?:default\s+)?(?:function\s+)?(\w+)   and
    export\s*{\s*([^}]+)\s*} *)
Definition export_patterns : list re :=
  [ Seq [Str "export"; Plus sp; Opt (Seq [Str "default"; Plus sp]);
         Opt (Seq [Str "function"; Plus sp]); Grp 1 word];
    Seq [Str "export"; Star sp; Lit "{"; Star sp;
         Grp 1 (Plus (Cls true [Ch "}"])); Star sp; Lit "}"] ].

Definition _extract_exports (text : string) : list string :=
  flat_map (fun p => findall1 false p text) export_patterns.

(** import\s+.*from\s+[quote]([^quote]+)[quote]   and
    require\([quote]([^quote]+)[quote]\) *)
Definition import_patterns : list re :=
  [ Seq [Str "import"; Plus sp; Star Dot; Str "from"; Plus sp;
         quote; Grp 1 unquoted; quote];
    Seq [Str "require("; quote; Grp 1 unquoted; quote; Lit ")"] ].

Definition _extract_imports (text : string) : list string :=
  flat_map (fun p => findall1 false p text) import_patterns.

(** A dot, then the group: one of [a-zA-Z_-] followed by any number of
    [a-zA-Z0-9_-]. *)
Definition css_class_pattern : re :=
  Seq [Lit ".";
       Grp 1 (Cat (Cls false [Range "a" "z"; Range "A" "Z"; Ch "_"; Ch "-"])
                  (Star (Cls false [Range "a" "z"; Range "A" "Z"; Range "0" "9";
                                    Ch "_"; Ch "-"])))].

Definition _extract_css_classes (o : PySet.SetOrder) (text : string)
  : list string :=
  PySet.to_list o (PySet.of_list (findall1 false css_class_pattern text)).

(** (get|post|put|delete|patch) *)
Definition http_method : re :=
  Alt (Str "get") (Alt (Str "post") (Alt (Str "put")
      (Alt (Str "delete") (Str "patch")))).

(** @app\.(..)\([quote]([^quote]+)[quote], then the same after
    @router\. and after app\. *)
Definition endpoint_patterns : list re :=
  [ Seq [Str "@app."; Grp 1 http_method; Lit "("; quote; Grp 2 unquoted; quote];
    Seq [Str "@router."; Grp 1 http_method; Lit "("; quote; Grp 2 unquoted; quote];
    Seq [Str "app."; Grp 1 http_method; Lit "("; quote; Grp 2 unquoted; quote] ].

Definition _extract_api_endpoints (text : string) : list Endpoint :=
  flat_map
    (fun p => map (fun mp => {| method := upper (fst mp); path := snd mp |})
                  (findall2 true p text))
    endpoint_patterns.

(** class\s+(\w+) *)
Definition _extract_models (text : string) : list string :=
  findall1 false (Seq [Str "class"; Plus sp; Grp 1 word]) text.

(** CREATE\s+TABLE\s+(?:IF\s+NOT\s+EXISTS\s+)?(\w+), case ignored *)
Definition _extract_sql_tables (text : string) : list string :=
  findall1 true
    (Seq [Str "CREATE"; Plus sp; Str "TABLE"; Plus sp;
          Opt (Seq [Str "IF"; Plus sp; Str "NOT"; Plus sp; Str "EXISTS"; Plus sp]);
          Grp 1 word])
    text.

Definition _determine_project_type (o : PySet.SetOrder) (fws : PySet.t)
  (langs : dict nat) : string :=
  if PySet.nonempty (PySet.intersection o fws ["React"; "Vue"; "Angular"])
  then "Frontend Application"
  else if PySet.nonempty
            (PySet.intersection o fws ["Django"; "Flask"; "FastAPI"; "Express"])
  then "Backend API"
  else if mem langs "HTML" && mem langs "CSS" then "Web Application"
  else "Software Project".

Definition sum_lines (files : list FileRecord) : nat :=
  list_sum (map (fun f => line_count (content f)) files).

Definition _get_complexity_indicators (files : list FileRecord)
  : ComplexityIndicators :=
  let n := List.length files in
  let lines := sum_lines files in
  {| total_files := n;
     ci_total_lines := lines;
     avg_lines_per_file := if 0 <? n then lines / n else 0;
     complexity_level := if lines <? 1000 then "Low"
                         else if lines <? 5000 then "Medium" else "High" |}.

Definition _analyze_data_flow (o : PySet.SetOrder) (files : list FileRecord)
  : list string :=
  let flows :=
    flat_map (fun f =>
      let c := content f in
      (if contains "fetch(" c || contains "axios" c then ["HTTP API calls"] else [])
      ++ (if contains "useState" c || contains "state" c
          then ["State management"] else [])
      ++ (if contains "props" c then ["Component props"] else []))%list
    files in
  PySet.to_list o (PySet.of_list flows).

Definition _analyze_request_flow (o : PySet.SetOrder) (files : list FileRecord)
  : list string :=
  let flows :=
    flat_map (fun f =>
      let c := content f in
      (if contains "@app.route" c || contains "@router" c
       then ["Route handling"] else [])
      ++ (if contains "middleware" (lower c) then ["Middleware processing"] else [])
      ++ (if contains "authenticate" (lower c) || contains "auth" (lower c)
          then ["Authentication"] else []))%list
    files in
  PySet.to_list o (PySet.of_list flows).

Definition component_exts : list string := [".jsx"; ".tsx"; ".vue"].

Definition _analyze_component_hierarchy (files : list FileRecord)
  : ComponentHierarchy :=
  let comps := map name (filter (fun f => contains_any component_exts (name f)) files) in
  {| total_components := List.length comps;
     component_files := firstn 10 comps |}.

(* ----------------------------------------------------------------- *)
(** *** The aspect analyzers *)

Definition _analyze_overview (o : PySet.SetOrder) (files : list FileRecord)
  (langs : dict nat) (fws dbs : PySet.t) : Overview :=
  {| key_files :=
       map (fun f => {| kf_name := name f;
                        kf_purpose := _identify_file_purpose (name f) (content f);
                        kf_lines := line_count (content f) |})
           (filter (fun f =>
              contains_any ["main"; "index"; "app"; "server"; "package.json";
                            "requirements.txt"] (lower (name f)))
            files);
     entry_points :=
       map name
           (filter (fun f => contains "main(" (content f)
                             || contains "if __name__" (content f)
                             || contains "app.listen" (content f))
            files);
     project_type := _determine_project_type o fws langs;
     complexity_indicators := _get_complexity_indicators files |}.

Definition _analyze_frontend (o : PySet.SetOrder)
  (frontend_files : list FileRecord) (fws : PySet.t) : Frontend :=
  {| components :=
       map (fun f => {| comp_name := name f; comp_type := "Component";
                        exports := _extract_exports (content f);
                        imports := _extract_imports (content f) |})
           (filter (fun f => contains_any component_exts (name f)) frontend_files);
     styles :=
       map (fun f => {| style_name := name f; style_type := "Stylesheet";
                        classes := _extract_css_classes o (content f) |})
           (filter (fun f => contains_any [".css"; ".scss"; ".sass"] (name f))
                   frontend_files);
     routing_files :=
       map name
           (filter (fun f => contains "router" (lower (content f))
                             || contains "route" (lower (content f)))
                   frontend_files);
     state_management :=
       map name
           (filter (fun f => contains_any ["usestate"; "redux"; "vuex"; "context"]
                                          (lower (content f)))
                   frontend_files);
     frontend_frameworks_used :=
       PySet.to_list o (PySet.intersection o fws ["React"; "Vue"; "Angular"]) |}.

Definition _analyze_backend (o : PySet.SetOrder)
  (backend_files : list FileRecord) (fws dbs : PySet.t) : Backend :=
  {| api_files :=
       flat_map (fun f =>
                   match _extract_api_endpoints (content f) with
                   | [] => []
                   | eps => [{| api_file := name f; endpoints := eps |}]
                   end)
                backend_files;
     backend_models :=
       map (fun f => {| model_file := name f;
                        models := _extract_models (content f) |})
           (filter (fun f => contains "model" (lower (name f))
                             || contains "schema" (lower (name f)))
                   backend_files);
     middleware :=
       map name
           (filter (fun f => contains "middleware" (lower (content f))
                             || contains "@app.middleware" (content f))
                   backend_files);
     backend_frameworks_used :=
       PySet.to_list o
         (PySet.intersection o fws
            ["Django"; "Flask"; "FastAPI"; "Express"; "Spring"]);
     databases_used := PySet.to_list o dbs |}.

Definition _analyze_database (o : PySet.SetOrder)
  (database_files : list FileRecord) (dbs : PySet.t) : Database :=
  {| schemas :=
       map (fun f => {| schema_file := name f;
                        tables := _extract_sql_tables (content f) |})
           (filter (fun f => contains ".sql" (name f)) database_files);
     migrations :=
       map name (filter (fun f => contains "migration" (lower (name f)))
                        database_files);
     databases_detected := PySet.to_list o dbs |}.

(** The layer a file name stands for, first keyword first. *)
Definition layer_of (f : FileRecord) : list string :=
  let filename := lower (name f) in
  if contains "controller" filename then ["Controller Layer"]
  else if contains "service" filename then ["Service Layer"]
  else if contains "model" filename || contains "entity" filename
  then ["Data Layer"]
  else [].

Definition _analyze_architecture (o : PySet.SetOrder) (files : list FileRecord)
  (fws : PySet.t) (langs : dict nat) : Architecture :=
  let named kw := existsb (fun f => contains kw (lower (name f))) files in
  let pats :=
    ((if named "controller" then ["MVC"] else [])
     ++ (if named "service" then ["Service Layer"] else [])
     ++ (if named "repository" then ["Repository Pattern"] else []))%list in
  let lays := flat_map layer_of files in
  {| patterns := PySet.to_list o (PySet.of_list pats);
     layers := PySet.to_list o (PySet.of_list lays);
     separation_of_concerns := 1 <? List.length (PySet.of_list lays) |}.

Definition _analyze_flow (o : PySet.SetOrder) (files : list FileRecord)
  (fws : PySet.t) : Flow :=
  {| data_flow := _analyze_data_flow o files;
     request_flow := _analyze_request_flow o files;
     component_hierarchy := _analyze_component_hierarchy files |}.

(* ----------------------------------------------------------------- *)
(** *** [_generate_detailed_analysis] *)

Inductive Bucket : Type :=
| FrontendBucket | BackendBucket | DatabaseBucket | ConfigBucket.

Definition bucket_eqb (a b : Bucket) : bool :=
  match a, b with
  | FrontendBucket, FrontendBucket | BackendBucket, BackendBucket
  | DatabaseBucket, DatabaseBucket | ConfigBucket, ConfigBucket => true
  | _, _ => false
  end.

(** The [if]/[elif] chain of the categorising loop; [None] when no
    branch is taken and the file is appended to no list. *)
Definition categorize (f : FileRecord) : option Bucket :=
  let filename := lower (name f) in
  if contains_any [".jsx"; ".tsx"; ".vue"; ".html"; ".css"; ".scss"] filename
  then Some FrontendBucket
  else if contains_any [".py"; ".java"; ".php"; ".rb"; ".go"; ".cs"] filename
  then Some BackendBucket
  else if contains_any [".sql"; ".db"] filename
          || contains "database" filename || contains "model" filename
  then Some DatabaseBucket
  else if contains_any [".json"; ".yaml"; ".yml"; ".toml"; ".ini"; ".env"] filename
  then Some ConfigBucket
  else None.

Definition in_bucket (b : Bucket) (f : FileRecord) : bool :=
  match categorize f with
  | Some b' => bucket_eqb b b'
  | None => false
  end.

Definition _generate_detailed_analysis (o : PySet.SetOrder)
  (file_contents : list FileRecord) (langs : dict nat) (fws dbs : PySet.t)
  : DetailedAnalysis :=
  let frontend_files := filter (in_bucket FrontendBucket) file_contents in
  let backend_files := filter (in_bucket BackendBucket) file_contents in
  let database_files := filter (in_bucket DatabaseBucket) file_contents in
  {| overview := _analyze_overview o file_contents langs fws dbs;
     frontend := _analyze_frontend o frontend_files fws;
     backend := _analyze_backend o backend_files fws dbs;
     database := _analyze_database o database_files dbs;
     architecture := _analyze_architecture o file_contents fws langs;
     flow := _analyze_flow o file_contents fws |}.

(* ----------------------------------------------------------------- *)
(** *** [analyze_files] and [analyze_repository] *)

Definition analyze_files (o : PySet.SetOrder) (file_contents : list FileRecord)
  : AnalysisResult :=
  let st := scan file_contents in
  let langs := languages st in
  let fws := frameworks st in
  let dbs := databases st in
  let main := max_by (fun k => get_default langs k 0) (keys langs) in
  let fw := hd_error (PySet.to_list o fws) in
  let techs :=
    PySet.to_list o
      (PySet.of_list (keys langs ++ PySet.to_list o fws ++ PySet.to_list o dbs)%list) in
  let score := complexity_of (total_lines st) in
  let arch := _determine_architecture o fws langs in
  {| summary :=
       _generate_summary main fw arch (List.length file_contents) techs score;
     technologies := techs;
     structure := join (String newline EmptyString) (file_structure st);
     context :=
       {| ctx_files := file_contents; ctx_languages := langs;
          ctx_frameworks := PySet.to_list o fws;
          ctx_databases := PySet.to_list o dbs;
          ctx_total_lines := total_lines st;
          ctx_file_count := List.length file_contents;
          ctx_repository := None |};
     files_analyzed := List.length file_contents;
     main_language := main;
     framework := fw;
     architecture_type := Some arch;
     complexity_score := score;
     detailed_analysis :=
       _generate_detailed_analysis o file_contents langs fws dbs |}.

(** What [clone_and_analyze] hands over: the files by path, and the
    repository's metadata. *)
Record RepoData : Type := {
  rd_files : dict string;
  rd_info : RepositoryInfo }.

(** [guess_type] stands for [mimetypes.guess_type(path)[0]]. *)
Definition analyze_repository (o : PySet.SetOrder)
  (guess_type : string -> option string) (repo_data : RepoData)
  : AnalysisResult :=
  let file_contents :=
    map (fun kv => {| name := fst kv; content := snd kv;
                      type_ := guess_type (fst kv) |})
        (rd_files repo_data) in
  let r := analyze_files o file_contents in
  let c := context r in
  {| summary := summary r; technologies := technologies r;
     structure := structure r;
     context :=
       {| ctx_files := ctx_files c; ctx_languages := ctx_languages c;
          ctx_frameworks := ctx_frameworks c; ctx_databases := ctx_databases c;
          ctx_total_lines := ctx_total_lines c;
          ctx_file_count := ctx_file_count c;
          ctx_repository := Some (rd_info repo_data) |};
     files_analyzed := files_analyzed r; main_language := main_language r;
     framework := framework r; architecture_type := architecture_type r;
     complexity_score := complexity_score r;
     detailed_analysis := detailed_analysis r |}.

End ProjectAnalyzer.

(* ================================================================= *)
(** ** [main.py]: the two analysis endpoints *)

Module Main.
Import PyStr.

(** What a Python block can raise here: FastAPI's [HTTPException], or
    any other exception with its message. *)
Inductive exn : Type :=
| HTTPException (status_code : nat) (detail : string)
| Exception (message : string).

(** [str(e)]; Starlette prints an [HTTPException] as status, colon,
    detail. *)
Definition str_of_exn (e : exn) : string :=
  match e with
  | HTTPException code d => str_of_nat code ++ ": " ++ d
  | Exception m => m
  end.

Definition outcome (A : Type) : Type := (exn + A)%type.

(** [try: body / except Exception as e: raise HTTPException(500, ...)]:
    whatever the body raises, its own [HTTPException] included, leaves
    the handler as a 500. *)
Definition reraise_500 {A} (prefix : string) (body : outcome A) : outcome A :=
  match body with
  | inl e => inl (HTTPException 500 (prefix ++ str_of_exn e))
  | inr x => inr x
  end.

(** An [UploadFile] once read: its text is what
    [content.decode('utf-8', errors='ignore')] returns. *)
Record UploadFile : Type := {
  filename : string;
  text : string;
  content_type : option string }.

(** The [AnalysisResponse] built from the keys of [analysis_result]: the
    model declares no [detailed_analysis], so that key is left out. *)
Record AnalysisResponse : Type := {
  summary : string;
  technologies : list string;
  structure : string;
  context : ProjectAnalyzer.Context;
  files_analyzed : nat;
  main_language : option string;
  framework : option string;
  architecture_type : option string;
  complexity_score : option Q }.

Definition response_of (r : ProjectAnalyzer.AnalysisResult) : AnalysisResponse :=
  {| summary := ProjectAnalyzer.summary r;
     technologies := ProjectAnalyzer.technologies r;
     structure := ProjectAnalyzer.structure r;
     context := ProjectAnalyzer.context r;
     files_analyzed := ProjectAnalyzer.files_analyzed r;
     main_language := ProjectAnalyzer.main_language r;
     framework := ProjectAnalyzer.framework r;
     architecture_type := ProjectAnalyzer.architecture_type r;
     complexity_score := Some (ProjectAnalyzer.complexity_score r) |}.

Definition file_record (u : UploadFile) : ProjectAnalyzer.FileRecord :=
  {| ProjectAnalyzer.name := filename u;
     ProjectAnalyzer.content := text u;
     ProjectAnalyzer.type_ := content_type u |}.

(** [POST /api/analyze-files].  Storing the result in the vector store
    catches its own errors and returns nothing, so it does not show. *)
Definition analyze_files (o : PySet.SetOrder) (files : list UploadFile)
  : outcome AnalysisResponse :=
  reraise_500 "Analysis failed: "
    match files with
    | [] => inl (HTTPException 400 "No files provided")
    | _ =>
        let file_contents := map file_record files in
        inr (response_of (ProjectAnalyzer.analyze_files o file_contents))
    end.

(** [POST /api/analyze-github]; [cloned] is what
    [github_service.clone_and_analyze] returned or raised. *)
Definition analyze_github (o : PySet.SetOrder)
  (guess_type : string -> option string)
  (cloned : outcome ProjectAnalyzer.RepoData) : outcome AnalysisResponse :=
  reraise_500 "GitHub analysis failed: "
    match cloned with
    | inl e => inl e
    | inr repo_data =>
        inr (response_of (ProjectAnalyzer.analyze_repository o guess_type repo_data))
    end.

End Main.

(* ================================================================= *)
(** ** More Python strings and lists *)

Module PyMore.
Import PyStr.

(** [s.startswith(p)] *)
Definition starts_with (p s : string) : bool := String.prefix p s.

(** [s.endswith(p)] *)
Definition ends_with (p s : string) : bool :=
  (String.length p <=? String.length s)
  && String.eqb (drop (String.length s - String.length p) s) p.

(** [s.lstrip()], [s.rstrip()], [s.strip()]: whitespace is what [\s]
    matches. *)
Fixpoint lstrip (s : string) : string :=
  match s with
  | EmptyString => EmptyString
  | String c t => if Re.is_space c then lstrip t else s
  end.

Fixpoint rstrip (s : string) : string :=
  match s with
  | EmptyString => EmptyString
  | String c t =>
      match rstrip t with
      | EmptyString => if Re.is_space c then EmptyString else String c EmptyString
      | t' => String c t'
      end
  end.

Definition strip (s : string) : string := rstrip (lstrip s).

(** [x in l] for a list, a set or a tuple of strings. *)
Definition mem (x : string) (l : list string) : bool := existsb (String.eqb x) l.

(** [sorted(l)] on strings: insertion into an ordered list, by the
    order of the character codes. *)
Fixpoint insert (x : string) (l : list string) : list string :=
  match l with
  | [] => [x]
  | y :: r => if String.leb x y then x :: l else y :: insert x r
  end.

Definition sorted (l : list string) : list string := fold_right insert [] l.

(** [re.search] of a pattern that the source writes after [(^|/)]: a
    match of [r] at the very start, or right behind a slash anywhere. *)
Definition search_at_start_or_slash (ic : bool) (r : Re.re) (s : string) : bool :=
  match Re.match_at ic r s with
  | Some _ => true
  | None => Re.search ic (Re.Cat (Re.Lit "/") r) s
  end.

(** [re.match(r, s)]: a match at the start, with its groups. *)
Definition re_match (ic : bool) (r : Re.re) (s : string) : option Re.caps :=
  match Re.match_at ic r s with
  | Some (_, cs) => Some cs
  | None => None
  end.

End PyMore.

(* ================================================================= *)
(** ** [extract_imports_and_dependencies] of [project_analyzer.py] *)

Module Dependencies.
Import PyStr Re.

(** [a-zA-Z_][a-zA-Z0-9_]* *)
Definition identifier : re :=
  Cat (Cls false [Range "a" "z"; Range "A" "Z"; Ch "_"])
      (Star (Cls false [Range "a" "z"; Range "A" "Z"; Range "0" "9"; Ch "_"])).

(** import\s+(identifier)   and   from\s+(identifier)\s+import *)
Definition python_import_patterns : list re :=
  [ Seq [Str "import"; Plus ProjectAnalyzer.sp; Grp 1 identifier];
    Seq [Str "from"; Plus ProjectAnalyzer.sp; Grp 1 identifier;
         Plus ProjectAnalyzer.sp; Str "import"] ].

(** import.*from\s+[quote]([^quote]+)[quote]   and
    require\([quote]([^quote]+)[quote]\) *)
Definition js_import_patterns : list re :=
  [ Seq [Str "import"; Star Dot; Str "from"; Plus ProjectAnalyzer.sp;
         quote; Grp 1 unquoted; quote];
    Seq [Str "require("; quote; Grp 1 unquoted; quote; Lit ")"] ].

Definition extract_imports_and_dependencies (o : PySet.SetOrder)
  (text language : string) : list string :=
  let dependencies :=
    if PyMore.mem language ["Python"]
    then flat_map (fun p => findall1 false p text) python_import_patterns
    else if PyMore.mem language ["JavaScript"; "TypeScript"; "React"]
    then flat_map (fun p => findall1 false p text) js_import_patterns
    else [] in
  PySet.to_list o (PySet.of_list dependencies).

End Dependencies.

(* ================================================================= *)
(** ** [services/github_service.py]: the choice of files and the URL *)

Module GitHubService.
Import PyStr Re.

(** [self.text_extensions] *)
Definition text_extensions : list string :=
  [ ".py"; ".js"; ".jsx"; ".ts"; ".tsx"; ".java"; ".cpp"; ".c"; ".cs";
    ".php"; ".rb"; ".go"; ".rs"; ".swift"; ".kt"; ".scala"; ".html";
    ".css"; ".scss"; ".sass"; ".json"; ".xml"; ".yaml"; ".yml"; ".md";
    ".txt"; ".sql"; ".sh"; ".bat"; ".ps1"; ".dockerfile"; ".gitignore";
    ".env"; ".config"; ".ini"; ".toml" ].

Definition allowed_hidden : list string :=
  [".env"; ".gitignore"; ".dockerignore"; ".eslintrc"; ".prettierrc"].

Definition skip_dirs : list string :=
  [ "node_modules"; "__pycache__"; ".git"; ".vscode"; ".idea";
    "venv"; "env"; "build"; "dist"; "target"; "bin"; "obj";
    "logs"; "tmp"; "temp"; "cache"; ".next"; ".nuxt" ].

Definition skip_extensions : list string :=
  [ ".exe"; ".dll"; ".so"; ".dylib"; ".bin"; ".dat";
    ".jpg"; ".jpeg"; ".png"; ".gif"; ".bmp"; ".svg"; ".ico";
    ".mp4"; ".avi"; ".mov"; ".wmv"; ".flv"; ".webm";
    ".mp3"; ".wav"; ".ogg"; ".flac"; ".aac";
    ".zip"; ".tar"; ".gz"; ".rar"; ".7z";
    ".pdf"; ".doc"; ".docx"; ".xls"; ".xlsx"; ".ppt"; ".pptx" ].

(** [_should_skip_file], on the path relative to the repository. *)
Definition _should_skip_file (file_path : string) : bool :=
  let parts := PyPath.parts file_path in
  if existsb (PyMore.starts_with ".") parts
     && negb (PyMore.mem (PyPath.name file_path) allowed_hidden)
  then true
  else if existsb (fun part => PyMore.mem part skip_dirs) parts then true
  else if PyMore.mem (lower (PyPath.suffix file_path)) skip_extensions then true
  else false.

(** The two tests on the name that [clone_and_analyze] applies to a file
    before reading it (the limits on size and count come after). *)
Definition name_accepted (file_path : string) : bool :=
  negb (_should_skip_file file_path)
  && PyMore.mem (lower (PyPath.suffix file_path)) text_extensions.

(** [^/]+ *)
Definition no_slash : re := Plus (Cls true [Ch "/"]).

(** (?:\.git)? *)
Definition opt_git : re := Opt (Str ".git").

(** The three patterns of [_parse_github_url]:
    https://github\.com/([^/]+)/([^/]+)(?:\.git)?/?$ ,
    git@github\.com:([^/]+)/([^/]+)(?:\.git)?$ ,
    https://www\.github\.com/([^/]+)/([^/]+)(?:\.git)?/?$ *)
Definition url_patterns : list re :=
  [ Seq [Str "https://github.com/"; Grp 1 no_slash; Lit "/"; Grp 2 no_slash;
         opt_git; Opt (Lit "/"); Eol];
    Seq [Str "git@github.com:"; Grp 1 no_slash; Lit "/"; Grp 2 no_slash;
         opt_git; Eol];
    Seq [Str "https://www.github.com/"; Grp 1 no_slash; Lit "/"; Grp 2 no_slash;
         opt_git; Opt (Lit "/"); Eol] ].

(** The loop over the patterns: the first that matches decides. *)
Fixpoint first_match (patterns : list re) (s : string) : option (string * string) :=
  match patterns with
  | [] => None
  | p :: rest =>
      match PyMore.re_match false p s with
      | Some cs =>
          let owner := group cs 1 in
          let repo := group cs 2 in
          Some (owner,
                if PyMore.ends_with ".git" repo
                then take (String.length repo - 4) repo else repo)
      | None => first_match rest s
      end
  end.

(** [_parse_github_url]: the owner and the repository, or [None]. *)
Definition _parse_github_url (url : string) : option (string * string) :=
  first_match url_patterns (PyMore.strip url).

End GitHubService.

(* ================================================================= *)
(** ** [services/flow_diagram_service.py] *)

Module FlowDiagramService.
Import PyStr Re.

(** An entry of [project_context['files']] that is a dict, read with
    [f.get('name', '')] and [f.get('content', '')]. *)
Record FileEntry : Type := { entry_name : string; entry_content : string }.

(** What the service reads of [project_context]; [main_language] is what
    [get('main_language', 'Unknown')] returns, [None] for a null. *)
Record ProjectContext : Type := {
  files : list FileEntry;
  frameworks : list string;
  databases : list string;
  main_language : option string }.

Record Node : Type := {
  node_id : string; node_label : string; node_type : string;
  node_x : nat; node_y : nat }.

Record Edge : Type := {
  edge_id : string; source : string; target : string; edge_label : string }.

Record Diagram : Type := {
  mermaid : string; nodes : list Node; edges : list Edge }.

(** src/.*\.(jsx?|tsx?)$ , which the source writes after (^|/) *)
Definition frontend_dir : re :=
  Seq [Str "src/"; Star Dot; Lit ".";
       Alt (Cat (Str "js") (Opt (Lit "x"))) (Cat (Str "ts") (Opt (Lit "x")));
       Eol].

(** (server|api|backend)/ , which the source writes after (^|/) *)
Definition backend_dir : re :=
  Seq [Alt (Str "server") (Alt (Str "api") (Str "backend")); Lit "/"].

(** (mongodb|postgres|mysql|sqlite|redis|prisma|sequelize|typeorm|psycopg2) *)
Definition db_word : re :=
  Alt (Str "mongodb") (Alt (Str "postgres") (Alt (Str "mysql")
  (Alt (Str "sqlite") (Alt (Str "redis") (Alt (Str "prisma")
  (Alt (Str "sequelize") (Alt (Str "typeorm") (Str "psycopg2")))))))).

Definition _has_frontend_dirs (fs : list FileEntry) : bool :=
  existsb (fun f => PyMore.search_at_start_or_slash true frontend_dir (entry_name f)) fs.

Definition _has_backend_dirs (fs : list FileEntry) : bool :=
  existsb (fun f => PyMore.search_at_start_or_slash true backend_dir (entry_name f)
                    || PyMore.ends_with ".py" (entry_name f)) fs.

Definition _has_db_files (fs : list FileEntry) : bool :=
  existsb (fun f => search true db_word (entry_content f)
                    || PyMore.ends_with ".sql" (lower (entry_name f))) fs.

Definition generate_diagram (o : PySet.SetOrder) (project_context : ProjectContext)
  : Diagram :=
  let fws := PySet.of_list (frameworks project_context) in
  let dbs := PySet.of_list (databases project_context) in
  let has_frontend :=
    existsb (fun fw => PyMore.mem fw ["React"; "Vue"; "Angular"]) (PySet.to_list o fws)
    || _has_frontend_dirs (files project_context) in
  let has_backend :=
    existsb (fun fw => PyMore.mem fw ["Express"; "Django"; "Flask"; "FastAPI";
                                      "Spring"; "Laravel"; "Rails"])
            (PySet.to_list o fws)
    || _has_backend_dirs (files project_context) in
  let has_db := PySet.nonempty dbs || _has_db_files (files project_context) in
  let src := if has_frontend then "frontend" else "user" in
  let node_list :=
    ([ {| node_id := "user"; node_label := "User"; node_type := "actor";
          node_x := 0; node_y := 0 |} ]
     ++ (if has_frontend
         then [ {| node_id := "frontend"; node_label := "Frontend UI";
                   node_type := "component"; node_x := 200; node_y := 0 |} ]
         else [])
     ++ (if has_backend
         then [ {| node_id := "backend"; node_label := "Backend API";
                   node_type := "service"; node_x := 450; node_y := 0 |} ]
         else [])
     ++ (if has_db
         then [ {| node_id := "db"; node_label := "Database";
                   node_type := "database"; node_x := 700; node_y := 0 |} ]
         else []))%list in
  let edge_list :=
    ((if has_frontend
      then [ {| edge_id := "e1"; source := "user"; target := "frontend";
                edge_label := "interacts" |} ]
      else [])
     ++ (if has_backend
         then [ {| edge_id := "e2"; source := src; target := "backend";
                   edge_label := "HTTP/REST" |} ]
         else [])
     ++ (if has_db && has_backend
         then [ {| edge_id := "e3"; source := "backend"; target := "db";
                   edge_label := "CRUD" |} ]
         else []))%list in
  let tech_badges :=
    ((if PySet.nonempty fws
      then [ ("Frameworks: " ++ join ", " (PyMore.sorted (PySet.to_list o fws)))%string ]
      else [])
     ++ (if PySet.nonempty dbs
         then [ ("Databases: " ++ join ", " (PyMore.sorted (PySet.to_list o dbs)))%string ]
         else [])
     ++ (match main_language project_context with
         | Some l => if negb (String.eqb l "") && negb (String.eqb l "Unknown")
                     then [ ("Language: " ++ l)%string ] else []
         | None => []
         end))%list in
  let attach_to :=
    if has_frontend then "frontend" else if has_backend then "backend" else "user" in
  let mermaid_lines :=
    ([ "graph LR"; "    user([User])" ]
     ++ (if has_frontend
         then [ "    frontend[[Frontend UI]]"; "    user -->|interacts| frontend" ]
         else [])
     ++ (if has_backend
         then [ "    backend[(Backend API)]";
                ("    " ++ src ++ " -->|HTTP/REST| backend")%string ]
         else [])
     ++ (if has_db
         then "    db[(Database)]"
              :: (if has_backend then [ "    backend -->|CRUD| db" ] else [])
         else [])
     ++ (match tech_badges with
         | [] => []
         | _ => [ ("    note1[/" ++ join " | " tech_badges ++ "/]")%string;
                  ("    note1 --- " ++ attach_to)%string ]
         end))%list in
  {| mermaid := join (String newline "") mermaid_lines;
     nodes := node_list;
     edges := edge_list |}.

End FlowDiagramService.

(* ================================================================= *)
(** * Properties *)

Import PyStr PyDict.
Import ProjectAnalyzer.

Local Open Scope string_scope.

(** Position of the first occurrence of [k] in [l]; the length of [l]
    when there is none. *)
Fixpoint position (k : string) (l : list string) : nat :=
  match l with
  | [] => 0
  | x :: r => if String.eqb x k then 0 else S (position k r)
  end.

(** The language of every file, in input order. *)
Definition file_languages (files : list FileRecord) : list string :=
  map (fun f => language_of (name f)) files.

(** Index of the first file whose language is [k]. *)
Definition first_file (k : string) (files : list FileRecord) : nat :=
  position k (file_languages files).

(** A file counts for the histogram when its language is known. *)
Definition known_language (f : FileRecord) : bool :=
  negb (String.eqb (language_of (name f)) "Unknown").

(** Some signature that the catalog lists for framework [fw] is found in
    the file. *)
Definition has_signature (fw : string) (f : FileRecord) : bool :=
  existsb (fun entry => String.eqb (fst entry) fw
                        && matches_any (snd entry) (content f))
          framework_patterns.

(** The quotient [total_lines / 1000.0], before the [min]. *)
Definition quotient (n : nat) : Q :=
  Float64.div (Float64.of_int (Z.of_nat n)) 1000.

(** The five architecture labels. *)
Definition architecture_labels : list string :=
  ["Full-stack"; "Frontend"; "Backend"; "Static Website"; "Unknown"].

(** *** Sample inputs *)

Definition nl : string := String newline "".

Definition file (n text : string) : FileRecord :=
  {| name := n; content := text; type_ := None |}.

(** Scenario 1 of the specification. *)
Definition server_py : FileRecord :=
  file "server.py" ("from fastapi import FastAPI" ++ nl ++ "@app.get('/users')").

(** Scenario 2 of the specification. *)
Definition app_jsx : FileRecord := file "App.jsx" "import React from 'react'".
Definition flask_py : FileRecord := file "server.py" "from flask import Flask".

(** A file with no extension and no signature. *)
Definition readme : FileRecord := file "README" "hello".

(** A TypeScript file: its name falls in none of the four buckets. *)
Definition controller_ts : FileRecord := file "UserController.ts" "".

(** Two languages with the same count. *)
Definition tie_files : list FileRecord :=
  [file "a.js" "x"; file "b.py" "y"; file "c.py" "z"; file "d.js" "w"].

(** A repository in which no file passed the fetcher's filters. *)
Definition empty_repo : RepoData :=
  {| rd_files := [];
     rd_info := {| repo_url := None; repo_name := None; repo_description := None;
                   repo_stars := 0; repo_forks := 0; repo_language := None;
                   repo_topics := [] |} |}.

(* ----------------------------------------------------------------- *)
(** *** Vocabulary of the further properties *)

(** Number of files whose language is [k]. *)
Definition files_in_language (k : string) (files : list FileRecord) : nat :=
  List.length (filter (fun f => String.eqb (language_of (name f)) k) files).




(** What a successful run of the matcher did: [matched ic r s cs s' cs']
    says that [r] took a prefix of [s], leaving [s'], and turned the group
    bindings [cs] into [cs']. *)
Inductive matched (ic : bool) : Re.re -> string -> Re.caps -> string -> Re.caps -> Prop :=
| matched_Eps s cs : matched ic Re.Eps s cs s cs
| matched_Lit c a t cs :
    Re.lit_match ic c a = true -> matched ic (Re.Lit c) (String a t) cs t cs
| matched_Dot a t cs :
    Ascii.eqb a newline = false -> matched ic Re.Dot (String a t) cs t cs
| matched_Cls neg items a t cs :
    Re.cls_match ic neg items a = true ->
    matched ic (Re.Cls neg items) (String a t) cs t cs
| matched_Cat a b s cs s1 cs1 s2 cs2 :
    matched ic a s cs s1 cs1 -> matched ic b s1 cs1 s2 cs2 ->
    matched ic (Re.Cat a b) s cs s2 cs2
| matched_Alt_l a b s cs s' cs' :
    matched ic a s cs s' cs' -> matched ic (Re.Alt a b) s cs s' cs'
| matched_Alt_r a b s cs s' cs' :
    matched ic b s cs s' cs' -> matched ic (Re.Alt a b) s cs s' cs'
| matched_Star_0 a s cs : matched ic (Re.Star a) s cs s cs
| matched_Star_S a s cs s1 cs1 s2 cs2 :
    matched ic a s cs s1 cs1 -> matched ic (Re.Star a) s1 cs1 s2 cs2 ->
    matched ic (Re.Star a) s cs s2 cs2
| matched_Grp n a s cs s' cs' :
    matched ic a s cs s' cs' ->
    matched ic (Re.Grp n a) s cs s'
      ((n, take (String.length s - String.length s') s) :: cs')
| matched_Eol_end cs : matched ic Re.Eol "" cs "" cs
| matched_Eol_newline cs :
    matched ic Re.Eol (String newline "") cs (String newline "") cs.

(** No group inside. *)
Fixpoint groupless (r : Re.re) : bool :=
  match r with
  | Re.Cat a b | Re.Alt a b => groupless a && groupless b
  | Re.Star a => groupless a
  | Re.Grp _ _ => false
  | _ => true
  end.

(** Every character of the string passes the test. *)
Fixpoint all_chars (p : ascii -> bool) (w : string) : bool :=
  match w with
  | EmptyString => true
  | String c t => p c && all_chars p t
  end.

(** The first character of a string passes the test. *)
Definition first_char (p : ascii -> bool) (w : string) : bool :=
  match w with
  | EmptyString => false
  | String c _ => p c
  end.

Definition http_methods : list string := ["GET"; "POST"; "PUT"; "DELETE"; "PATCH"].

(** A character of a CSS class name: a letter, a digit, an underscore
    or a hyphen. *)
Definition is_css_char (c : ascii) : bool := Re.is_word c || Ascii.eqb c "-".

(** The order [sorted] sorts by. *)
Definition leq (a b : string) : Prop := String.leb a b = true.

(** *** Proof steps *)

(** A case for each of the 256 characters. *)
Ltac all_ascii a := destruct a as [[] [] [] [] [] [] [] []]; vm_compute; auto.


Ltac inv_cat :=
  match goal with
  | H : matched _ (Re.Cat _ _) _ _ _ _ |- _ => inversion H; subst; clear H
  end.
Ltac inv_grp :=
  match goal with
  | H : matched _ (Re.Grp _ _) _ _ _ _ |- _ => inversion H; subst; clear H
  end.
Ltac inv_lit :=
  match goal with
  | H : matched _ (Re.Lit _) _ _ _ _ |- _ => inversion H; subst; clear H
  end.
Ltac inv_quote :=
  match goal with
  | H : matched _ Re.quote _ _ _ _ |- _ => inversion H; subst; clear H
  end.

(** Peel a sequence: a part without groups leaves the bindings alone
    (by [unchanged], the lemma that says so), a part with a group is
    taken apart. *)
Ltac peel_with unchanged :=
  repeat first
    [ match goal with
      | H : matched _ ?r _ _ _ _ |- _ =>
          let g := eval compute in (groupless r) in
          match g with
          | true => apply unchanged in H; [subst | reflexivity]
          end
      end
    | match goal with
      | H : matched _ (Re.Cat _ _) _ _ _ _ |- _ => inversion H; subst; clear H
      | H : matched _ (Re.Alt _ _) _ _ _ _ |- _ => inversion H; subst; clear H
      | H : matched _ (Re.Seq _) _ _ _ _ |- _ => cbn [Re.Seq] in H
      end ].

(* ----------------------------------------------------------------- *)
(** ** Lists, positions *)

Lemma position_lt_In k l : position k l < List.length l <-> In k l.
Proof.
  induction l as [|x r IH]; simpl.
  - split; [lia | tauto].
  - destruct (String.eqb_spec x k) as [->|Hne].
    + split; [auto | lia].
    + rewrite <- IH. split; intros H.
      * right. lia.
      * destruct H as [H|H]; [congruence | lia].
Qed.

Lemma position_app_l k l m : In k l -> position k (l ++ m) = position k l.
Proof.
  induction l as [|x r IH]; simpl; intros H; [tauto|].
  destruct (String.eqb_spec x k) as [->|Hne]; [reflexivity|].
  destruct H as [H|H]; [congruence|]. now rewrite IH.
Qed.

Lemma position_app_r k l m :
  ~ In k l -> position k (l ++ m) = List.length l + position k m.
Proof.
  induction l as [|x r IH]; simpl; intros H; [reflexivity|].
  destruct (String.eqb_spec x k) as [->|Hne]; [tauto|].
  rewrite IH; tauto.
Qed.

Lemma position_inj a b l :
  In a l -> position a l = position b l -> a = b.
Proof.
  induction l as [|x r IH]; simpl; intros Ha E; [tauto|].
  destruct (String.eqb_spec x a) as [Exa|Hxa];
    destruct (String.eqb_spec x b) as [Exb|Hxb]; try congruence; try lia.
  destruct Ha as [Ha|Ha]; [congruence|]. apply IH; [assumption | lia].
Qed.

(* ----------------------------------------------------------------- *)
(** ** Dicts *)

Lemma get_In_keys {V} (d : dict V) k : In k (keys d) <-> exists v, get d k = Some v.
Proof.
  induction d as [|[k' v'] r IH]; simpl.
  - split; [tauto | intros [v H]; discriminate].
  - destruct (String.eqb_spec k' k) as [->|Hne].
    + split; eauto.
    + rewrite <- IH. split; [intros [H|H]; [congruence | assumption] | auto].
Qed.

Lemma mem_In_keys {V} (d : dict V) k : mem d k = true <-> In k (keys d).
Proof.
  rewrite get_In_keys. unfold mem. destruct (get d k) as [v|].
  - split; eauto.
  - split; [discriminate | intros [v H]; discriminate].
Qed.

Lemma keys_set {V} (d : dict V) k v :
  keys (set d k v) = if mem d k then keys d else (keys d ++ [k])%list.
Proof.
  unfold mem. induction d as [|[k' v'] r IH]; simpl; [reflexivity|].
  destruct (String.eqb_spec k' k) as [->|Hne]; simpl; [reflexivity|].
  rewrite IH. now destruct (get r k).
Qed.

Lemma sum_values_set (d : dict nat) k :
  list_sum (values (set d k (get_default d k 0 + 1))) = list_sum (values d) + 1.
Proof.
  unfold get_default. induction d as [|[k' v'] r IH]; simpl; [reflexivity|].
  destruct (String.eqb_spec k' k) as [->|Hne]; simpl; [lia|].
  rewrite IH. lia.
Qed.

Lemma Forall_set {V} (P : string * V -> Prop) (d : dict V) k v :
  Forall P d -> (forall k', P (k', v)) -> Forall P (set d k v).
Proof.
  intros Hd Hv. induction Hd as [|[k' v'] r Hx Hr IH]; simpl.
  - constructor; [apply Hv | constructor].
  - destruct (String.eqb k' k); constructor; auto.
Qed.

(* ----------------------------------------------------------------- *)
(** ** The scan, component by component *)

Lemma fold_scan_languages files st :
  languages (fold_left scan_file files st)
  = fold_left count_language (file_languages files) (languages st).
Proof.
  revert st. induction files as [|f r IH]; intros st; simpl; [reflexivity|].
  now rewrite IH.
Qed.

Lemma fold_scan_total_lines files st :
  total_lines (fold_left scan_file files st) = total_lines st + sum_lines files.
Proof.
  revert st. unfold sum_lines.
  induction files as [|f r IH]; intros st; simpl; [lia|].
  rewrite IH. simpl. lia.
Qed.

Lemma fold_scan_file_structure files st :
  file_structure (fold_left scan_file files st)
  = (file_structure st ++ map structure_entry files)%list.
Proof.
  revert st. induction files as [|f r IH]; intros st; simpl.
  - now rewrite app_nil_r.
  - rewrite IH. simpl. now rewrite <- app_assoc.
Qed.

Lemma fold_scan_frameworks files st :
  frameworks (fold_left scan_file files st)
  = fold_left (fun acc f => detect framework_patterns (content f) acc)
              files (frameworks st).
Proof.
  revert st. induction files as [|f r IH]; intros st; simpl; [reflexivity|].
  now rewrite IH.
Qed.

Lemma fold_scan_databases files st :
  databases (fold_left scan_file files st)
  = fold_left (fun acc f => detect database_patterns (content f) acc)
              files (databases st).
Proof.
  revert st. induction files as [|f r IH]; intros st; simpl; [reflexivity|].
  now rewrite IH.
Qed.

(* ----------------------------------------------------------------- *)
(** ** The language histogram *)

Lemma count_language_sum d lang :
  list_sum (values (count_language d lang))
  = list_sum (values d) + (if String.eqb lang "Unknown" then 0 else 1).
Proof.
  unfold count_language. destruct (String.eqb lang "Unknown"); simpl.
  - lia.
  - apply sum_values_set.
Qed.

Lemma count_language_positive d lang :
  Forall (fun kv => 1 <= snd kv) d ->
  Forall (fun kv => 1 <= snd kv) (count_language d lang).
Proof.
  intros H. unfold count_language.
  destruct (negb (String.eqb lang "Unknown")); [|assumption].
  apply Forall_set; [assumption | intros k'; simpl; lia].
Qed.

Lemma histogram_sum langs d :
  list_sum (values (fold_left count_language langs d))
  = list_sum (values d)
    + List.length (filter (fun l => negb (String.eqb l "Unknown")) langs).
Proof.
  revert d. induction langs as [|l r IH]; intros d; simpl; [lia|].
  rewrite IH, count_language_sum.
  destruct (String.eqb l "Unknown"); simpl; lia.
Qed.

Lemma histogram_positive langs d :
  Forall (fun kv => 1 <= snd kv) d ->
  Forall (fun kv => 1 <= snd kv) (fold_left count_language langs d).
Proof.
  revert d. induction langs as [|l r IH]; intros d H; simpl; [assumption|].
  apply IH, count_language_positive, H.
Qed.

Lemma known_files_length files :
  List.length (filter (fun l => negb (String.eqb l "Unknown")) (file_languages files))
  = List.length (filter known_language files).
Proof.
  unfold file_languages, known_language.
  induction files as [|f r IH]; simpl; [reflexivity|].
  destruct (negb (String.eqb (language_of (name f)) "Unknown")); simpl; lia.
Qed.

(** C6. After the scan of any file sequence, the counts of the language
    histogram (the dict the result carries as [context['languages']]) add
    up to the number of files whose extension resolved to a language other
    than "Unknown", and every key of the histogram has a count of at
    least 1. *)
Theorem C6_histogram_sound (o : PySet.SetOrder) (files : list FileRecord) :
  let h := ctx_languages (context (analyze_files o files)) in
  list_sum (values h) = List.length (filter known_language files)
  /\ Forall (fun kv => 1 <= snd kv) h.
Proof.
  simpl. unfold scan. rewrite fold_scan_languages. simpl. split.
  - rewrite histogram_sum, known_files_length. reflexivity.
  - apply histogram_positive. constructor.
Qed.

(* ----------------------------------------------------------------- *)
(** ** Line counts and the structure listing *)

Lemma split_nonempty sep s : split sep s <> [].
Proof.
  destruct s as [|c t]; simpl; [discriminate|].
  destruct (Ascii.eqb c sep); [discriminate|].
  destruct (split sep t); discriminate.
Qed.

Lemma split_length sep s : List.length (split sep s) = count_char sep s + 1.
Proof.
  induction s as [|c t IH]; simpl; [reflexivity|].
  destruct (Ascii.eqb c sep); simpl.
  - now rewrite IH.
  - destruct (split sep t) as [|h r] eqn:E.
    + now destruct (split_nonempty sep t).
    + simpl in *. exact IH.
Qed.

Lemma count_char_app c a b :
  count_char c (a ++ b) = count_char c a + count_char c b.
Proof. induction a as [|x t IH]; simpl; [reflexivity | rewrite IH; lia]. Qed.

Lemma split_no_sep sep s : count_char sep s = 0 -> split sep s = [s].
Proof.
  induction s as [|c t IH]; simpl; [reflexivity|].
  destruct (Ascii.eqb c sep); [discriminate|]. simpl. intros H.
  now rewrite (IH H).
Qed.

Lemma split_app_sep sep a b :
  count_char sep a = 0 ->
  split sep (a ++ String sep b) = a :: split sep b.
Proof.
  induction a as [|c t IH]; simpl.
  - now rewrite Ascii.eqb_refl.
  - destruct (Ascii.eqb c sep); [discriminate|]. simpl. intros H.
    now rewrite (IH H).
Qed.

Lemma split_join sep parts :
  parts <> [] -> Forall (fun p => count_char sep p = 0) parts ->
  split sep (join (String sep "") parts) = parts.
Proof.
  intros Hne Hall. induction Hall as [|p r Hp Hr IH]; [congruence|].
  destruct r as [|q r'].
  - simpl. now apply split_no_sep.
  - change (join (String sep "") (p :: q :: r'))
      with (p ++ String sep (join (String sep "") (q :: r'))).
    rewrite split_app_sep by assumption. f_equal. apply IH. discriminate.
Qed.

Lemma uint_no_newline d : count_char newline (NilEmpty.string_of_uint d) = 0.
Proof. induction d; simpl; auto. Qed.

Lemma str_of_nat_no_newline n : count_char newline (str_of_nat n) = 0.
Proof.
  unfold str_of_nat, NilZero.string_of_uint.
  destruct (Nat.to_uint n); try apply uint_no_newline. reflexivity.
Qed.

Lemma get_default_Forall (P : string -> Prop) (d : dict string) k dflt :
  Forall (fun kv => P (snd kv)) d -> P dflt -> P (get_default d k dflt).
Proof.
  intros Hd Hdf. unfold get_default.
  induction Hd as [|[k' v'] r Hx Hr IH]; simpl; [exact Hdf|].
  destruct (String.eqb k' k); [exact Hx | exact IH].
Qed.

Lemma language_no_newline n : count_char newline (language_of n) = 0.
Proof.
  unfold language_of. apply get_default_Forall; [|reflexivity].
  unfold supported_extensions. repeat constructor.
Qed.

Lemma structure_entry_no_newline f :
  count_char newline (name f) = 0 -> count_char newline (structure_entry f) = 0.
Proof.
  intros H. unfold structure_entry.
  rewrite !count_char_app, H, language_no_newline, str_of_nat_no_newline.
  reflexivity.
Qed.

(** C7. The line count of a file is the number of segments that
    splitting its content on newline produces, the trailing empty segment
    included: one more than the number of newlines, so 1 for an empty
    content.  Every file, an empty one too, adds its line count to the
    total, and the structure listing joins with newlines one entry per
    file, in input order, of the form "<name> (<language>, <lines> lines)";
    when no file name holds a newline, the lines of the listing are these
    entries, one per file. *)
Theorem C7_line_count_and_structure (o : PySet.SetOrder) (files : list FileRecord) :
  (forall text, line_count text = List.length (split newline text)
                /\ line_count text = count_char newline text + 1)
  /\ line_count "" = 1
  /\ ctx_total_lines (context (analyze_files o files))
     = list_sum (map (fun f => line_count (content f)) files)
  /\ structure (analyze_files o files)
     = join (String newline "")
         (map (fun f => name f ++ " (" ++ language_of (name f) ++ ", "
                        ++ str_of_nat (line_count (content f)) ++ " lines)")
              files)
  /\ (files <> [] ->
      (forall f, In f files -> count_char newline (name f) = 0) ->
      split newline (structure (analyze_files o files))
      = map structure_entry files).
Proof.
  split; [|split; [|split; [|split]]].
  - intros text. split; [reflexivity | apply split_length].
  - reflexivity.
  - simpl. unfold scan. rewrite fold_scan_total_lines. reflexivity.
  - simpl. unfold scan. rewrite fold_scan_file_structure. reflexivity.
  - intros Hne Hnames. cbn [structure analyze_files].
    unfold scan. rewrite fold_scan_file_structure. cbn [file_structure scan_init app].
    apply split_join.
    + destruct files; [congruence | discriminate].
    + apply Forall_forall. intros e He. apply in_map_iff in He.
      destruct He as [f [<- Hf]]. apply structure_entry_no_newline. auto.
Qed.

(* ----------------------------------------------------------------- *)
(** ** [max] with a key *)

Lemma max_from_spec key rest : forall best,
  let r := max_from key best rest in
  (r = best \/ In r rest)
  /\ key best <= key r
  /\ (forall x, In x rest -> key x <= key r)
  /\ (r <> best -> key best < key r)
  /\ (forall x, In x rest -> key x = key r ->
        r = best \/ position r rest <= position x rest).
Proof.
  induction rest as [|k rest IH]; intros best; simpl.
  - repeat split; auto; try tauto; intros H; congruence.
  - destruct (Nat.ltb_spec (key best) (key k)) as [Hlt|Hge].
    + destruct (IH k) as (Hin & Hk & Hall & Hne & Hpos).
      repeat split.
      * destruct Hin as [->|Hin]; auto.
      * lia.
      * intros x [<-|Hx]; auto.
      * intros _. lia.
      * intros x Hx Ex. right.
        destruct (String.eqb_spec k (max_from key k rest)) as [E|Hkr]; [lia|].
        assert (Hkr' : max_from key k rest <> k) by congruence.
        specialize (Hne Hkr').
        destruct (String.eqb_spec k x) as [E|Hkx]; [subst x; lia|].
        destruct Hx as [Hx|Hx]; [congruence|].
        destruct (Hpos x Hx Ex) as [E|Hp]; [congruence | lia].
    + destruct (IH best) as (Hin & Hk & Hall & Hne & Hpos).
      repeat split.
      * destruct Hin as [->|Hin]; auto.
      * assumption.
      * intros x [<-|Hx]; [lia | auto].
      * assumption.
      * intros x Hx Ex.
        destruct (String.eqb_spec (max_from key best rest) best) as [E|Hrb];
          [left; exact E | right].
        specialize (Hne Hrb).
        destruct (String.eqb_spec k (max_from key best rest)) as [E|Hkr];
          [rewrite <- E in Hne; lia|].
        destruct (String.eqb_spec k x) as [E|Hkx]; [subst x; lia|].
        destruct Hx as [Hx|Hx]; [congruence|].
        destruct (Hpos x Hx Ex) as [E|Hp]; [congruence | lia].
Qed.

(** The winner is an element, no element has a greater key, and no
    element with the same key comes earlier. *)
Lemma max_by_spec key l r :
  max_by key l = Some r ->
  In r l
  /\ (forall x, In x l -> key x <= key r)
  /\ (forall x, In x l -> key x = key r -> position r l <= position x l).
Proof.
  destruct l as [|k rest]; simpl; [discriminate|].
  intros [= <-].
  destruct (max_from_spec key rest k) as (Hin & Hk & Hall & Hne & Hpos).
  repeat split.
  - destruct Hin as [->|Hin]; auto.
  - intros x [<-|Hx]; auto.
  - intros x Hx Ex.
    destruct (String.eqb_spec k (max_from key k rest)) as [E|Hkr]; [lia|].
    assert (Hkr' : max_from key k rest <> k) by congruence.
    specialize (Hne Hkr').
    destruct (String.eqb_spec k x) as [E|Hkx]; [subst x; lia|].
    destruct Hx as [Hx|Hx]; [congruence|].
    destruct (Hpos x Hx Ex) as [E|Hp]; [congruence | lia].
Qed.

(* ----------------------------------------------------------------- *)
(** ** The order of the histogram's keys *)

Lemma keys_count_language d lang :
  keys (count_language d lang)
  = if String.eqb lang "Unknown" then keys d
    else if mem d lang then keys d else (keys d ++ [lang])%list.
Proof.
  unfold count_language. destruct (String.eqb lang "Unknown"); simpl;
    [reflexivity | apply keys_set].
Qed.

Lemma histogram_keys_In langs k :
  In k (keys (fold_left count_language langs []))
  <-> In k langs /\ k <> "Unknown".
Proof.
  revert k. induction langs as [|l r IH] using rev_ind; intros k; simpl;
    [tauto|].
  rewrite fold_left_app. simpl. rewrite keys_count_language, in_app_iff. simpl.
  destruct (String.eqb_spec l "Unknown") as [E|Hl].
  - rewrite IH. subst l. intuition congruence.
  - destruct (mem _ l) eqn:Em.
    + apply mem_In_keys, IH in Em. rewrite IH. intuition (subst; auto).
    + rewrite in_app_iff, IH. simpl. intuition congruence.
Qed.

(** A key that comes earlier in the histogram was seen earlier in the
    scan. *)
Lemma histogram_keys_order langs a b :
  let ks := keys (fold_left count_language langs []) in
  In a ks -> In b ks -> position a ks < position b ks ->
  position a langs < position b langs.
Proof.
  induction langs as [|l r IH] using rev_ind; simpl; [tauto|].
  rewrite fold_left_app. simpl. rewrite keys_count_language.
  set (ks := keys (fold_left count_language r [])) in *.
  assert (Hks : forall k, In k ks -> In k r)
    by (intros k Hk; apply (histogram_keys_In r k), Hk).
  assert (Hold : In a ks -> In b ks -> position a ks < position b ks ->
                 position a (r ++ [l]) < position b (r ++ [l])).
  { intros Ha Hb Hlt. rewrite !position_app_l by auto. now apply IH. }
  destruct (String.eqb_spec l "Unknown") as [E|Hl]; [exact Hold|].
  destruct (mem _ l) eqn:Em; [exact Hold|].
  assert (Hnew : ~ In l ks).
  { intros H. apply mem_In_keys in H. fold ks in Em. unfold ks in H.
    congruence. }
  intros Ha Hb Hlt. rewrite in_app_iff in Ha, Hb. simpl in Ha, Hb.
  destruct (in_dec string_dec b ks) as [Hbk|Hbk].
  - assert (Hak : In a ks).
    { destruct (in_dec string_dec a ks) as [H|H]; [exact H|].
      rewrite (position_app_l b) in Hlt by assumption.
      rewrite (position_app_r a) in Hlt by assumption.
      apply position_lt_In in Hbk. lia. }
    rewrite !position_app_l in Hlt by assumption. now apply Hold.
  - destruct Hb as [Hb|[Hb|[]]]; [tauto|]. subst b.
    assert (Hak : In a ks).
    { destruct Ha as [Ha|[Ha|[]]]; [exact Ha|]. subst a. lia. }
    assert (Hlr : ~ In l r).
    { intros H. apply Hnew. apply histogram_keys_In. auto. }
    rewrite (position_app_l a) by auto.
    rewrite (position_app_r l) by assumption.
    assert (position a r < List.length r) by (apply position_lt_In; auto).
    lia.
Qed.

(** C3. When the language histogram is not empty, the reported main
    language is a key of the histogram whose count no other key exceeds,
    and every other key with that same count belongs to a language first
    met in a later file of the input. *)
Theorem C3_main_language (o : PySet.SetOrder) (files : list FileRecord) :
  let h := ctx_languages (context (analyze_files o files)) in
  h <> [] ->
  exists k c,
    main_language (analyze_files o files) = Some k
    /\ get h k = Some c
    /\ (forall k' c', get h k' = Some c' -> c' <= c)
    /\ (forall k' c', get h k' = Some c' -> k' <> k -> c' = c ->
          first_file k files < first_file k' files).
Proof.
  simpl. unfold scan. rewrite fold_scan_languages. simpl.
  set (h := fold_left count_language (file_languages files) []).
  intros Hne.
  destruct (max_by (fun k => get_default h k 0) (keys h)) as [k|] eqn:Emax.
  2:{ destruct h; [congruence | discriminate]. }
  destruct (max_by_spec _ _ _ Emax) as (Hin & Hall & Hpos).
  destruct (proj1 (get_In_keys h k) Hin) as [c Hc].
  assert (Hkey : forall x v, get h x = Some v -> get_default h x 0 = v)
    by (intros x v Hx; unfold get_default; now rewrite Hx).
  exists k, c. repeat split; auto.
  - intros k' c' Hk'.
    assert (In k' (keys h)) by (apply get_In_keys; eauto).
    specialize (Hall k' H). rewrite (Hkey _ _ Hk'), (Hkey _ _ Hc) in Hall.
    exact Hall.
  - intros k' c' Hk' Hdiff Heq.
    assert (Hin' : In k' (keys h)) by (apply get_In_keys; eauto).
    assert (Hle : position k (keys h) <= position k' (keys h)).
    { apply Hpos; [assumption|]. rewrite (Hkey _ _ Hk'), (Hkey _ _ Hc). exact Heq. }
    assert (Hlt : position k (keys h) < position k' (keys h)).
    { destruct (Nat.eq_dec (position k (keys h)) (position k' (keys h))) as [E|E];
        [|lia].
      apply position_inj in E; [congruence | assumption]. }
    unfold first_file. apply histogram_keys_order; assumption.
Qed.

(* ----------------------------------------------------------------- *)
(** ** Sets *)

Lemma set_mem_In x s : PySet.mem x s = true <-> In x s.
Proof.
  unfold PySet.mem. rewrite existsb_exists. split.
  - intros [y [Hy E]]. apply String.eqb_eq in E. now subst.
  - intros H. exists x. split; [assumption | apply String.eqb_refl].
Qed.

Lemma set_add_In x y s : In x (PySet.add y s) <-> x = y \/ In x s.
Proof.
  unfold PySet.add. destruct (PySet.mem y s) eqn:E.
  - apply set_mem_In in E. intuition (subst; auto).
  - rewrite in_app_iff. simpl. intuition.
Qed.

Lemma set_of_list_In x l : In x (PySet.of_list l) <-> In x l.
Proof.
  unfold PySet.of_list.
  assert (H : forall s, In x (fold_left (fun s y => PySet.add y s) l s)
                        <-> In x l \/ In x s).
  { induction l as [|y r IH]; intros s; simpl; [tauto|].
    rewrite IH, set_add_In. intuition. }
  rewrite H. simpl. tauto.
Qed.

Lemma to_list_In o x s : In x (PySet.to_list o s) <-> In x s.
Proof.
  unfold PySet.to_list. split; apply Permutation_in.
  - apply PySet.iter_perm.
  - apply Permutation_sym, PySet.iter_perm.
Qed.

Lemma to_list_nil o s : PySet.to_list o s = [] <-> s = [].
Proof.
  unfold PySet.to_list. split; intros H.
  - apply Permutation_nil. rewrite <- H. apply PySet.iter_perm.
  - subst s. apply Permutation_nil, Permutation_sym, PySet.iter_perm.
Qed.

Lemma to_list_singleton o x : PySet.to_list o [x] = [x].
Proof.
  unfold PySet.to_list.
  apply Permutation_length_1_inv, Permutation_sym, PySet.iter_perm.
Qed.

Lemma nonempty_filter {A} (p : A -> bool) l :
  match filter p l with [] => false | _ => true end = existsb p l.
Proof.
  induction l as [|x r IH]; simpl; [reflexivity|].
  destruct (p x); simpl; [reflexivity | exact IH].
Qed.

Lemma bool_eq_iff (a b : bool) : (a = true <-> b = true) -> a = b.
Proof. destruct a, b; intuition congruence. Qed.

(** Whether an intersection is empty does not depend on the iteration
    order: it is not when the two sets share an element. *)
Lemma nonempty_intersection o s other :
  PySet.nonempty (PySet.intersection o s other)
  = existsb (fun x => PySet.mem x other) s.
Proof.
  unfold PySet.nonempty, PySet.intersection.
  destruct (List.length s <? List.length other)%nat;
    rewrite nonempty_filter; apply bool_eq_iff; rewrite !existsb_exists.
  - split; intros [x [Hx Hm]]; exists x; split; auto;
      now apply (to_list_In o x s).
  - split; intros [x [Hx Hm]]; apply set_mem_In in Hm; exists x.
    + apply (to_list_In o x other) in Hx. split; [auto | now apply set_mem_In].
    + split; [now apply (to_list_In o x other) | now apply set_mem_In].
Qed.

(* ----------------------------------------------------------------- *)
(** ** Detected technologies *)

Lemma detect_In table text found x :
  In x (detect table text found)
  <-> In x found
      \/ exists pats, In (x, pats) table /\ matches_any pats text = true.
Proof.
  unfold detect. revert found.
  induction table as [|[t pats] r IH]; intros found; simpl.
  - split; [auto | intros [H|[p [[] _]]]; exact H].
  - rewrite IH. destruct (matches_any pats text) eqn:E.
    + rewrite set_add_In. split.
      * intros [[->|H]|[p [Hp Hm]]]; eauto 6.
      * intros [H|[p [[Hp|Hp] Hm]]]; eauto 6.
        inversion Hp; subst. auto.
    + split.
      * intros [H|[p [Hp Hm]]]; eauto 6.
      * intros [H|[p [[Hp|Hp] Hm]]]; eauto 6.
        inversion Hp; subst. congruence.
Qed.

Lemma fold_detect_In table files x : forall s,
  In x (fold_left (fun acc f => detect table (content f) acc) files s)
  <-> In x s \/ exists f pats, In f files /\ In (x, pats) table
                               /\ matches_any pats (content f) = true.
Proof.
  induction files as [|f r IH]; intros s.
  - simpl. split; [auto | intros [H|(f & p & [] & _)]; exact H].
  - cbn [fold_left]. rewrite IH, detect_In. split.
    + intros [[H|(p & Hp & Hm)]|(g & p & Hg & Hp & Hm)].
      * auto.
      * right. exists f, p. simpl. auto.
      * right. exists g, p. simpl. auto.
    + intros [H|(g & p & [<-|Hg] & Hp & Hm)].
      * auto.
      * left. right. exists p. auto.
      * right. exists g, p. auto.
Qed.

Lemma scan_frameworks_In files x :
  In x (frameworks (scan files))
  <-> exists f pats, In f files /\ In (x, pats) framework_patterns
                     /\ matches_any pats (content f) = true.
Proof.
  unfold scan. rewrite fold_scan_frameworks, fold_detect_In.
  cbn [frameworks scan_init PySet.empty In]. tauto.
Qed.

Lemma scan_databases_In files x :
  In x (databases (scan files))
  <-> exists f pats, In f files /\ In (x, pats) database_patterns
                     /\ matches_any pats (content f) = true.
Proof.
  unfold scan. rewrite fold_scan_databases, fold_detect_In.
  cbn [databases scan_init PySet.empty In]. tauto.
Qed.

Lemma get_Some_In {V} (d : dict V) k v : get d k = Some v -> In (k, v) d.
Proof.
  induction d as [|[k' v'] r IH]; simpl; [discriminate|].
  destruct (String.eqb_spec k' k) as [->|Hne].
  - intros [= ->]. auto.
  - auto.
Qed.

Lemma has_signature_iff fw f :
  has_signature fw f = true
  <-> exists pats, In (fw, pats) framework_patterns
                   /\ matches_any pats (content f) = true.
Proof.
  unfold has_signature. rewrite existsb_exists. split.
  - intros [[t pats] [Hin H]]. apply andb_true_iff in H. destruct H as [E Hm].
    apply String.eqb_eq in E. simpl in E, Hm. subst t. eauto.
  - intros [pats [Hin Hm]]. exists (fw, pats). split; [assumption|].
    cbn [fst snd]. now rewrite String.eqb_refl, Hm.
Qed.

Lemma has_signature_detected files f fw :
  In f files -> has_signature fw f = true -> In fw (frameworks (scan files)).
Proof.
  intros Hf Hs. apply scan_frameworks_In. apply has_signature_iff in Hs.
  destruct Hs as [pats [Hin Hm]]. eauto.
Qed.

Lemma scan_permutation_frameworks files files' x :
  Permutation files files' ->
  In x (frameworks (scan files)) -> In x (frameworks (scan files')).
Proof.
  intros Hp. rewrite !scan_frameworks_In.
  intros (f & p & Hf & H). exists f, p. split; [|assumption].
  now apply (Permutation_in _ Hp).
Qed.

(* ----------------------------------------------------------------- *)
(** ** The architecture type *)

Lemma determine_architecture_eq o fws langs :
  _determine_architecture o fws langs =
    let has_frontend := existsb (fun x => PySet.mem x fws) frontend_frameworks in
    let has_backend := existsb (fun x => PySet.mem x fws) backend_frameworks in
    if has_frontend && has_backend then "Full-stack"
    else if has_frontend then "Frontend"
    else if has_backend then "Backend"
    else if mem langs "HTML" && mem langs "CSS" then "Static Website"
    else "Unknown".
Proof.
  unfold _determine_architecture. now rewrite !nonempty_intersection.
Qed.

(** C4. The architecture type follows a fixed order of tests, the first
    that holds deciding: a frontend framework (React, Vue, Angular) and a
    backend framework (Express, Django, Flask, FastAPI, Spring, Laravel,
    Rails) both detected give "Full-stack"; a frontend one alone
    "Frontend"; a backend one alone "Backend"; neither, with HTML and CSS
    both keys of the histogram, "Static Website"; anything else "Unknown".
    So whenever some file carries a signature of a frontend framework and
    some file one of a backend framework, the result is "Full-stack", in
    whatever order the files come. *)
Theorem C4_architecture (o : PySet.SetOrder) :
  (forall fws langs,
     let has_frontend := existsb (fun x => PySet.mem x fws) ["React"; "Vue"; "Angular"] in
     let has_backend :=
       existsb (fun x => PySet.mem x fws)
         ["Express"; "Django"; "Flask"; "FastAPI"; "Spring"; "Laravel"; "Rails"] in
     _determine_architecture o fws langs =
       if has_frontend && has_backend then "Full-stack"
       else if has_frontend then "Frontend"
       else if has_backend then "Backend"
       else if mem langs "HTML" && mem langs "CSS" then "Static Website"
       else "Unknown")
  /\ (forall files f g ff bf,
        In f files -> In g files ->
        In ff ["React"; "Vue"; "Angular"] ->
        In bf ["Express"; "Django"; "Flask"; "FastAPI"; "Spring"; "Laravel"; "Rails"] ->
        has_signature ff f = true -> has_signature bf g = true ->
        forall files', Permutation files files' ->
          architecture_type (analyze_files o files') = Some "Full-stack").
Proof.
  split.
  - intros fws langs. apply determine_architecture_eq.
  - intros files f g ff bf Hf Hg Hff Hbf Sf Sg files' Hp.
    simpl. rewrite determine_architecture_eq.
    assert (Hfe : existsb (fun x => PySet.mem x (frameworks (scan files')))
                          frontend_frameworks = true).
    { apply existsb_exists. exists ff. split; [exact Hff|].
      apply set_mem_In, (scan_permutation_frameworks files files' ff Hp).
      now apply (has_signature_detected files f). }
    assert (Hbe : existsb (fun x => PySet.mem x (frameworks (scan files')))
                          backend_frameworks = true).
    { apply existsb_exists. exists bf. split; [exact Hbf|].
      apply set_mem_In, (scan_permutation_frameworks files files' bf Hp).
      now apply (has_signature_detected files g). }
    cbv zeta. rewrite Hfe, Hbe. reflexivity.
Qed.

(* ----------------------------------------------------------------- *)
(** ** Main language and primary framework *)

Lemma main_language_eq o files :
  main_language (analyze_files o files)
  = max_by (fun k => get_default (languages (scan files)) k 0)
           (keys (languages (scan files))).
Proof. reflexivity. Qed.

Lemma framework_eq o files :
  framework (analyze_files o files)
  = hd_error (PySet.to_list o (frameworks (scan files))).
Proof. reflexivity. Qed.

Lemma architecture_type_eq o files :
  architecture_type (analyze_files o files)
  = Some (_determine_architecture o (frameworks (scan files))
                                  (languages (scan files))).
Proof. reflexivity. Qed.

Lemma technologies_eq o files :
  technologies (analyze_files o files)
  = PySet.to_list o
      (PySet.of_list (keys (languages (scan files))
                      ++ PySet.to_list o (frameworks (scan files))
                      ++ PySet.to_list o (databases (scan files)))%list).
Proof. reflexivity. Qed.

Lemma scan_languages_keys files k :
  In k (keys (languages (scan files)))
  <-> exists f, In f files /\ language_of (name f) = k /\ k <> "Unknown".
Proof.
  unfold scan. rewrite fold_scan_languages. cbn [languages scan_init].
  rewrite histogram_keys_In. unfold file_languages. rewrite in_map_iff.
  split.
  - intros [[f [E Hf]] Hk]. eauto.
  - intros [f [Hf [E Hk]]]. eauto.
Qed.

Lemma hd_error_None {A} (l : list A) : hd_error l = None <-> l = [].
Proof. destruct l; simpl; split; congruence. Qed.

Lemma max_by_None key l : max_by key l = None <-> l = [].
Proof. destruct l; simpl; split; congruence. Qed.

(** C2, at an input on which it fails.  The scan of App.jsx followed by
    server.py adds "React" to the framework set and then "Flask"; a
    process whose set iterates in the order of addition reports "React",
    one whose set iterates the other way reports "Flask", which was not the
    first framework seen, and the two runs disagree. *)
Theorem C2_primary_framework_follows_set_order :
  frameworks (scan [app_jsx; flask_py]) = ["React"; "Flask"]
  /\ framework (analyze_files PySet.insertion_order [app_jsx; flask_py])
     = Some "React"
  /\ framework (analyze_files PySet.reverse_order [app_jsx; flask_py])
     = Some "Flask".
Proof. vm_compute. repeat split. Qed.

(** Whatever the order, the reported framework is one that was detected,
    and none is reported only when none was. *)
Lemma framework_detected o files :
  (framework (analyze_files o files) = None <-> frameworks (scan files) = [])
  /\ (forall fw, framework (analyze_files o files) = Some fw ->
        In fw (frameworks (scan files))).
Proof.
  rewrite framework_eq. split.
  - rewrite hd_error_None. apply to_list_nil.
  - intros fw H. apply (to_list_In o).
    destruct (PySet.to_list o (frameworks (scan files))); simpl in H;
      [discriminate|]. injection H as ->. simpl. auto.
Qed.

(* ----------------------------------------------------------------- *)
(** ** The fields read by the query service *)

(** C9, as stated, fails: for a file with no known extension and no
    framework signature the main language and the framework are both
    [None]. *)
Lemma C9_counterexample :
  main_language (analyze_files PySet.insertion_order [readme]) = None
  /\ framework (analyze_files PySet.insertion_order [readme]) = None.
Proof. vm_compute. split; reflexivity. Qed.

Lemma determine_architecture_label o fws langs :
  In (_determine_architecture o fws langs) architecture_labels.
Proof.
  unfold _determine_architecture, architecture_labels.
  repeat match goal with |- context [if ?b then _ else _] => destruct b end;
    simpl; auto 6.
Qed.

(** C9, amended.  For every input the architecture type is one of the
    five labels, never null, and the technologies are a list that holds
    exactly the detected languages, frameworks and databases (the empty
    list when there are none).  The main language is null exactly when no
    file has a known language, and is otherwise the language of some file;
    the framework is null exactly when no file carries a framework
    signature, and is otherwise a framework whose signature some file
    carries.  The detailed analysis, a record of six aspects, is always
    there. *)
Theorem C9_result_fields (o : PySet.SetOrder) (files : list FileRecord) :
  let r := analyze_files o files in
  (exists a, architecture_type r = Some a /\ In a architecture_labels)
  /\ (main_language r = None
      <-> forall f, In f files -> language_of (name f) = "Unknown")
  /\ (forall k, main_language r = Some k ->
        k <> "Unknown" /\ exists f, In f files /\ language_of (name f) = k)
  /\ (framework r = None
      <-> forall f fw, In f files -> has_signature fw f = false)
  /\ (forall fw, framework r = Some fw ->
        exists f, In f files /\ has_signature fw f = true)
  /\ (forall t, In t (technologies r)
        <-> In t (keys (languages (scan files)))
            \/ In t (frameworks (scan files))
            \/ In t (databases (scan files)))
  /\ detailed_analysis r
     = _generate_detailed_analysis o files (languages (scan files))
         (frameworks (scan files)) (databases (scan files)).
Proof.
  cbv zeta. split; [|split; [|split; [|split; [|split; [|split]]]]].
  - rewrite architecture_type_eq. eexists. split; [reflexivity|].
    apply determine_architecture_label.
  - rewrite main_language_eq, max_by_None. split.
    + intros E f Hf.
      destruct (String.eqb_spec (language_of (name f)) "Unknown") as [H|H];
        [exact H|].
      assert (Hin : In (language_of (name f)) (keys (languages (scan files))))
        by (apply scan_languages_keys; eauto).
      rewrite E in Hin. destruct Hin.
    + intros H.
      destruct (keys (languages (scan files))) as [|k ks] eqn:E; [reflexivity|].
      assert (Hin : In k (keys (languages (scan files))))
        by (rewrite E; simpl; auto).
      apply scan_languages_keys in Hin. destruct Hin as [f [Hf [El Hk]]].
      rewrite (H f Hf) in El. congruence.
  - intros k Hk. rewrite main_language_eq in Hk.
    apply max_by_spec in Hk. destruct Hk as [Hin _].
    apply scan_languages_keys in Hin. destruct Hin as [f [Hf [El Hk]]]. eauto.
  - destruct (framework_detected o files) as [HN _]. rewrite HN. split.
    + intros E f fw Hf. destruct (has_signature fw f) eqn:Hs; [|reflexivity].
      pose proof (has_signature_detected files f fw Hf Hs) as Hin.
      rewrite E in Hin. destruct Hin.
    + intros H. destruct (frameworks (scan files)) as [|x xs] eqn:E;
        [reflexivity|].
      assert (Hin : In x (frameworks (scan files))) by (rewrite E; simpl; auto).
      apply scan_frameworks_In in Hin. destruct Hin as (f & pats & Hf & Hp & Hm).
      assert (Hs : has_signature x f = true)
        by (apply has_signature_iff; eauto).
      rewrite (H f x Hf) in Hs. discriminate.
  - intros fw Hfw. apply (proj2 (framework_detected o files)) in Hfw.
    apply scan_frameworks_In in Hfw. destruct Hfw as (f & pats & Hf & Hp & Hm).
    exists f. split; [assumption|]. apply has_signature_iff. eauto.
  - intros t. rewrite technologies_eq, to_list_In, set_of_list_In.
    rewrite !in_app_iff, !to_list_In. reflexivity.
  - reflexivity.
Qed.

(* ----------------------------------------------------------------- *)
(** ** Scenario: one FastAPI file *)

(** C10. For the single file server.py whose content is the line
    [from fastapi import FastAPI] followed by the line
    [@app.get('/users')], the pipeline reports the main language "Python",
    the primary framework "FastAPI" and the architecture type "Backend",
    and the backend aspect lists for server.py an endpoint with method
    "GET" (upper case) and path "/users". *)
Theorem C10_fastapi_scenario (o : PySet.SetOrder) :
  let r := analyze_files o [server_py] in
  main_language r = Some "Python"
  /\ framework r = Some "FastAPI"
  /\ architecture_type r = Some "Backend"
  /\ exists api, In api (api_files (backend (detailed_analysis r)))
                 /\ api_file api = "server.py"
                 /\ In {| method := "GET"; path := "/users" |} (endpoints api).
Proof.
  assert (Hf : frameworks (scan [server_py]) = ["FastAPI"])
    by (vm_compute; reflexivity).
  assert (Hl : languages (scan [server_py]) = [("Python", 1)])
    by (vm_compute; reflexivity).
  cbv zeta. split; [|split; [|split]].
  - rewrite main_language_eq, Hl. reflexivity.
  - rewrite framework_eq, Hf, to_list_singleton. reflexivity.
  - rewrite architecture_type_eq, determine_architecture_eq, Hf, Hl. reflexivity.
  - exists {| api_file := "server.py";
              endpoints := [ {| method := "GET"; path := "/users" |};
                             {| method := "GET"; path := "/users" |} ] |}.
    split; [|split].
    + assert (E : api_files (backend (detailed_analysis
                                        (analyze_files o [server_py])))
                  = flat_map (fun f =>
                      match _extract_api_endpoints (content f) with
                      | [] => []
                      | eps => [{| api_file := name f; endpoints := eps |}]
                      end) (filter (in_bucket BackendBucket) [server_py]))
        by reflexivity.
      rewrite E. vm_compute. auto.
    + reflexivity.
    + simpl. auto.
Qed.

(* ----------------------------------------------------------------- *)
(** ** Files in no bucket *)

(** C8, as stated, fails: UserController.ts falls in none of the four
    buckets, yet the architecture aspect reports the pattern and the layer
    that its name stands for, which it does not report without the file. *)
Lemma C8_counterexample :
  categorize controller_ts = None
  /\ architecture (detailed_analysis
                     (analyze_files PySet.insertion_order [controller_ts]))
     = {| patterns := ["MVC"]; layers := ["Controller Layer"];
          separation_of_concerns := false |}
  /\ architecture (detailed_analysis (analyze_files PySet.insertion_order []))
     = {| patterns := []; layers := []; separation_of_concerns := false |}.
Proof. vm_compute. repeat split. Qed.

Lemma filter_without {A} (p : A -> bool) pre x post :
  p x = false -> filter p (pre ++ x :: post) = filter p (pre ++ post).
Proof.
  intros H. rewrite !filter_app. simpl. now rewrite H.
Qed.

Lemma in_bucket_none b f : categorize f = None -> in_bucket b f = false.
Proof. unfold in_bucket. now intros ->. Qed.

(** C8, amended.  A file that matches none of the four buckets is left
    out of the frontend, backend and database analyzers: with the
    languages, frameworks and databases they are given, their results are
    the same with the file and without it.  The overview, architecture and
    flow analyzers are run on the entire file list. *)
Theorem C8_unbucketed_files (o : PySet.SetOrder)
  (pre post : list FileRecord) (f : FileRecord)
  (langs : dict nat) (fws dbs : PySet.t) :
  categorize f = None ->
  let all := (pre ++ f :: post)%list in
  let with_f := _generate_detailed_analysis o all langs fws dbs in
  let without := _generate_detailed_analysis o (pre ++ post) langs fws dbs in
  frontend with_f = frontend without
  /\ backend with_f = backend without
  /\ database with_f = database without
  /\ overview with_f = _analyze_overview o all langs fws dbs
  /\ architecture with_f = _analyze_architecture o all fws langs
  /\ flow with_f = _analyze_flow o all fws.
Proof.
  intros Hc. cbv zeta. unfold _generate_detailed_analysis.
  cbn [frontend backend database overview architecture flow].
  rewrite !(filter_without _ pre f post) by (now apply in_bucket_none).
  repeat split.
Qed.

(* ----------------------------------------------------------------- *)
(** ** The empty input *)

(** C1, as stated, fails: given no file at all,
    [ProjectAnalyzer.analyze_files] raises nothing and returns a result,
    and the repository endpoint hands that result on. *)
Lemma C1_counterexample :
  files_analyzed (analyze_files PySet.insertion_order []) = 0
  /\ architecture_type (analyze_files PySet.insertion_order []) = Some "Unknown"
  /\ exists resp,
       Main.analyze_github PySet.insertion_order (fun _ => None) (inr empty_repo)
       = inr resp
       /\ Main.files_analyzed resp = 0.
Proof.
  split; [reflexivity|]. split; [reflexivity|].
  eexists. split; reflexivity.
Qed.

(** C1, amended.  The rejection of an empty input is a guard of the
    upload endpoint: given no file it raises an HTTP error and returns no
    response, and it raises for no other input.  The analyzer itself
    accepts the empty sequence and returns a complete result: no file
    analysed, no main language, no framework, the architecture "Unknown",
    no technology, an empty structure and the score 0. *)
Theorem C1_empty_input (o : PySet.SetOrder) :
  (forall uploads,
     (exists e, Main.analyze_files o uploads = inl e) <-> uploads = [])
  /\ (let r := analyze_files o [] in
      files_analyzed r = 0
      /\ main_language r = None
      /\ framework r = None
      /\ architecture_type r = Some "Unknown"
      /\ technologies r = []
      /\ structure r = ""
      /\ complexity_score r = 0%Q).
Proof.
  split.
  - intros uploads. destruct uploads as [|u us].
    + split; [reflexivity | intros _; eexists; reflexivity].
    + split; [|discriminate].
      intros [e H]. unfold Main.analyze_files, Main.reraise_500 in H.
      discriminate H.
  - cbv zeta.
    assert (E0 : PySet.to_list o [] = []) by (now apply to_list_nil).
    repeat split.
    + rewrite framework_eq. change (frameworks (scan [])) with (@nil string).
      now rewrite E0.
    + rewrite architecture_type_eq, determine_architecture_eq. reflexivity.
    + rewrite technologies_eq.
      change (frameworks (scan [])) with (@nil string).
      change (databases (scan [])) with (@nil string).
      change (keys (languages (scan []))) with (@nil string).
      rewrite E0. simpl. exact E0.
Qed.

(* ----------------------------------------------------------------- *)
(** ** Rounding to binary64 *)

Module Float64Facts.
Import Float64.
Local Open Scope Q_scope.

Lemma pow2_pos e : 0 < pow2 e.
Proof. apply Qpower_0_lt. reflexivity. Qed.

Lemma pow2_le a b : (a <= b)%Z -> pow2 a <= pow2 b.
Proof. intros H. apply Qpower_le_compat_l; [exact H | discriminate]. Qed.

Lemma pow2_lt a b : (a < b)%Z -> pow2 a < pow2 b.
Proof. intros H. apply Qpower_lt_compat_l; [exact H | reflexivity]. Qed.

Lemma pow2_plus a b : pow2 (a + b) == pow2 a * pow2 b.
Proof. apply Qpower_plus. discriminate. Qed.

Lemma pow2_succ a : pow2 (a + 1) == 2 * pow2 a.
Proof. rewrite pow2_plus. change (pow2 1) with 2. ring. Qed.

Lemma pow2_inject k : (0 <= k)%Z -> inject_Z (2 ^ k) == pow2 k.
Proof. intros H. unfold pow2. now rewrite Zpower_Qpower. Qed.

Lemma log2_bounds n : (0 < n)%Z ->
  pow2 (Z.log2 n) <= inject_Z n /\ inject_Z n < 2 * pow2 (Z.log2 n).
Proof.
  intros H. destruct (Z.log2_spec n H) as [H1 H2].
  pose proof (Z.log2_nonneg n) as H0.
  split.
  - rewrite <- pow2_inject by assumption. now rewrite <- Zle_Qle.
  - rewrite <- pow2_succ, <- pow2_inject by lia.
    rewrite <- Zlt_Qlt. now rewrite <- Z.add_1_r in H2.
Qed.

Lemma Q_as_fraction x : x == inject_Z (Qnum x) / inject_Z (Zpos (Qden x)).
Proof. destruct x as [n d]. simpl. rewrite Qmake_Qdiv. reflexivity. Qed.

Lemma floor_log2_spec x : 0 < x ->
  pow2 (floor_log2 x) <= x /\ x < pow2 (floor_log2 x + 1).
Proof.
  intros Hx. unfold floor_log2.
  set (n := Qnum x). set (d := Zpos (Qden x)).
  assert (Hn : (0 < n)%Z).
  { unfold n. destruct x as [a b]. unfold Qlt in Hx. simpl in *. lia. }
  assert (Hd : (0 < d)%Z) by (unfold d; lia).
  destruct (log2_bounds n Hn) as [A1 A2].
  destruct (log2_bounds d Hd) as [D1 D2].
  pose proof (pow2_pos (Z.log2 n)) as PA.
  pose proof (pow2_pos (Z.log2 d)) as PB.
  assert (HD : 0 < inject_Z d) by (change 0 with (inject_Z 0); now rewrite <- Zlt_Qlt).
  assert (Ex : x == inject_Z n / inject_Z d) by apply Q_as_fraction.
  assert (El : pow2 (Z.log2 n - Z.log2 d) == pow2 (Z.log2 n) / pow2 (Z.log2 d)).
  { unfold Z.sub. rewrite pow2_plus. unfold pow2 at 2. rewrite Qpower_opp.
    reflexivity. }
  destruct (Qle_bool (pow2 (Z.log2 n - Z.log2 d)) x) eqn:Eb.
  - apply Qle_bool_iff in Eb. split; [exact Eb|].
    rewrite pow2_succ, El, Ex.
    apply Qlt_shift_div_r; [exact HD|].
    setoid_replace (2 * (pow2 (Z.log2 n) / pow2 (Z.log2 d)) * inject_Z d)
      with ((2 * pow2 (Z.log2 n)) * (inject_Z d / pow2 (Z.log2 d)))
      by (field; lra).
    assert (1 <= inject_Z d / pow2 (Z.log2 d))
      by (apply Qle_shift_div_l; lra).
    nra.
  - assert (Hlt : x < pow2 (Z.log2 n - Z.log2 d)).
    { apply Qnot_le_lt. intros H. apply Qle_bool_iff in H. congruence. }
    split.
    + replace (Z.log2 n - Z.log2 d - 1)%Z with (Z.log2 n - (Z.log2 d + 1))%Z by lia.
      unfold Z.sub. rewrite pow2_plus. unfold pow2 at 2. rewrite Qpower_opp.
      fold (pow2 (Z.log2 d + 1)). rewrite pow2_succ, Ex.
      apply Qle_shift_div_l; [exact HD|].
      setoid_replace (pow2 (Z.log2 n) * / (2 * pow2 (Z.log2 d)) * inject_Z d)
        with (pow2 (Z.log2 n) * (inject_Z d / (2 * pow2 (Z.log2 d))))
        by (field; lra).
      assert (inject_Z d / (2 * pow2 (Z.log2 d)) <= 1)
        by (apply Qle_shift_div_r; lra).
      nra.
    + replace (Z.log2 n - Z.log2 d - 1 + 1)%Z with (Z.log2 n - Z.log2 d)%Z by lia.
      exact Hlt.
Qed.

Lemma floor_log2_mono x y : 0 < x -> x <= y -> (floor_log2 x <= floor_log2 y)%Z.
Proof.
  intros Hx Hxy.
  destruct (floor_log2_spec x Hx) as [X1 X2].
  destruct (floor_log2_spec y (Qlt_le_trans _ _ _ Hx Hxy)) as [Y1 Y2].
  destruct (Z_le_gt_dec (floor_log2 x) (floor_log2 y)) as [H|H]; [exact H|].
  assert (pow2 (floor_log2 y + 1) <= pow2 (floor_log2 x)) by (apply pow2_le; lia).
  lra.
Qed.

Lemma ulp_exp_mono x y : 0 < x -> x <= y -> (ulp_exp x <= ulp_exp y)%Z.
Proof.
  intros Hx Hxy. unfold ulp_exp.
  pose proof (floor_log2_mono x y Hx Hxy). lia.
Qed.

Lemma round_half_even_range x :
  (Qfloor x <= round_half_even x <= Qfloor x + 1)%Z.
Proof.
  unfold round_half_even.
  destruct (Qcompare (x - inject_Z (Qfloor x)) (1 # 2));
    [destruct (Z.even (Qfloor x))|..]; lia.
Qed.

Lemma round_half_even_Z z : round_half_even (inject_Z z) = z.
Proof.
  unfold round_half_even. rewrite Qfloor_Z.
  assert (E : inject_Z z - inject_Z z == 0) by ring.
  destruct (Qcompare_spec (inject_Z z - inject_Z z) (1 # 2)) as [H|H|H];
    rewrite E in H; [discriminate H | reflexivity | discriminate H].
Qed.

Lemma round_half_even_mono x y :
  x <= y -> (round_half_even x <= round_half_even y)%Z.
Proof.
  intros Hxy. pose proof (Qfloor_resp_le x y Hxy) as Hf.
  pose proof (round_half_even_range x) as Rx.
  pose proof (round_half_even_range y) as Ry.
  destruct (Z.eq_dec (Qfloor x) (Qfloor y)) as [E|E]; [|lia].
  unfold round_half_even in *. rewrite <- E in *.
  destruct (Qcompare_spec (x - inject_Z (Qfloor x)) (1 # 2)) as [Hx|Hx|Hx];
    destruct (Qcompare_spec (y - inject_Z (Qfloor x)) (1 # 2)) as [Hy|Hy|Hy];
    try lia; try (destruct (Z.even (Qfloor x)); lia); exfalso; lra.
Qed.

Lemma round_nonneg x : 0 <= round x.
Proof.
  unfold round. destruct (Qle_bool x 0) eqn:E; [apply Qle_refl|].
  assert (Hx : 0 < x).
  { apply Qnot_le_lt. intros H. apply Qle_bool_iff in H. congruence. }
  pose proof (pow2_pos (ulp_exp x)) as Hp.
  apply Qmult_le_0_compat; [|lra].
  change 0 with (inject_Z 0). rewrite <- Zle_Qle.
  pose proof (round_half_even_range (x / pow2 (ulp_exp x))) as R.
  assert (0 <= x / pow2 (ulp_exp x)) by (apply Qle_shift_div_l; lra).
  pose proof (Qfloor_resp_le _ _ H) as F. change (Qfloor 0) with 0%Z in F. lia.
Qed.

Lemma round_pos_eq x : 0 < x ->
  round x = inject_Z (round_half_even (x / pow2 (ulp_exp x))) * pow2 (ulp_exp x).
Proof.
  intros Hx. unfold round. destruct (Qle_bool x 0) eqn:E; [|reflexivity].
  apply Qle_bool_iff in E. lra.
Qed.

(** Upper bound: the rounded value stays within the binade. *)
Lemma round_upper x : 0 < x -> round x <= pow2 (ulp_exp x + 53).
Proof.
  intros Hx. rewrite (round_pos_eq x Hx).
  destruct (floor_log2_spec x Hx) as [_ X2].
  pose proof (pow2_pos (ulp_exp x)) as Hp.
  assert (Hb : pow2 (floor_log2 x + 1) <= pow2 (ulp_exp x + 53))
    by (apply pow2_le; unfold ulp_exp; lia).
  rewrite (pow2_plus (ulp_exp x) 53) in Hb |- *.
  assert (Hq : x / pow2 (ulp_exp x) <= inject_Z (2 ^ 53)).
  { apply Qle_shift_div_r; [exact Hp|]. rewrite pow2_inject by lia. lra. }
  apply round_half_even_mono in Hq. rewrite round_half_even_Z in Hq.
  rewrite Zle_Qle in Hq. rewrite pow2_inject in Hq by lia.
  rewrite (Qmult_comm (pow2 (ulp_exp x))).
  apply Qmult_le_compat_r; [exact Hq | lra].
Qed.

(** Lower bound for a normal number. *)
Lemma round_lower x : 0 < x -> (-1074 < ulp_exp x)%Z ->
  pow2 (ulp_exp x + 52) <= round x.
Proof.
  intros Hx He. rewrite (round_pos_eq x Hx).
  destruct (floor_log2_spec x Hx) as [X1 _].
  pose proof (pow2_pos (ulp_exp x)) as Hp.
  assert (El : (floor_log2 x = ulp_exp x + 52)%Z) by (unfold ulp_exp in *; lia).
  rewrite El in X1. rewrite (pow2_plus (ulp_exp x) 52) in X1 |- *.
  assert (Hq : inject_Z (2 ^ 52) <= x / pow2 (ulp_exp x)).
  { apply Qle_shift_div_l; [exact Hp|]. rewrite pow2_inject by lia. lra. }
  apply round_half_even_mono in Hq. rewrite round_half_even_Z in Hq.
  rewrite Zle_Qle in Hq. rewrite pow2_inject in Hq by lia.
  rewrite (Qmult_comm (pow2 (ulp_exp x))).
  apply Qmult_le_compat_r; [exact Hq | lra].
Qed.

Lemma ulp_exp_ge x : (-1074 <= ulp_exp x)%Z.
Proof. unfold ulp_exp. lia. Qed.

Lemma round_mono x y : x <= y -> round x <= round y.
Proof.
  intros Hxy.
  destruct (Qlt_le_dec 0 x) as [Hx|Hx].
  - assert (Hy : 0 < y) by lra.
    pose proof (ulp_exp_mono x y Hx Hxy) as He.
    destruct (Z.eq_dec (ulp_exp x) (ulp_exp y)) as [E|E].
    + rewrite (round_pos_eq x Hx), (round_pos_eq y Hy), E.
      pose proof (pow2_pos (ulp_exp y)) as Hp.
      apply Qmult_le_compat_r; [|lra].
      rewrite <- Zle_Qle. apply round_half_even_mono.
      apply Qmult_le_compat_r; [exact Hxy|].
      apply Qlt_le_weak, Qinv_lt_0_compat, Hp.
    + pose proof (round_upper x Hx) as U.
      pose proof (ulp_exp_ge x) as G.
      assert (L : pow2 (ulp_exp y + 52) <= round y) by (apply round_lower; [exact Hy | lia]).
      assert (pow2 (ulp_exp x + 53) <= pow2 (ulp_exp y + 52)) by (apply pow2_le; lia).
      lra.
  - assert (E : round x = 0).
    { unfold round. destruct (Qle_bool x 0) eqn:Eb; [reflexivity|].
      exfalso. apply Qle_bool_iff in Hx. congruence. }
    rewrite E. apply round_nonneg.
Qed.

Lemma round_compat x y : x == y -> round x == round y.
Proof.
  intros E. apply Qle_antisym; apply round_mono; rewrite E; apply Qle_refl.
Qed.

(** On the sample totals the model returns what the Standard Library's
    binary64 division returns. *)
Lemma model_agrees_with_binary64 :
  forallb agrees_with_spec sample_totals = true.
Proof. vm_compute. reflexivity. Qed.

End Float64Facts.

(* ----------------------------------------------------------------- *)
(** ** The complexity score *)

Section Complexity.
Import Float64Facts.
Local Open Scope Q_scope.

Lemma float_min_spec a b :
  (a <= b -> Float64.min a b = a) /\ (b < a -> Float64.min a b = b).
Proof.
  unfold Float64.min, Float64.ltb. destruct (Qle_bool a b) eqn:E; simpl.
  - split; [reflexivity|]. apply Qle_bool_iff in E. intros H. exfalso. lra.
  - split; [|reflexivity]. intros H. apply Qle_bool_iff in H. congruence.
Qed.

Lemma float_min_mono a a' b : a <= a' -> Float64.min a b <= Float64.min a' b.
Proof.
  intros H.
  destruct (Qlt_le_dec b a) as [Ha|Ha]; destruct (Qlt_le_dec b a') as [Ha'|Ha'].
  - rewrite (proj2 (float_min_spec a b) Ha), (proj2 (float_min_spec a' b) Ha').
    apply Qle_refl.
  - exfalso. lra.
  - rewrite (proj1 (float_min_spec a b) Ha), (proj2 (float_min_spec a' b) Ha').
    exact Ha.
  - rewrite (proj1 (float_min_spec a b) Ha), (proj1 (float_min_spec a' b) Ha').
    exact H.
Qed.

Lemma quotient_mono a b : (a <= b)%nat -> quotient a <= quotient b.
Proof.
  intros H. unfold quotient, Float64.div, Float64.of_int.
  apply round_mono. apply Qmult_le_compat_r; [|discriminate].
  apply round_mono. rewrite <- Zle_Qle. lia.
Qed.

Lemma round_10000 : Float64.round (inject_Z 10000) == inject_Z 10000.
Proof. vm_compute. reflexivity. Qed.

Lemma round_10 : Float64.round 10 == 10.
Proof. vm_compute. reflexivity. Qed.

Lemma quotient_saturates n : (10000 <= Z.of_nat n)%Z -> 10 <= quotient n.
Proof.
  intros H. unfold quotient, Float64.div, Float64.of_int.
  rewrite <- round_10. apply round_mono.
  apply Qle_shift_div_l; [reflexivity|].
  change (10 * 1000) with (inject_Z 10000). rewrite <- round_10000.
  apply round_mono. now rewrite <- Zle_Qle.
Qed.

Lemma quotient_nonneg n : 0 <= quotient n.
Proof. apply round_nonneg. Qed.

Lemma complexity_of_eq n : complexity_of n = Float64.min (quotient n) 10.
Proof. reflexivity. Qed.

End Complexity.

(** C5. The complexity score of a result is
    [min(total_lines / 1000.0, 10.0)] in binary64 arithmetic, the total
    being the sum of the files' line counts.  It does not decrease when the
    total grows, it is 10 for every total from 10000 on, it is 0 when
    there is no file, and it always lies between 0 and 10. *)
Theorem C5_complexity_score (o : PySet.SetOrder) :
  (forall files,
     complexity_score (analyze_files o files)
     = Float64.min
         (Float64.div (Float64.of_int (Z.of_nat (sum_lines files))) 1000) 10)
  /\ (forall a b : nat, (a < b)%nat -> (complexity_of a <= complexity_of b)%Q)
  /\ (forall x : nat, (10000 <= Z.of_nat x)%Z -> (complexity_of x == 10)%Q)
  /\ (complexity_score (analyze_files o []) == 0)%Q
  /\ (forall n : nat, (0 <= complexity_of n)%Q /\ (complexity_of n <= 10)%Q).
Proof.
  split; [|split; [|split; [|split]]].
  - intros files. cbn [complexity_score analyze_files].
    unfold scan. rewrite fold_scan_total_lines. reflexivity.
  - intros a b Hab. rewrite !complexity_of_eq.
    apply float_min_mono, quotient_mono. lia.
  - intros x Hx. rewrite complexity_of_eq.
    pose proof (quotient_saturates x Hx) as Hq.
    destruct (Qlt_le_dec 10 (quotient x)) as [H|H].
    + rewrite (proj2 (float_min_spec (quotient x) 10) H). reflexivity.
    + rewrite (proj1 (float_min_spec (quotient x) 10) H).
      apply Qle_antisym; assumption.
  - reflexivity.
  - intros n. rewrite complexity_of_eq.
    pose proof (quotient_nonneg n) as Hq.
    destruct (Qlt_le_dec 10 (quotient n)) as [H|H].
    + rewrite (proj2 (float_min_spec (quotient n) 10) H). split; discriminate.
    + rewrite (proj1 (float_min_spec (quotient n) 10) H). split; assumption.
Qed.

(* ----------------------------------------------------------------- *)
(** ** The theorems at concrete inputs *)

(** Two JavaScript and two Python files, a JavaScript file first: the
    histogram is not empty, so a main language is reported. *)
Lemma C3_main_language_witness :
  exists k c,
    main_language (analyze_files PySet.insertion_order tie_files) = Some k
    /\ get (ctx_languages (context (analyze_files PySet.insertion_order tie_files))) k
       = Some c
    /\ (forall k' c',
          get (ctx_languages (context (analyze_files PySet.insertion_order tie_files))) k'
          = Some c' -> c' <= c)
    /\ (forall k' c',
          get (ctx_languages (context (analyze_files PySet.insertion_order tie_files))) k'
          = Some c' -> k' <> k -> c' = c ->
          first_file k tie_files < first_file k' tie_files).
Proof.
  apply (C3_main_language PySet.insertion_order tie_files).
  vm_compute. discriminate.
Defined.

(** Scenario 2 of the specification, with the two files swapped. *)
Lemma C4_architecture_witness :
  architecture_type (analyze_files PySet.reverse_order [flask_py; app_jsx])
  = Some "Full-stack".
Proof.
  apply (proj2 (C4_architecture PySet.reverse_order)
           [app_jsx; flask_py] app_jsx flask_py "React" "Flask").
  - simpl; auto.
  - simpl; auto.
  - simpl; auto.
  - simpl; auto.
  - vm_compute; reflexivity.
  - vm_compute; reflexivity.
  - apply perm_swap.
Defined.

(** Scenario 5 of the specification: 12000 lines. *)
Lemma C5_complexity_score_witness :
  (complexity_of 3 <= complexity_of 7)%Q
  /\ (complexity_of (12 * 1000) == 10)%Q.
Proof.
  destruct (C5_complexity_score PySet.insertion_order) as (_ & Hmono & Hsat & _).
  split.
  - apply Hmono. lia.
  - apply Hsat. vm_compute. discriminate.
Defined.

(** Scenario 2 of the specification: two lines, one per file. *)
Lemma C7_line_count_and_structure_witness :
  split newline (structure (analyze_files PySet.insertion_order [app_jsx; flask_py]))
  = map structure_entry [app_jsx; flask_py].
Proof.
  destruct (C7_line_count_and_structure PySet.insertion_order [app_jsx; flask_py])
    as (_ & _ & _ & _ & H).
  apply H.
  - discriminate.
  - intros f [<-|[<-|[]]]; reflexivity.
Defined.

(** UserController.ts between a backend and a frontend file. *)
Lemma C8_unbucketed_files_witness :
  backend (_generate_detailed_analysis PySet.insertion_order
             ([server_py] ++ controller_ts :: [app_jsx]) [] [] [])
  = backend (_generate_detailed_analysis PySet.insertion_order
               ([server_py] ++ [app_jsx]) [] [] []).
Proof.
  destruct (C8_unbucketed_files PySet.insertion_order [server_py] [app_jsx]
              controller_ts [] [] [] eq_refl) as (_ & H & _).
  exact H.
Defined.

(** Scenario 1 of the specification: the framework reported for
    server.py is one whose signature the file carries. *)
Lemma C9_result_fields_witness :
  exists f, In f [server_py] /\ has_signature "FastAPI" f = true.
Proof.
  destruct (C9_result_fields PySet.insertion_order [server_py])
    as (_ & _ & _ & _ & H & _).
  apply H. vm_compute. reflexivity.
Defined.

(* ================================================================= *)
(** * Further properties *)

(* ----------------------------------------------------------------- *)
(** ** The histogram, language by language *)

(* ---- dict insert / lookup ---- *)
Lemma get_set {V} (d : dict V) k v k' :
  get (set d k v) k' = if String.eqb k k' then Some v else get d k'.
Proof.
  induction d as [|[x y] r IH]; simpl.
  - reflexivity.
  - destruct (String.eqb_spec x k) as [E|Hne]; simpl.
    + subst x. destruct (String.eqb_spec k k'); reflexivity.
    + rewrite IH. destruct (String.eqb_spec x k') as [E|Hx]; [|reflexivity].
      subst x. destruct (String.eqb_spec k k'); [congruence | reflexivity].
Qed.

Lemma NoDup_keys_set {V} (d : dict V) k v :
  NoDup (keys d) -> NoDup (keys (set d k v)).
Proof.
  intros H. rewrite keys_set. destruct (mem d k) eqn:E; [exact H|].
  apply NoDup_app; [exact H | repeat constructor; simpl; tauto |].
  intros x Hx [<-|[]]. apply mem_In_keys in Hx. congruence.
Qed.

Lemma histogram_get langs : forall d k,
  get (fold_left count_language langs d) k
  = match List.length (filter (String.eqb k) langs) with
    | 0 => get d k
    | S n => if String.eqb k "Unknown" then get d k
             else Some (get_default d k 0 + S n)
    end.
Proof.
  induction langs as [|l r IH]; intros d k; simpl; [reflexivity|].
  rewrite IH. unfold count_language.
  destruct (String.eqb_spec k l) as [E|Hkl].
  - subst l. simpl. destruct (String.eqb_spec k "Unknown") as [E|Hk]; simpl.
    + destruct (List.length (filter (String.eqb k) r)); reflexivity.
    + unfold get_default at 1 2. rewrite !get_set, String.eqb_refl.
      destruct (List.length (filter (String.eqb k) r)) as [|n];
        [f_equal; lia | f_equal; lia].
  - destruct (negb (String.eqb l "Unknown")); [|reflexivity].
    unfold get_default. rewrite !get_set.
    assert (En : String.eqb l k = false)
      by (apply String.eqb_neq; congruence).
    rewrite En. reflexivity.
Qed.

Lemma histogram_NoDup langs : forall d,
  NoDup (keys d) -> NoDup (keys (fold_left count_language langs d)).
Proof.
  induction langs as [|l r IH]; intros d H; simpl; [exact H|].
  apply IH. unfold count_language.
  destruct (negb (String.eqb l "Unknown")); [|exact H].
  now apply NoDup_keys_set.
Qed.

Lemma filter_map_length {A B} (g : A -> B) (p : B -> bool) l :
  List.length (filter p (map g l)) = List.length (filter (fun x => p (g x)) l).
Proof.
  induction l as [|x r IH]; simpl; [reflexivity|].
  destruct (p (g x)); simpl; lia.
Qed.

(** X1. The count the histogram holds for a language is the number of files
    in that language; "Unknown" and languages of no file are not keys;
    no key is listed twice. *)
Theorem histogram_counts_files (o : PySet.SetOrder) (files : list FileRecord)
  (k : string) :
  let h := ctx_languages (context (analyze_files o files)) in
  get h k = (if String.eqb k "Unknown" || Nat.eqb (files_in_language k files) 0
             then None else Some (files_in_language k files))
  /\ NoDup (keys h).
Proof.
  simpl. unfold scan. rewrite fold_scan_languages. simpl. split.
  - rewrite histogram_get. unfold files_in_language, file_languages.
    rewrite filter_map_length.
    assert (E : forall f, String.eqb k (language_of (name f))
                          = String.eqb (language_of (name f)) k)
      by (intros f; apply String.eqb_sym).
    rewrite (filter_ext _ _ E).
    destruct (List.length (filter _ files)) as [|n]; simpl.
    + now rewrite orb_true_r.
    + rewrite orb_false_r. destruct (String.eqb k "Unknown"); reflexivity.
  - apply histogram_NoDup. constructor.
Qed.

(* ----------------------------------------------------------------- *)
(** ** Orders of files and of sets; distinct entries *)

Lemma existsb_ext_In {A} (p q : A -> bool) l :
  (forall x, In x l -> p x = q x) -> existsb p l = existsb q l.
Proof.
  induction l as [|x r IH]; simpl; intros H; [reflexivity|].
  rewrite (H x) by auto. f_equal. apply IH. auto.
Qed.

Lemma scan_permutation_languages files files' k :
  Permutation files files' ->
  In k (keys (languages (scan files))) -> In k (keys (languages (scan files'))).
Proof.
  intros Hp. rewrite !scan_languages_keys. intros [f [Hf H]].
  exists f. split; [now apply (Permutation_in _ Hp) | exact H].
Qed.

(** X2. The architecture type depends neither on the order of the files nor
    on the order in which sets are iterated. *)
Theorem architecture_order_independent (o o' : PySet.SetOrder)
  (files files' : list FileRecord) :
  Permutation files files' ->
  architecture_type (analyze_files o files)
  = architecture_type (analyze_files o' files').
Proof.
  intros Hp. rewrite !architecture_type_eq, !determine_architecture_eq.
  assert (Hm : forall x, PySet.mem x (frameworks (scan files))
                         = PySet.mem x (frameworks (scan files'))).
  { intros x. apply bool_eq_iff. rewrite !set_mem_In. split.
    - apply scan_permutation_frameworks, Hp.
    - apply scan_permutation_frameworks, Permutation_sym, Hp. }
  assert (Hl : forall k, mem (languages (scan files)) k
                         = mem (languages (scan files')) k).
  { intros k. apply bool_eq_iff. rewrite !mem_In_keys. split.
    - apply scan_permutation_languages, Hp.
    - apply scan_permutation_languages, Permutation_sym, Hp. }
  cbv zeta.
  rewrite (existsb_ext_In _ (fun x => PySet.mem x (frameworks (scan files')))
             frontend_frameworks) by (intros; apply Hm).
  rewrite (existsb_ext_In _ (fun x => PySet.mem x (frameworks (scan files')))
             backend_frameworks) by (intros; apply Hm).
  rewrite !Hl. reflexivity.
Qed.

(* ---- sets keep no duplicates ---- *)
Lemma set_add_NoDup x s : NoDup s -> NoDup (PySet.add x s).
Proof.
  intros H. unfold PySet.add. destruct (PySet.mem x s) eqn:E; [exact H|].
  apply NoDup_app; [exact H | repeat constructor; simpl; tauto |].
  intros y Hy [<-|[]]. apply set_mem_In in Hy. congruence.
Qed.

Lemma set_of_list_NoDup l : NoDup (PySet.of_list l).
Proof.
  unfold PySet.of_list.
  assert (H : forall s, NoDup s -> NoDup (fold_left (fun s y => PySet.add y s) l s)).
  { induction l as [|y r IH]; intros s Hs; simpl; [exact Hs|].
    apply IH, set_add_NoDup, Hs. }
  apply H. constructor.
Qed.

Lemma to_list_NoDup o s : NoDup s -> NoDup (PySet.to_list o s).
Proof.
  intros H. unfold PySet.to_list.
  apply (Permutation_NoDup (Permutation_sym (PySet.iter_perm o s)) H).
Qed.

Lemma detect_NoDup table text s : NoDup s -> NoDup (detect table text s).
Proof.
  unfold detect. revert s. induction table as [|e r IH]; intros s H; simpl;
    [exact H|].
  apply IH. destruct (matches_any (snd e) text); [now apply set_add_NoDup | exact H].
Qed.

Lemma fold_detect_NoDup table files : forall s,
  NoDup s ->
  NoDup (fold_left (fun acc f => detect table (content f) acc) files s).
Proof.
  induction files as [|f r IH]; intros s H; simpl; [exact H|].
  apply IH, detect_NoDup, H.
Qed.

Lemma scan_frameworks_NoDup files : NoDup (frameworks (scan files)).
Proof.
  unfold scan. rewrite fold_scan_frameworks. apply fold_detect_NoDup. constructor.
Qed.

Lemma scan_databases_NoDup files : NoDup (databases (scan files)).
Proof.
  unfold scan. rewrite fold_scan_databases. apply fold_detect_NoDup. constructor.
Qed.

(** X3. The technologies list names nothing twice, and the reported main
    language and framework are among its entries. *)
Theorem technologies_distinct (o : PySet.SetOrder) (files : list FileRecord) :
  let r := analyze_files o files in
  NoDup (technologies r)
  /\ (forall k, main_language r = Some k -> In k (technologies r))
  /\ (forall fw, framework r = Some fw -> In fw (technologies r))
  /\ NoDup (ctx_frameworks (context r))
  /\ NoDup (ctx_databases (context r)).
Proof.
  cbv zeta.
  split; [|split; [|split; [|split]]].
  - rewrite technologies_eq. apply to_list_NoDup, set_of_list_NoDup.
  - intros k Hk. rewrite main_language_eq in Hk.
    apply max_by_spec in Hk. destruct Hk as [Hin _].
    rewrite technologies_eq, to_list_In, set_of_list_In, in_app_iff. auto.
  - intros fw Hfw. apply (proj2 (framework_detected o files)) in Hfw.
    rewrite technologies_eq, to_list_In, set_of_list_In, !in_app_iff, to_list_In.
    auto.
  - cbn [ctx_frameworks context analyze_files].
    apply to_list_NoDup, scan_frameworks_NoDup.
  - cbn [ctx_databases context analyze_files].
    apply to_list_NoDup, scan_databases_NoDup.
Qed.

(** X4. Only catalog names are ever detected, and analysing more files never
    loses a technology. *)
Theorem detected_from_catalog (files more : list FileRecord) :
  (forall x, In x (frameworks (scan files)) ->
     In x ["React"; "Vue"; "Angular"; "Express"; "Django"; "Flask"; "FastAPI";
           "Spring"; "Laravel"; "Rails"])
  /\ (forall x, In x (databases (scan files)) ->
        In x ["MongoDB"; "PostgreSQL"; "MySQL"; "SQLite"; "Redis"; "Firebase"])
  /\ (forall x, In x (frameworks (scan files)) ->
        In x (frameworks (scan (files ++ more))))
  /\ (forall x, In x (databases (scan files)) ->
        In x (databases (scan (files ++ more)))).
Proof.
  split; [|split; [|split]].
  - intros x Hx. apply scan_frameworks_In in Hx.
    destruct Hx as (f & pats & _ & Hp & _).
    change (In x (map fst framework_patterns)).
    apply in_map_iff. exists (x, pats). auto.
  - intros x Hx. apply scan_databases_In in Hx.
    destruct Hx as (f & pats & _ & Hp & _).
    change (In x (map fst database_patterns)).
    apply in_map_iff. exists (x, pats). auto.
  - intros x. rewrite !scan_frameworks_In. intros (f & pats & Hf & H).
    exists f, pats. rewrite in_app_iff. auto.
  - intros x. rewrite !scan_databases_In. intros (f & pats & Hf & H).
    exists f, pats. rewrite in_app_iff. auto.
Qed.

(* ----------------------------------------------------------------- *)
(** ** The size sentence of the summary *)

(* ---- thresholds of the score ---- *)
Lemma quotient_values :
  (quotient 1999 < 2)%Q /\ (2 <= quotient 2000)%Q
  /\ (quotient 4999 < 5)%Q /\ (5 <= quotient 5000)%Q.
Proof. vm_compute. repeat split; discriminate. Qed.

Lemma float_ltb_spec a b : Float64.ltb a b = true <-> (a < b)%Q.
Proof.
  unfold Float64.ltb. rewrite negb_true_iff. split.
  - intros H. apply Qnot_le_lt. intros Hle. apply Qle_bool_iff in Hle. congruence.
  - intros H. destruct (Qle_bool b a) eqn:E; [|reflexivity].
    apply Qle_bool_iff in E. exfalso. apply (Qlt_not_le _ _ H E).
Qed.

Lemma complexity_below (n lo bound : nat) (c : Q) :
  bound = S lo -> (c <= 10)%Q ->
  (quotient lo < c)%Q -> (c <= quotient bound)%Q ->
  Float64.ltb (complexity_of n) c = Nat.ltb n bound.
Proof.
  intros Hb Hc Hlo Hhi. apply bool_eq_iff.
  rewrite float_ltb_spec, Nat.ltb_lt, complexity_of_eq.
  destruct (Qlt_le_dec 10 (quotient n)) as [H|H].
  - rewrite (proj2 (float_min_spec (quotient n) 10) H). split.
    + intros Hlt. exfalso. apply (Qlt_not_le _ _ Hlt Hc).
    + intros Hn. exfalso.
      assert (quotient n <= quotient lo)%Q by (apply quotient_mono; lia).
      lra.
  - rewrite (proj1 (float_min_spec (quotient n) 10) H). split.
    + intros Hlt. destruct (Nat.lt_ge_cases n bound) as [Hn|Hn]; [exact Hn|].
      assert (quotient bound <= quotient n)%Q by (apply quotient_mono; lia).
      lra.
    + intros Hn.
      assert (quotient n <= quotient lo)%Q by (apply quotient_mono; lia).
      lra.
Qed.

Lemma complexity_thresholds n :
  Float64.ltb (complexity_of n) 2 = Nat.ltb n 2000
  /\ Float64.ltb (complexity_of n) 5 = Nat.ltb n 5000.
Proof.
  destruct quotient_values as (A & B & C & D).
  split.
  - apply (complexity_below n 1999 2000 2 eq_refl); [discriminate | exact A | exact B].
  - apply (complexity_below n 4999 5000 5 eq_refl); [discriminate | exact C | exact D].
Qed.

(** X5. The closing sentence of the summary is chosen by the total number
    of lines: below 2000, below 5000, or from 5000 on. *)
Theorem summary_size_sentence (o : PySet.SetOrder) (files : list FileRecord) :
  let n := ctx_total_lines (context (analyze_files o files)) in
  exists before,
    summary (analyze_files o files)
    = (before ++
       (if Nat.ltb n 2000
        then ". This appears to be a small to medium-sized project."
        else if Nat.ltb n 5000 then ". This appears to be a medium-sized project."
        else ". This appears to be a large and complex project."))%string.
Proof.
  cbn [ctx_total_lines context summary analyze_files].
  unfold _generate_summary. cbv zeta.
  destruct (complexity_thresholds (total_lines (scan files))) as [-> ->].
  destruct (Nat.ltb (total_lines (scan files)) 2000);
    [|destruct (Nat.ltb (total_lines (scan files)) 5000)]; eexists; reflexivity.
Qed.

(* ----------------------------------------------------------------- *)
(** ** The totals of the overview; patterns and layers *)

Lemma line_count_positive text : 1 <= line_count text.
Proof. unfold line_count. rewrite split_length. lia. Qed.

Lemma sum_lines_ge_length files : List.length files <= sum_lines files.
Proof.
  unfold sum_lines. induction files as [|f r IH]; simpl; [lia|].
  pose proof (line_count_positive (content f)). lia.
Qed.

(** X6. The overview's totals are those of the main scan; every file counts
    for at least one line, so the total is at least the number of files and
    the average, the total divided by the number of files rounded down, is
    0 only when there is no file. *)
Theorem overview_totals (o : PySet.SetOrder) (files : list FileRecord) :
  let r := analyze_files o files in
  let ci := complexity_indicators (overview (detailed_analysis r)) in
  total_files ci = files_analyzed r
  /\ ci_total_lines ci = ctx_total_lines (context r)
  /\ files_analyzed r <= ctx_total_lines (context r)
  /\ avg_lines_per_file ci * total_files ci <= ci_total_lines ci
  /\ (files = [] \/ ci_total_lines ci < (avg_lines_per_file ci + 1) * total_files ci)
  /\ (avg_lines_per_file ci = 0 <-> files = []).
Proof.
  cbv zeta.
  cbn [complexity_indicators overview detailed_analysis analyze_files
       _generate_detailed_analysis _analyze_overview _get_complexity_indicators
       total_files ci_total_lines avg_lines_per_file files_analyzed
       ctx_total_lines context].
  unfold scan. rewrite fold_scan_total_lines. cbn [total_lines scan_init].
  rewrite Nat.add_0_l.
  pose proof (sum_lines_ge_length files) as Hge.
  destruct files as [|f0 rest].
  - cbn. repeat split; auto.
  - set (fs := f0 :: rest) in *.
    assert (Hn : 0 < List.length fs) by (unfold fs; simpl; lia).
    set (n := List.length fs) in *. set (t := sum_lines fs) in *.
    replace (Nat.ltb 0 n) with true by (symmetry; apply Nat.ltb_lt; exact Hn).
    pose proof (Nat.div_mod_eq t n) as Hd.
    pose proof (Nat.mod_upper_bound t n ltac:(lia)) as Hm.
    assert (Hq : 1 <= t / n) by (apply Nat.div_le_lower_bound; lia).
    split; [reflexivity|]. split; [reflexivity|]. split; [exact Hge|].
    split; [nia|]. split; [right; nia|].
    split; [lia | discriminate].
Qed.

(* ---- architecture aspect ---- *)
Lemma In_flat_map_layer files l :
  In l (flat_map layer_of files) <-> exists f, In f files /\ In l (layer_of f).
Proof. apply in_flat_map. Qed.

(** X7. In the architecture aspect the pattern "MVC" is reported exactly
    when the layer "Controller Layer" is; the layer "Service Layer" is
    reported only with the pattern of that name; the patterns come from the
    three known names, neither list names anything twice, and the
    separation flag says that at least two layers were found. *)
Theorem architecture_patterns_and_layers (o : PySet.SetOrder)
  (files : list FileRecord) (fws : PySet.t) (langs : dict nat) :
  let a := _analyze_architecture o files fws langs in
  (In "MVC" (patterns a) <-> In "Controller Layer" (layers a))
  /\ (In "Service Layer" (layers a) -> In "Service Layer" (patterns a))
  /\ (forall p, In p (patterns a) ->
        In p ["MVC"; "Service Layer"; "Repository Pattern"])
  /\ (forall l, In l (layers a) ->
        In l ["Controller Layer"; "Service Layer"; "Data Layer"])
  /\ NoDup (patterns a) /\ NoDup (layers a)
  /\ (separation_of_concerns a = true <-> 2 <= List.length (layers a)).
Proof.
  cbv zeta. unfold _analyze_architecture. cbv zeta.
  cbn [patterns layers separation_of_concerns].
  set (nc := existsb (fun f => contains "controller" (lower (name f))) files).
  set (ns := existsb (fun f => contains "service" (lower (name f))) files).
  set (nr := existsb (fun f => contains "repository" (lower (name f))) files).
  assert (Hnc : nc = true
            <-> exists f, In f files /\ contains "controller" (lower (name f)) = true)
    by (unfold nc; apply existsb_exists).
  assert (Hns : ns = true
            <-> exists f, In f files /\ contains "service" (lower (name f)) = true)
    by (unfold ns; apply existsb_exists).
  assert (Hlay : forall l, In l (flat_map layer_of files)
            <-> exists f, In f files /\ In l (layer_of f))
    by (intros l; apply in_flat_map).
  assert (Hctl : forall f, In "Controller Layer" (layer_of f)
                           <-> contains "controller" (lower (name f)) = true).
  { intros f. unfold layer_of. cbv zeta.
    destruct (contains "controller" (lower (name f))); [simpl; intuition|].
    destruct (contains "service" (lower (name f))); [simpl; intuition congruence|].
    destruct (contains "model" (lower (name f)) || contains "entity" (lower (name f)));
      simpl; intuition congruence. }
  assert (Hsvc : forall f, In "Service Layer" (layer_of f)
                           -> contains "service" (lower (name f)) = true).
  { intros f. unfold layer_of. cbv zeta.
    destruct (contains "controller" (lower (name f))); [simpl; intuition congruence|].
    destruct (contains "service" (lower (name f))); [simpl; intuition|].
    destruct (contains "model" (lower (name f)) || contains "entity" (lower (name f)));
      simpl; intuition congruence. }
  split; [|split; [|split; [|split; [|split; [|split]]]]].
  - rewrite !to_list_In, !set_of_list_In, Hlay, !in_app_iff.
    transitivity (nc = true).
    + destruct nc, ns, nr; simpl; intuition congruence.
    + rewrite Hnc. split; intros [f [Hf H]]; exists f; split; auto;
        now apply Hctl.
  - rewrite !to_list_In, !set_of_list_In, Hlay, !in_app_iff.
    intros [f [Hf Hl]].
    assert (E : ns = true)
      by (apply Hns; exists f; split; [exact Hf | now apply Hsvc]).
    rewrite E. simpl. auto.
  - intros p. rewrite to_list_In, set_of_list_In, !in_app_iff.
    destruct nc, ns, nr; simpl; intuition.
  - intros l. rewrite to_list_In, set_of_list_In, Hlay.
    intros [f [Hf Hl]]. unfold layer_of in Hl. cbv zeta in Hl.
    destruct (contains "controller" (lower (name f))); [simpl in *; intuition|].
    destruct (contains "service" (lower (name f))); [simpl in *; intuition|].
    destruct (contains "model" (lower (name f)) || contains "entity" (lower (name f)));
      simpl in *; intuition.
  - apply to_list_NoDup, set_of_list_NoDup.
  - apply to_list_NoDup, set_of_list_NoDup.
  - rewrite Nat.ltb_lt. unfold PySet.to_list.
    rewrite (Permutation_length (PySet.iter_perm o _)). lia.
Qed.

(* ----------------------------------------------------------------- *)
(** ** The endpoints, and the backend bucket *)




(** X10. Endpoints are listed only for files of the backend bucket, and only
    for those in which some endpoint was found. *)
Theorem api_files_come_from_backend_bucket (o : PySet.SetOrder)
  (files : list FileRecord) (langs : dict nat) (fws dbs : PySet.t)
  (api : ApiFile) :
  In api (api_files (backend (_generate_detailed_analysis o files langs fws dbs))) ->
  exists f, In f files
            /\ categorize f = Some BackendBucket
            /\ api_file api = name f
            /\ endpoints api = _extract_api_endpoints (content f)
            /\ 1 <= List.length (endpoints api).
Proof.
  unfold _generate_detailed_analysis. cbn [backend _analyze_backend api_files].
  rewrite in_flat_map. intros [f [Hf Hapi]].
  apply filter_In in Hf. destruct Hf as [Hf Hb].
  exists f. split; [exact Hf|]. split.
  - unfold in_bucket in Hb. destruct (categorize f) as [[]|]; try discriminate.
    reflexivity.
  - destruct (_extract_api_endpoints (content f)) as [|e es] eqn:E; [destruct Hapi|].
    destruct Hapi as [<-|[]]. simpl. repeat split. lia.
Qed.

(** server.py, whose content declares one route. *)
Lemma api_files_come_from_backend_bucket_witness :
  exists f, In f [server_py]
            /\ categorize f = Some BackendBucket
            /\ api_file {| api_file := "server.py";
                           endpoints := _extract_api_endpoints (content server_py) |}
               = name f
            /\ endpoints {| api_file := "server.py";
                            endpoints := _extract_api_endpoints (content server_py) |}
               = _extract_api_endpoints (content f)
            /\ 1 <= List.length
                      (endpoints {| api_file := "server.py";
                                    endpoints := _extract_api_endpoints (content server_py) |}).
Proof.
  apply (api_files_come_from_backend_bucket PySet.insertion_order [server_py] [] [] []).
  vm_compute. auto.
Defined.

(* ----------------------------------------------------------------- *)
(** ** Letter case, and patterns that are plain words *)


Lemma upper_lower_char a : upper_char (lower_char a) = upper_char a.
Proof. all_ascii a. Qed.









(* ---- literal patterns ---- *)
Lemma prefix_cons a s1 b s2 :
  String.prefix (String a s1) (String b s2) = Ascii.eqb a b && String.prefix s1 s2.
Proof.
  simpl. destruct (ascii_dec a b) as [->|Hne].
  - now rewrite Ascii.eqb_refl.
  - apply Ascii.eqb_neq in Hne. now rewrite Hne.
Qed.

Lemma run_Str ic lit : forall s cs k,
  Re.run ic (Re.Str lit) s cs k
  = if String.prefix (if ic then lower lit else lit) (if ic then lower s else s)
    then k (drop (String.length lit) s) cs else None.
Proof.
  induction lit as [|c l IH]; intros s cs k.
  - simpl. destruct ic; destruct s; reflexivity.
  - cbn [Re.Str Re.run]. destruct s as [|a t].
    + destruct ic; reflexivity.
    + rewrite IH. unfold Re.lit_match.
      destruct ic; cbn [lower]; rewrite prefix_cons; cbn [String.length drop];
        destruct (Ascii.eqb _ _); reflexivity.
Qed.




(* ----------------------------------------------------------------- *)
(** ** Signatures that are plain words *)



(* ----------------------------------------------------------------- *)
(** ** Detection ignores letter case *)










(* ----------------------------------------------------------------- *)
(** ** The language ignores the case of the name *)











(* ----------------------------------------------------------------- *)
(** ** What a successful match did *)

Lemma star_loop_sound ic a step :
  (forall s cs k res, step s cs k = Some res ->
     exists s' cs', matched ic a s cs s' cs' /\ k s' cs' = Some res) ->
  forall fuel s cs k res,
    Re.star_loop step fuel s cs k = Some res ->
    exists s' cs', matched ic (Re.Star a) s cs s' cs' /\ k s' cs' = Some res.
Proof.
  intros Hstep. induction fuel as [|n IH]; intros s cs k res H; simpl in H.
  - exists s, cs. split; [constructor | exact H].
  - destruct (step s cs _) as [r|] eqn:E.
    + injection H as ->. apply Hstep in E.
      destruct E as (s1 & cs1 & Hm & Hk).
      destruct (Nat.ltb (String.length s1) (String.length s)); [|discriminate].
      apply IH in Hk. destruct Hk as (s2 & cs2 & Hm2 & Hk2).
      exists s2, cs2. split; [|exact Hk2]. econstructor; eassumption.
    + exists s, cs. split; [constructor | exact H].
Qed.

Lemma run_sound ic r : forall s cs k res,
  Re.run ic r s cs k = Some res ->
  exists s' cs', matched ic r s cs s' cs' /\ k s' cs' = Some res.
Proof.
  induction r as [|c| |neg items|a IHa b IHb|a IHa b IHb|a IHa|n a IHa|];
    intros s cs k res H; cbn [Re.run] in H.
  - exists s, cs. split; [constructor | exact H].
  - destruct s as [|x t]; [discriminate|].
    destruct (Re.lit_match ic c x) eqn:E; [|discriminate].
    exists t, cs. split; [now constructor | exact H].
  - destruct s as [|x t]; [discriminate|].
    destruct (Ascii.eqb x newline) eqn:E; [discriminate|].
    exists t, cs. split; [now constructor | exact H].
  - destruct s as [|x t]; [discriminate|].
    destruct (Re.cls_match ic neg items x) eqn:E; [|discriminate].
    exists t, cs. split; [now constructor | exact H].
  - apply IHa in H. destruct H as (s1 & cs1 & Hm1 & H).
    apply IHb in H. destruct H as (s2 & cs2 & Hm2 & H).
    exists s2, cs2. split; [econstructor; eassumption | exact H].
  - destruct (Re.run ic a s cs k) as [x|] eqn:E.
    + injection H as ->. apply IHa in E. destruct E as (s1 & cs1 & Hm & Hk).
      exists s1, cs1. split; [now apply matched_Alt_l | exact Hk].
    + apply IHb in H. destruct H as (s1 & cs1 & Hm & Hk).
      exists s1, cs1. split; [now apply matched_Alt_r | exact Hk].
  - apply (star_loop_sound ic a (Re.run ic a) IHa) in H. exact H.
  - apply IHa in H. destruct H as (s1 & cs1 & Hm & Hk).
    eexists _, _. split; [apply matched_Grp; exact Hm | exact Hk].
  - destruct s as [|x [|y t]].
    + exists "", cs. split; [constructor | exact H].
    + destruct (Ascii.eqb_spec x newline) as [->|Hne]; [|discriminate].
      eexists _, cs. split; [constructor | exact H].
    + discriminate.
Qed.

Lemma match_at_sound ic r s s' cs :
  Re.match_at ic r s = Some (s', cs) -> matched ic r s [] s' cs.
Proof.
  unfold Re.match_at. intros H. apply run_sound in H.
  destruct H as (s1 & cs1 & Hm & [= <- <-]). exact Hm.
Qed.

Lemma find_from_sound ic r : forall s skip cs,
  In cs (Re.find_from ic r skip s) ->
  exists t s', matched ic r t [] s' cs.
Proof.
  induction s as [|x t IH]; intros skip cs H.
  - destruct skip as [|n]; simpl in H; [|destruct H].
    destruct (Re.match_at ic r "") as [[s' cs0]|] eqn:E; [|destruct H].
    destruct H as [<-|[]]. apply match_at_sound in E. eauto.
  - destruct skip as [|n]; cbn [Re.find_from] in H.
    + destruct (Re.match_at ic r (String x t)) as [[s' cs0]|] eqn:E.
      * destruct H as [<-|H]; [apply match_at_sound in E; eauto|].
        apply IH in H. exact H.
      * apply IH in H. exact H.
    + apply IH in H. exact H.
Qed.

(* ---- what a match consumed ---- *)
Lemma matched_suffix ic r s cs s' cs' :
  matched ic r s cs s' cs' -> exists w, s = w ++ s'.
Proof.
  induction 1.
  - exists "". reflexivity.
  - exists (String a ""). reflexivity.
  - exists (String a ""). reflexivity.
  - exists (String a ""). reflexivity.
  - destruct IHmatched1 as [w1 ->]. destruct IHmatched2 as [w2 ->].
    exists (w1 ++ w2). clear. induction w1; simpl; [reflexivity | now rewrite IHw1].
  - assumption.
  - assumption.
  - exists "". reflexivity.
  - destruct IHmatched1 as [w1 ->]. destruct IHmatched2 as [w2 ->].
    exists (w1 ++ w2). clear. induction w1; simpl; [reflexivity | now rewrite IHw1].
  - assumption.
  - exists "". reflexivity.
  - exists "". reflexivity.
Qed.

Lemma append_length w s : String.length (w ++ s) = String.length w + String.length s.
Proof. induction w; simpl; [reflexivity | now rewrite IHw]. Qed.

Lemma take_append w s : take (String.length (w ++ s) - String.length s) (w ++ s) = w.
Proof.
  rewrite append_length. replace (String.length w + String.length s - String.length s)
    with (String.length w) by lia.
  induction w; simpl; [reflexivity | now rewrite IHw].
Qed.

Lemma matched_groupless ic r s cs s' cs' :
  matched ic r s cs s' cs' -> groupless r = true -> cs' = cs.
Proof.
  induction 1; simpl; intros G; try reflexivity;
    try (apply andb_true_iff in G; destruct G as [G1 G2]); auto.
  - rewrite IHmatched2, IHmatched1; auto.
  - rewrite IHmatched2, IHmatched1; auto.
  - discriminate.
Qed.

(* ----------------------------------------------------------------- *)
(** ** Extracted endpoints *)

Lemma append_assoc_str (a b c : string) : ((a ++ b) ++ c = a ++ (b ++ c))%string.
Proof. induction a; simpl; [reflexivity | now rewrite IHa]. Qed.

Lemma all_chars_app p a b :
  all_chars p (a ++ b) = all_chars p a && all_chars p b.
Proof. induction a; simpl; [reflexivity | now rewrite IHa, andb_assoc]. Qed.

Lemma groupless_Str lit : groupless (Re.Str lit) = true.
Proof. induction lit; simpl; auto. Qed.

Lemma upper_lower s : upper (lower s) = upper s.
Proof. induction s; simpl; [reflexivity | now rewrite upper_lower_char, IHs]. Qed.

Lemma matched_Str_word ic lit : forall s cs s' cs',
  matched ic (Re.Str lit) s cs s' cs' ->
  exists w, s = (w ++ s')%string
            /\ (if ic then lower w = lower lit else w = lit).
Proof.
  induction lit as [|c l IH]; intros s cs s' cs' H; cbn [Re.Str] in H.
  - inversion H; subst. exists "". split; [reflexivity | destruct ic; reflexivity].
  - inversion H as [| | | |a b s0 cs0 s1 cs1 s2 cs2 H1 H2| | | | | | |]; subst.
    inversion H1 as [|c0 x t cs3 Hl| | | | | | | | | |]; subst.
    apply IH in H2. destruct H2 as (w & -> & Hw).
    exists (String x w). split; [reflexivity|].
    unfold Re.lit_match in Hl. destruct ic.
    + apply Ascii.eqb_eq in Hl. cbn [lower]. now rewrite Hw, Hl.
    + apply Ascii.eqb_eq in Hl. now subst.
Qed.

Lemma matched_class_star ic neg items s cs s' cs' :
  matched ic (Re.Star (Re.Cls neg items)) s cs s' cs' ->
  cs' = cs
  /\ exists w, s = (w ++ s')%string
               /\ all_chars (Re.cls_match ic neg items) w = true.
Proof.
  remember (Re.Star (Re.Cls neg items)) as r eqn:Er.
  induction 1; try discriminate.
  - split; [reflexivity|]. exists "". split; reflexivity.
  - injection Er as ->.
    inversion H as [| | |neg' items' x t cs3 Hc| | | | | | | |]; subst.
    destruct (IHmatched2 eq_refl) as (-> & w & -> & Hw).
    split; [reflexivity|]. exists (String x w). split; [reflexivity|].
    cbn [all_chars]. now rewrite Hc, Hw.
Qed.

Lemma matched_class_plus ic neg items s cs s' cs' :
  matched ic (Re.Plus (Re.Cls neg items)) s cs s' cs' ->
  cs' = cs
  /\ exists w, s = (w ++ s')%string
               /\ 1 <= String.length w
               /\ all_chars (Re.cls_match ic neg items) w = true.
Proof.
  unfold Re.Plus. intros H.
  inversion H as [| | | |a b s0 cs0 s1 cs1 s2 cs2 H1 H2| | | | | | |]; subst.
  inversion H1 as [| | |neg' items' x t cs3 Hc| | | | | | | |]; subst.
  apply matched_class_star in H2. destruct H2 as (-> & w & -> & Hw).
  split; [reflexivity|]. exists (String x w). split; [reflexivity|].
  split; [simpl; lia|]. cbn [all_chars]. now rewrite Hc, Hw.
Qed.

Lemma not_a_quote ic c :
  Re.cls_match ic true [Re.Ch squote; Re.Ch dquote] c = true ->
  Ascii.eqb c squote = false /\ Ascii.eqb c dquote = false.
Proof.
  destruct ic; destruct c as [[] [] [] [] [] [] [] []]; vm_compute;
    intuition congruence.
Qed.

Lemma all_chars_count (p : ascii -> bool) q w :
  (forall c, p c = true -> Ascii.eqb c q = false) ->
  all_chars p w = true -> count_char q w = 0.
Proof.
  intros Hp. induction w as [|c t IH]; simpl; [reflexivity|].
  intros H. apply andb_true_iff in H. destruct H as [Hc Ht].
  rewrite (Hp c Hc), (IH Ht). reflexivity.
Qed.

Lemma matched_unquoted ic s cs s' cs' :
  matched ic Re.unquoted s cs s' cs' ->
  cs' = cs
  /\ exists w, s = (w ++ s')%string /\ 1 <= String.length w
               /\ count_char squote w = 0 /\ count_char dquote w = 0.
Proof.
  intros H. apply matched_class_plus in H.
  destruct H as (-> & w & -> & Hl & Hw). split; [reflexivity|].
  exists w. repeat split; try assumption.
  - apply (all_chars_count _ _ _ (fun c H => proj1 (not_a_quote ic c H)) Hw).
  - apply (all_chars_count _ _ _ (fun c H => proj2 (not_a_quote ic c H)) Hw).
Qed.

Lemma matched_http_method s cs s' cs' :
  matched true http_method s cs s' cs' ->
  cs' = cs /\ exists w, s = (w ++ s')%string /\ In (upper w) http_methods.
Proof.
  intros H.
  assert (G : cs' = cs) by (apply (matched_groupless _ _ _ _ _ _ H); reflexivity).
  split; [exact G|]. unfold http_method in H.
  assert (Hstr : forall lit s cs s' cs',
            matched true (Re.Str lit) s cs s' cs' ->
            exists w, s = (w ++ s')%string /\ upper w = upper lit).
  { intros lit s0 cs0 s0' cs0' Hm. apply matched_Str_word in Hm.
    destruct Hm as (w & -> & Hw). exists w. split; [reflexivity|].
    now rewrite <- (upper_lower w), Hw, upper_lower. }
  repeat match goal with
  | H : matched true (Re.Alt _ _) _ _ _ _ |- _ =>
      inversion H; subst; clear H
  end;
  match goal with
  | H : matched true _ _ _ _ _ |- _ =>
      first [ apply (Hstr "get") in H | apply (Hstr "post") in H
            | apply (Hstr "put") in H | apply (Hstr "delete") in H
            | apply (Hstr "patch") in H ];
      destruct H as (w & -> & Hw); exists w;
      split; [reflexivity | rewrite Hw; simpl; auto 6]
  end.
Qed.

(** The three endpoint patterns differ in their first word only. *)
Lemma matched_endpoint prefix t s' cs :
  matched true
    (Re.Seq [Re.Str prefix; Re.Grp 1 http_method; Re.Lit "("; Re.quote;
             Re.Grp 2 Re.unquoted; Re.quote]) t [] s' cs ->
  In (upper (Re.group cs 1)) http_methods
  /\ 1 <= String.length (Re.group cs 2)
  /\ count_char squote (Re.group cs 2) = 0
  /\ count_char dquote (Re.group cs 2) = 0.
Proof.
  cbn [Re.Seq]. intros H.
  inv_cat. 
  match goal with
  | Hp : matched _ (Re.Str prefix) _ _ _ _ |- _ =>
      apply matched_groupless in Hp; [subst | apply groupless_Str]
  end.
  inv_cat. inv_grp.
  match goal with
  | Hm : matched _ http_method _ _ _ _ |- _ =>
      apply matched_http_method in Hm; destruct Hm as (-> & w1 & -> & Hw1)
  end.
  rewrite take_append in *.
  inv_cat. inv_lit. inv_cat. inv_quote. inv_cat. inv_quote. inv_grp.
  match goal with
  | Hu : matched _ Re.unquoted _ _ _ _ |- _ =>
      apply matched_unquoted in Hu;
      destruct Hu as (-> & w2 & E & Hl2 & Hs & Hd)
  end.
  rewrite E, take_append. cbn [Re.group Nat.eqb]. auto.
Qed.

(** X14. Every endpoint extracted from any text has one of the five methods,
    in upper case, and a path that is not empty and holds no quote. *)
Theorem extracted_endpoints_well_formed (text : string) (e : Endpoint) :
  In e (_extract_api_endpoints text) ->
  In (method e) ["GET"; "POST"; "PUT"; "DELETE"; "PATCH"]
  /\ 1 <= String.length (path e)
  /\ count_char squote (path e) = 0
  /\ count_char dquote (path e) = 0.
Proof.
  unfold _extract_api_endpoints. rewrite in_flat_map.
  intros (p & Hp & He). apply in_map_iff in He.
  destruct He as ((m & pa) & <- & Hmp). cbn [method path fst snd].
  unfold Re.findall2 in Hmp. apply in_map_iff in Hmp.
  destruct Hmp as (cs & [= <- <-] & Hcs).
  apply find_from_sound in Hcs. destruct Hcs as (t & s' & Hm).
  unfold endpoint_patterns in Hp.
  destruct Hp as [<-|[<-|[<-|[]]]]; apply matched_endpoint in Hm; exact Hm.
Qed.

(** The endpoint found in server.py. *)
Lemma extracted_endpoints_well_formed_witness :
  In (method {| method := "GET"; path := "/users" |})
     ["GET"; "POST"; "PUT"; "DELETE"; "PATCH"]
  /\ 1 <= String.length (path {| method := "GET"; path := "/users" |})
  /\ count_char squote (path {| method := "GET"; path := "/users" |}) = 0
  /\ count_char dquote (path {| method := "GET"; path := "/users" |}) = 0.
Proof.
  apply (extracted_endpoints_well_formed (content server_py)).
  vm_compute. auto.
Defined.

(* ----------------------------------------------------------------- *)
(** ** Extracted table and class names *)

Lemma word_char ic c :
  Re.cls_match ic false [Re.Word] c = true -> Re.is_word c = true.
Proof.
  destruct ic; destruct c as [[] [] [] [] [] [] [] []]; vm_compute;
    intuition congruence.
Qed.

Lemma all_chars_impl (p q : ascii -> bool) w :
  (forall c, p c = true -> q c = true) ->
  all_chars p w = true -> all_chars q w = true.
Proof.
  intros Hpq. induction w as [|c t IH]; simpl; [reflexivity|].
  intros H. apply andb_true_iff in H. destruct H as [Hc Ht].
  now rewrite (Hpq c Hc), (IH Ht).
Qed.

Lemma matched_word_group ic n s cs s' cs' :
  matched ic (Re.Grp n word) s cs s' cs' ->
  exists w, cs' = (n, w) :: cs /\ 1 <= String.length w
            /\ all_chars Re.is_word w = true.
Proof.
  intros H. inversion H; subst; clear H.
  match goal with
  | Hm : matched _ word _ _ _ _ |- _ =>
      apply matched_class_plus in Hm; destruct Hm as (-> & w & -> & Hl & Hall)
  end.
  rewrite take_append. exists w. repeat split; [exact Hl|].
  apply (all_chars_impl _ _ _ (word_char ic) Hall).
Qed.

(** X15. Every table name extracted from SQL text and every class name
    extracted from a model file is a non-empty run of word characters. *)
Theorem extracted_names_are_words (text n : string) :
  In n (_extract_sql_tables text) \/ In n (_extract_models text) ->
  1 <= String.length n /\ all_chars Re.is_word n = true.
Proof.
  unfold _extract_sql_tables, _extract_models, Re.findall1.
  intros [H|H]; apply in_map_iff in H; destruct H as (cs & <- & Hcs);
    apply find_from_sound in Hcs; destruct Hcs as (t & s' & Hm);
    cbn [Re.Seq] in Hm.
  - inversion Hm; subst; clear Hm. peel_with matched_groupless.
    all: match goal with
         | Hg : matched _ (Re.Grp 1 word) _ _ _ _ |- _ =>
             apply matched_word_group in Hg; destruct Hg as (w & -> & Hl & Hall);
             cbn [Re.group Nat.eqb]; auto
         end.
  - inversion Hm; subst; clear Hm. peel_with matched_groupless.
    all: match goal with
         | Hg : matched _ (Re.Grp 1 word) _ _ _ _ |- _ =>
             apply matched_word_group in Hg; destruct Hg as (w & -> & Hl & Hall);
             cbn [Re.group Nat.eqb]; auto
         end.
Qed.

(* ----------------------------------------------------------------- *)
(** ** Extracted imports and CSS classes *)

Lemma matched_unquoted_group ic n s cs s' cs' :
  matched ic (Re.Grp n Re.unquoted) s cs s' cs' ->
  exists w, cs' = (n, w) :: cs /\ 1 <= String.length w
            /\ count_char squote w = 0 /\ count_char dquote w = 0.
Proof.
  intros H. inversion H; subst; clear H.
  match goal with
  | Hm : matched _ Re.unquoted _ _ _ _ |- _ =>
      apply matched_unquoted in Hm;
      destruct Hm as (-> & w & -> & Hl & Hs & Hd)
  end.
  rewrite take_append. exists w. auto.
Qed.

(** X16. Every module path extracted from a component's import and require
    forms is not empty and holds no quote. *)
Theorem extracted_imports_well_formed (text p : string) :
  In p (_extract_imports text) ->
  1 <= String.length p /\ count_char squote p = 0 /\ count_char dquote p = 0.
Proof.
  unfold _extract_imports, import_patterns. rewrite in_flat_map.
  intros (r & Hr & Hp). unfold Re.findall1 in Hp. apply in_map_iff in Hp.
  destruct Hp as (cs & <- & Hcs).
  apply find_from_sound in Hcs. destruct Hcs as (t & s' & Hm).
  destruct Hr as [<-|[<-|[]]]; cbn [Re.Seq] in Hm;
    inversion Hm; subst; clear Hm; peel_with matched_groupless;
    match goal with
    | Hg : matched _ (Re.Grp 1 Re.unquoted) _ _ _ _ |- _ =>
        apply matched_unquoted_group in Hg;
        destruct Hg as (w & -> & Hl & Hs & Hd);
        cbn [Re.group Nat.eqb]; auto
    end.
Qed.

Lemma css_first_char c :
  Re.cls_match false false
    [Re.Range "a" "z"; Re.Range "A" "Z"; Re.Ch "_"; Re.Ch "-"] c = true ->
  is_css_char c = true /\ Re.is_digit c = false.
Proof.
  destruct c as [[] [] [] [] [] [] [] []]; vm_compute; intuition congruence.
Qed.

Lemma css_next_char c :
  Re.cls_match false false
    [Re.Range "a" "z"; Re.Range "A" "Z"; Re.Range "0" "9"; Re.Ch "_"; Re.Ch "-"] c
  = true ->
  is_css_char c = true.
Proof.
  destruct c as [[] [] [] [] [] [] [] []]; vm_compute; intuition congruence.
Qed.

(** X17. The CSS classes extracted from a stylesheet are pairwise distinct;
    each is made of letters, digits, underscores and hyphens and does not
    start with a digit. *)
Theorem extracted_css_classes_well_formed (o : PySet.SetOrder) (text : string) :
  NoDup (_extract_css_classes o text)
  /\ Forall (fun c => all_chars is_css_char c = true
                      /\ first_char (fun x => negb (Re.is_digit x)) c = true)
            (_extract_css_classes o text).
Proof.
  unfold _extract_css_classes. split.
  - apply to_list_NoDup, set_of_list_NoDup.
  - apply Forall_forall. intros c Hc.
    apply (proj1 (to_list_In o c _)) in Hc.
    apply (proj1 (set_of_list_In c _)) in Hc.
    unfold Re.findall1 in Hc. apply in_map_iff in Hc.
    destruct Hc as (cs & <- & Hcs).
    apply find_from_sound in Hcs. destruct Hcs as (t & s' & Hm).
    unfold css_class_pattern in Hm. cbn [Re.Seq] in Hm.
    inversion Hm; subst; clear Hm.
    match goal with
    | Hl : matched _ (Re.Lit _) _ _ _ _ |- _ => inversion Hl; subst; clear Hl
    end.
    match goal with
    | Hg : matched _ (Re.Grp _ _) _ _ _ _ |- _ => inversion Hg; subst; clear Hg
    end.
    match goal with
    | Hc : matched _ (Re.Cat _ _) _ _ _ _ |- _ => inversion Hc; subst; clear Hc
    end.
    match goal with
    | H1 : matched _ (Re.Cls _ _) _ _ _ _ |- _ => inversion H1; subst; clear H1
    end.
    match goal with
    | H2 : matched _ (Re.Star _) _ _ _ _ |- _ =>
        apply matched_class_star in H2; destruct H2 as (-> & w & -> & Hall)
    end.
    cbn [Re.group Nat.eqb].
    match goal with
    | |- context [take ?n (String ?a (w ++ ?r))] =>
        change (String a (w ++ r)) with ((String a w) ++ r)%string;
        rewrite take_append
    end.
    match goal with
    | Hf : Re.cls_match _ _ _ _ = true |- _ =>
        apply css_first_char in Hf; destruct Hf as [Hf1 Hf2]
    end.
    cbn [all_chars first_char]. rewrite Hf1, Hf2. split; [|reflexivity].
    apply (all_chars_impl _ _ _ css_next_char Hall).
Qed.

(* ----------------------------------------------------------------- *)
(** ** Dependencies *)

Lemma identifier_first_char c :
  Re.cls_match false false [Re.Range "a" "z"; Re.Range "A" "Z"; Re.Ch "_"] c = true ->
  Re.is_word c = true /\ Re.is_digit c = false.
Proof.
  destruct c as [[] [] [] [] [] [] [] []]; vm_compute; intuition congruence.
Qed.

Lemma identifier_next_char c :
  Re.cls_match false false
    [Re.Range "a" "z"; Re.Range "A" "Z"; Re.Range "0" "9"; Re.Ch "_"] c = true ->
  Re.is_word c = true.
Proof.
  destruct c as [[] [] [] [] [] [] [] []]; vm_compute; intuition congruence.
Qed.

Lemma matched_identifier_group n s cs s' cs' :
  matched false (Re.Grp n Dependencies.identifier) s cs s' cs' ->
  exists w, cs' = (n, w) :: cs
            /\ all_chars Re.is_word w = true
            /\ first_char (fun x => negb (Re.is_digit x)) w = true.
Proof.
  intros H. inversion H; subst; clear H.
  match goal with
  | Hc : matched _ Dependencies.identifier _ _ _ _ |- _ =>
      unfold Dependencies.identifier in Hc; inversion Hc; subst; clear Hc
  end.
  match goal with
  | H1 : matched _ (Re.Cls _ _) _ _ _ _ |- _ => inversion H1; subst; clear H1
  end.
  match goal with
  | H2 : matched _ (Re.Star _) _ _ _ _ |- _ =>
      apply matched_class_star in H2; destruct H2 as (-> & w & -> & Hall)
  end.
  match goal with
  | |- context [take ?n (String ?a (w ++ ?r))] =>
      change (String a (w ++ r)) with ((String a w) ++ r)%string;
      rewrite take_append
  end.
  match goal with
  | Hf : Re.cls_match _ _ _ _ = true |- _ =>
      apply identifier_first_char in Hf; destruct Hf as [Hf1 Hf2]
  end.
  eexists. split; [reflexivity|].
  cbn [all_chars first_char]. rewrite Hf1, Hf2. split; [|reflexivity].
  apply (all_chars_impl _ _ _ identifier_next_char Hall).
Qed.

(** X18. The dependencies come out without repeats; a language outside the
    four the function knows gives none; for Python each dependency is an
    identifier, for the JavaScript family each is a non-empty module path
    without quotes. *)
Theorem dependencies_well_formed (o : PySet.SetOrder) (text language : string) :
  let deps := Dependencies.extract_imports_and_dependencies o text language in
  NoDup deps
  /\ (PyMore.mem language ["Python"; "JavaScript"; "TypeScript"; "React"] = false ->
      deps = [])
  /\ Forall (fun d =>
       if String.eqb language "Python"
       then all_chars Re.is_word d = true
            /\ first_char (fun x => negb (Re.is_digit x)) d = true
       else 1 <= String.length d
            /\ count_char squote d = 0 /\ count_char dquote d = 0) deps.
Proof.
  cbv zeta. unfold Dependencies.extract_imports_and_dependencies.
  split; [apply to_list_NoDup, set_of_list_NoDup|]. split.
  - unfold PyMore.mem. cbn [existsb]. rewrite !orb_false_r. intros H.
    apply orb_false_iff in H. destruct H as [H1 H].
    apply orb_false_iff in H. destruct H as [H2 H].
    apply orb_false_iff in H. destruct H as [H3 H4].
    rewrite H1, H2, H3, H4. cbn. now apply to_list_nil.
  - apply Forall_forall. intros d Hd.
    apply (proj1 (to_list_In o d _)) in Hd.
    apply (proj1 (set_of_list_In d _)) in Hd.
    unfold PyMore.mem in Hd. cbn [existsb] in Hd. rewrite !orb_false_r in Hd.
    destruct (String.eqb language "Python") eqn:Ep.
    + cbn [orb] in Hd. rewrite in_flat_map in Hd. destruct Hd as (r & Hr & Hd).
      unfold Re.findall1 in Hd. apply in_map_iff in Hd.
      destruct Hd as (cs & <- & Hcs). apply find_from_sound in Hcs.
      destruct Hcs as (t & s' & Hm).
      destruct Hr as [<-|[<-|[]]]; cbn [Re.Seq] in Hm;
        inversion Hm; subst; clear Hm; peel_with matched_groupless;
        match goal with
        | Hg : matched _ (Re.Grp 1 Dependencies.identifier) _ _ _ _ |- _ =>
            apply matched_identifier_group in Hg;
            destruct Hg as (w & -> & Hall & Hfirst)
        end; peel_with matched_groupless; cbn [Re.group Nat.eqb]; auto.
    + cbn [orb] in Hd.
      destruct (String.eqb language "JavaScript" || (String.eqb language "TypeScript"
                || String.eqb language "React")); [|destruct Hd].
      rewrite in_flat_map in Hd. destruct Hd as (r & Hr & Hd).
      unfold Re.findall1 in Hd. apply in_map_iff in Hd.
      destruct Hd as (cs & <- & Hcs). apply find_from_sound in Hcs.
      destruct Hcs as (t & s' & Hm).
      destruct Hr as [<-|[<-|[]]]; cbn [Re.Seq] in Hm;
        inversion Hm; subst; clear Hm; peel_with matched_groupless;
        match goal with
        | Hg : matched _ (Re.Grp 1 Re.unquoted) _ _ _ _ |- _ =>
            apply matched_unquoted_group in Hg;
            destruct Hg as (w & -> & Hl & Hs & Hd);
            cbn [Re.group Nat.eqb]; auto
        end.
Qed.

(* ----------------------------------------------------------------- *)
(** ** The flow diagram *)

(* ---- the order of strings ---- *)
Lemma ascii_compare_lt_trans a b c :
  Ascii.compare a b = Lt -> Ascii.compare b c = Lt -> Ascii.compare a c = Lt.
Proof.
  unfold Ascii.compare. rewrite !N.compare_lt_iff. apply N.lt_trans.
Qed.

Lemma string_compare_lt_trans a : forall b c,
  String.compare a b = Lt -> String.compare b c = Lt -> String.compare a c = Lt.
Proof.
  induction a as [|x a IH]; intros [|y b] [|z c]; simpl; try discriminate; auto.
  destruct (Ascii.compare x y) eqn:Exy; try discriminate;
    destruct (Ascii.compare y z) eqn:Eyz; try discriminate; intros H1 H2.
  - apply Ascii.compare_eq_iff in Exy, Eyz. subst.
    assert (E : Ascii.compare z z = Eq) by (unfold Ascii.compare; apply N.compare_refl).
    rewrite E. eapply IH; eassumption.
  - apply Ascii.compare_eq_iff in Exy. subst. now rewrite Eyz.
  - apply Ascii.compare_eq_iff in Eyz. subst. now rewrite Exy.
  - now rewrite (ascii_compare_lt_trans x y z Exy Eyz).
Qed.

Lemma string_compare_refl a : String.compare a a = Eq.
Proof.
  induction a as [|x a IH]; simpl; [reflexivity|].
  assert (E : Ascii.compare x x = Eq) by (unfold Ascii.compare; apply N.compare_refl).
  now rewrite E.
Qed.

Lemma string_leb_iff a b : String.leb a b = true <-> String.compare a b = Lt \/ a = b.
Proof.
  unfold String.leb. destruct (String.compare a b) eqn:E.
  - split; [intros _; right; now apply String.compare_eq_iff | reflexivity].
  - split; [intros _; left; reflexivity | reflexivity].
  - simpl. split; [discriminate|]. intros [H|H]; [discriminate|]. subst.
    rewrite string_compare_refl in E. discriminate.
Qed.

Lemma string_leb_trans a b c :
  String.leb a b = true -> String.leb b c = true -> String.leb a c = true.
Proof.
  rewrite !string_leb_iff. intros [H1 | ->] [H2 | ->]; auto.
  left. eapply string_compare_lt_trans; eassumption.
Qed.

Lemma insert_perm x l : Permutation (PyMore.insert x l) (x :: l).
Proof.
  induction l as [|y r IH]; simpl; [reflexivity|].
  destruct (String.leb x y); [reflexivity|].
  rewrite IH. apply perm_swap.
Qed.

Lemma sorted_perm l : Permutation (PyMore.sorted l) l.
Proof.
  induction l as [|x r IH]; simpl; [reflexivity|].
  rewrite insert_perm. now constructor.
Qed.

Lemma insert_sorted x l :
  StronglySorted leq l -> StronglySorted leq (PyMore.insert x l).
Proof.
  induction 1 as [|y r Hr IH Hy]; simpl.
  - repeat constructor.
  - destruct (String.leb x y) eqn:E.
    + constructor; [now constructor|]. constructor; [exact E|].
      eapply Forall_impl; [|exact Hy]. intros z Hz.
      eapply string_leb_trans; eassumption.
    + constructor; [exact IH|].
      apply (Permutation_Forall (Permutation_sym (insert_perm x r))).
      constructor; [|exact Hy].
      destruct (String.leb_total x y) as [H|H]; [congruence | exact H].
Qed.

Lemma sorted_sorted l : StronglySorted leq (PyMore.sorted l).
Proof.
  induction l as [|x r IH]; simpl; [constructor | now apply insert_sorted].
Qed.

Lemma sorted_unique l : forall l',
  StronglySorted leq l -> StronglySorted leq l' -> Permutation l l' -> l = l'.
Proof.
  induction l as [|x r IH]; intros l' Hl Hl' Hp.
  - apply Permutation_nil in Hp. now subst.
  - destruct l' as [|y r']; [apply Permutation_sym, Permutation_nil in Hp; discriminate|].
    inversion Hl as [|? ? Hr Hx]; subst. inversion Hl' as [|? ? Hr' Hy]; subst.
    assert (Exy : x = y).
    { assert (Hxin : In x (y :: r')) by (apply (Permutation_in _ Hp); simpl; auto).
      assert (Hyin : In y (x :: r))
        by (apply (Permutation_in _ (Permutation_sym Hp)); simpl; auto).
      destruct Hxin as [E|Hxin]; [now subst|].
      destruct Hyin as [E|Hyin]; [now subst|].
      rewrite Forall_forall in Hx, Hy.
      apply String.leb_antisym; [apply Hx, Hyin | apply Hy, Hxin]. }
    subst y. f_equal. apply IH; try assumption.
    eapply Permutation_cons_inv; eassumption.
Qed.

Lemma sorted_permutation l l' :
  Permutation l l' -> PyMore.sorted l = PyMore.sorted l'.
Proof.
  intros Hp. apply sorted_unique; try apply sorted_sorted.
  rewrite !sorted_perm. exact Hp.
Qed.

Lemma existsb_permutation {A} (p : A -> bool) l l' :
  Permutation l l' -> existsb p l = existsb p l'.
Proof.
  intros Hp. apply bool_eq_iff. rewrite !existsb_exists.
  split; intros [x [Hx Hpx]]; exists x; split; auto.
  - now apply (Permutation_in _ Hp).
  - now apply (Permutation_in _ (Permutation_sym Hp)).
Qed.

Lemma to_list_any_order o o' s :
  Permutation (PySet.to_list o s) (PySet.to_list o' s).
Proof.
  unfold PySet.to_list. rewrite (PySet.iter_perm o s).
  apply Permutation_sym, PySet.iter_perm.
Qed.

(** X19. The diagram does not depend on the order in which sets are
    iterated: frameworks and databases are sorted before they are
    printed. *)
Theorem diagram_order_independent (o o' : PySet.SetOrder)
  (project_context : FlowDiagramService.ProjectContext) :
  FlowDiagramService.generate_diagram o project_context
  = FlowDiagramService.generate_diagram o' project_context.
Proof.
  unfold FlowDiagramService.generate_diagram.
  rewrite !(existsb_permutation _ _ _ (to_list_any_order o o' _)).
  rewrite !(sorted_permutation _ _ (to_list_any_order o o' _)).
  reflexivity.
Qed.

(** X20. The graph of the diagram is well formed: the user node is always
    there, node and edge identifiers are distinct, every edge joins two
    nodes of the diagram, and there are fewer edges than nodes. *)
Theorem diagram_graph_well_formed (o : PySet.SetOrder)
  (project_context : FlowDiagramService.ProjectContext) :
  let d := FlowDiagramService.generate_diagram o project_context in
  let ids := map FlowDiagramService.node_id (FlowDiagramService.nodes d) in
  In "user" ids
  /\ NoDup ids
  /\ NoDup (map FlowDiagramService.edge_id (FlowDiagramService.edges d))
  /\ Forall (fun e => In (FlowDiagramService.source e) ids
                      /\ In (FlowDiagramService.target e) ids)
            (FlowDiagramService.edges d)
  /\ List.length (FlowDiagramService.edges d) < List.length (FlowDiagramService.nodes d).
Proof.
  cbv zeta. unfold FlowDiagramService.generate_diagram. cbv zeta.
  cbn [FlowDiagramService.nodes FlowDiagramService.edges].
  set (hf := (existsb _ _ || FlowDiagramService._has_frontend_dirs _)%bool).
  set (hb := (existsb _ _ || FlowDiagramService._has_backend_dirs _)%bool).
  set (hd := (PySet.nonempty _ || FlowDiagramService._has_db_files _)%bool).
  destruct hf, hb, hd; cbn;
    repeat split;
    repeat (constructor; simpl; auto);
    try (intros H; repeat destruct H as [H|H]; try discriminate H; auto);
    try lia.
Qed.

(* ----------------------------------------------------------------- *)
(** ** The choice of the files to fetch *)

Lemma pymem_In x l : PyMore.mem x l = true <-> In x l.
Proof.
  unfold PyMore.mem. rewrite existsb_exists. split.
  - intros [y [Hy E]]. apply String.eqb_eq in E. now subst.
  - intros H. exists x. split; [exact H | apply String.eqb_refl].
Qed.

Lemma suffix_of_name p :
  PyPath.suffix p
  = match rfind "." (PyPath.name p) with
    | Some i => if (Nat.ltb 0 i) && (Nat.ltb i (String.length (PyPath.name p) - 1))
                then drop i (PyPath.name p) else ""
    | None => ""
    end.
Proof. reflexivity. Qed.

(** X21. A file that passes the two name tests of the fetcher has no hidden
    component (the exception made for .env, .gitignore and the like never
    lets a file through, since such a name has no extension), lies in none
    of the skipped directories, and has one of the text extensions. *)
Theorem accepted_names (file_path : string) :
  GitHubService.name_accepted file_path = true ->
  existsb (PyMore.starts_with ".") (PyPath.parts file_path) = false
  /\ existsb (fun part => PyMore.mem part GitHubService.skip_dirs)
             (PyPath.parts file_path) = false
  /\ In (lower (PyPath.suffix file_path)) GitHubService.text_extensions
  /\ PyMore.mem (lower (PyPath.suffix file_path)) GitHubService.skip_extensions = false.
Proof.
  unfold GitHubService.name_accepted, GitHubService._should_skip_file. cbv zeta.
  intros H. apply andb_true_iff in H. destruct H as [Hskip Hext].
  apply negb_true_iff in Hskip.
  destruct (existsb (PyMore.starts_with ".") (PyPath.parts file_path)) eqn:Ehid.
  - exfalso. cbn [andb] in Hskip.
    destruct (PyMore.mem (PyPath.name file_path) GitHubService.allowed_hidden) eqn:Eal;
      [|discriminate Hskip].
    apply pymem_In in Eal. rewrite suffix_of_name in Hext.
    unfold GitHubService.allowed_hidden in Eal.
    destruct Eal as [E|[E|[E|[E|[E|[]]]]]]; rewrite <- E in Hext;
      vm_compute in Hext; discriminate Hext.
  - cbn [andb] in Hskip. split; [reflexivity|].
    destruct (existsb (fun part => PyMore.mem part GitHubService.skip_dirs)
                (PyPath.parts file_path)); [discriminate Hskip|].
    split; [reflexivity|]. split; [now apply pymem_In|].
    destruct (PyMore.mem (lower (PyPath.suffix file_path)) GitHubService.skip_extensions);
      [discriminate Hskip | reflexivity].
Qed.

(** A Python file in a source directory. *)
Lemma accepted_names_witness :
  existsb (PyMore.starts_with ".") (PyPath.parts "src/app.py") = false
  /\ existsb (fun part => PyMore.mem part GitHubService.skip_dirs)
             (PyPath.parts "src/app.py") = false
  /\ In (lower (PyPath.suffix "src/app.py")) GitHubService.text_extensions
  /\ PyMore.mem (lower (PyPath.suffix "src/app.py")) GitHubService.skip_extensions = false.
Proof. apply (accepted_names "src/app.py"). reflexivity. Defined.

Lemma get_default_In_keys {V} (d : dict V) k dflt :
  get_default d k dflt <> dflt -> In k (keys d).
Proof.
  unfold get_default. intros H. apply get_In_keys.
  destruct (get d k) as [v|]; [eauto | congruence].
Qed.

(** X22. The fetcher reads every extension the analyzer has a language for:
    a file whose language is known passes the fetcher's extension test. *)
Theorem known_languages_are_fetched (file_path : string) :
  String.eqb (language_of file_path) "Unknown" = false ->
  PyMore.mem (lower (PyPath.suffix file_path)) GitHubService.text_extensions = true.
Proof.
  intros H. apply String.eqb_neq in H. unfold language_of in H.
  apply get_default_In_keys in H. apply pymem_In.
  assert (Hsub : forall e, In e (keys supported_extensions) ->
                           In e GitHubService.text_extensions).
  { intros e He. unfold supported_extensions in He. simpl in He.
    unfold GitHubService.text_extensions.
    repeat (destruct He as [<-|He]; [simpl; auto 40|]). destruct He. }
  now apply Hsub.
Qed.

(** A TypeScript component whose extension is in upper case. *)
Lemma known_languages_are_fetched_witness :
  PyMore.mem (lower (PyPath.suffix "src/App.TSX")) GitHubService.text_extensions = true.
Proof. apply (known_languages_are_fetched "src/App.TSX"). reflexivity. Defined.

(* ----------------------------------------------------------------- *)
(** ** Parsed clone URLs *)

(* ---- what the parsed parts look like ---- *)
Lemma not_a_slash ic c :
  Re.cls_match ic true [Re.Ch "/"] c = true -> Ascii.eqb c "/" = false.
Proof.
  destruct ic; destruct c as [[] [] [] [] [] [] [] []]; vm_compute;
    intuition congruence.
Qed.

Lemma matched_no_slash_group ic n s cs s' cs' :
  matched ic (Re.Grp n GitHubService.no_slash) s cs s' cs' ->
  exists w, cs' = (n, w) :: cs /\ 1 <= String.length w /\ count_char "/" w = 0.
Proof.
  intros H. inversion H; subst; clear H.
  match goal with
  | Hm : matched _ GitHubService.no_slash _ _ _ _ |- _ =>
      apply matched_class_plus in Hm;
      destruct Hm as (-> & w & -> & Hl & Hall)
  end.
  rewrite take_append. exists w. repeat split; [exact Hl|].
  apply (all_chars_count _ _ _ (not_a_slash ic) Hall).
Qed.

Lemma count_char_take c n : forall s, count_char c s = 0 -> count_char c (take n s) = 0.
Proof.
  induction n as [|m IH]; intros s H; [reflexivity|].
  destruct s as [|a t]; [reflexivity|]. simpl in *.
  destruct (Ascii.eqb a c); [discriminate|]. simpl. apply IH. exact H.
Qed.

Lemma first_match_sound patterns s owner repo :
  (forall p, In p patterns -> In p GitHubService.url_patterns) ->
  GitHubService.first_match patterns s = Some (owner, repo) ->
  1 <= String.length owner /\ count_char "/" owner = 0 /\ count_char "/" repo = 0.
Proof.
  induction patterns as [|p rest IH]; intros Hsub H; [discriminate|].
  cbn [GitHubService.first_match] in H. unfold PyMore.re_match in H.
  destruct (Re.match_at false p s) as [[s' cs]|] eqn:E.
  - injection H as <- <-. apply match_at_sound in E.
    assert (Hp : In p GitHubService.url_patterns) by (apply Hsub; simpl; auto).
    assert (G : exists w1 w2, cs = [(2, w2); (1, w1)]
                /\ 1 <= String.length w1 /\ count_char "/" w1 = 0
                /\ count_char "/" w2 = 0).
    { unfold GitHubService.url_patterns in Hp.
      destruct Hp as [<-|[<-|[<-|[]]]]; cbn [Re.Seq] in E;
        inversion E; subst; clear E; peel_with matched_groupless;
        repeat match goal with
        | Hg : matched _ (Re.Grp _ GitHubService.no_slash) _ _ _ _ |- _ =>
            apply matched_no_slash_group in Hg;
            let w := fresh "w" in let Hl := fresh "Hl" in let Hc := fresh "Hc" in
            destruct Hg as (w & -> & Hl & Hc)
        end; peel_with matched_groupless; eauto 10. }
    destruct G as (w1 & w2 & -> & Hl1 & Hc1 & Hc2). cbn [Re.group Nat.eqb].
    repeat split; try assumption.
    destruct (PyMore.ends_with ".git" w2); [now apply count_char_take | exact Hc2].
  - apply IH; [|exact H]. intros q Hq. apply Hsub. simpl. auto.
Qed.

(** X23. Whatever URL is parsed, the owner that comes out is not empty, and
    neither the owner nor the repository name holds a slash. *)
Theorem parsed_url_parts (url owner repo : string) :
  GitHubService._parse_github_url url = Some (owner, repo) ->
  1 <= String.length owner /\ count_char "/" owner = 0 /\ count_char "/" repo = 0.
Proof.
  unfold GitHubService._parse_github_url.
  apply first_match_sound. auto.
Qed.

(** A URL with blanks around it and a slash at its end. *)
Lemma parsed_url_parts_witness :
  1 <= String.length "octo" /\ count_char "/" "octo" = 0 /\ count_char "/" "repo" = 0.
Proof.
  apply (parsed_url_parts " https://github.com/octo/repo/ " "octo" "repo").
  reflexivity.
Defined.

(* ----------------------------------------------------------------- *)
(** ** The round trip of a clone URL *)

(* ---- a greedy loop over a character class ---- *)
Lemma star_greedy ic neg items (k : Re.cont) res cs rest :
  first_char (Re.cls_match ic neg items) rest = false ->
  k rest cs = Some res ->
  forall w fuel,
    all_chars (Re.cls_match ic neg items) w = true ->
    String.length w <= fuel ->
    Re.star_loop (Re.run ic (Re.Cls neg items)) fuel (w ++ rest) cs k = Some res.
Proof.
  intros Hrest Hk.
  set (step := Re.run ic (Re.Cls neg items)).
  assert (Hstep : forall s c0 k0, step s c0 k0 =
            match s with
            | String a t => if Re.cls_match ic neg items a then k0 t c0 else None
            | EmptyString => None
            end) by reflexivity.
  clearbody step.
  induction w as [|c t IH]; intros fuel Hall Hfuel.
  - cbn [append]. destruct fuel as [|n]; [exact Hk|].
    cbn [Re.star_loop]. rewrite Hstep. destruct rest as [|a r]; [exact Hk|].
    cbn [first_char] in Hrest. rewrite Hrest. exact Hk.
  - destruct fuel as [|n]; [simpl in Hfuel; lia|].
    cbn [all_chars] in Hall. apply andb_true_iff in Hall. destruct Hall as [Hc Ht].
    cbn [append Re.star_loop]. rewrite Hstep, Hc.
    replace (Nat.ltb (String.length (t ++ rest)) (String.length (String c (t ++ rest))))
      with true by (symmetry; apply Nat.ltb_lt; simpl; lia).
    rewrite (IH n Ht) by (simpl in Hfuel; lia). reflexivity.
Qed.

Lemma group_greedy ic n neg items (k : Re.cont) res cs w rest :
  1 <= String.length w ->
  all_chars (Re.cls_match ic neg items) w = true ->
  first_char (Re.cls_match ic neg items) rest = false ->
  k rest ((n, w) :: cs) = Some res ->
  Re.run ic (Re.Grp n (Re.Plus (Re.Cls neg items))) (w ++ rest) cs k = Some res.
Proof.
  intros Hl Hall Hrest Hk. destruct w as [|c t]; [simpl in Hl; lia|].
  cbn [all_chars] in Hall. apply andb_true_iff in Hall. destruct Hall as [Hc Ht].
  unfold Re.Plus. cbn [Re.run append]. rewrite Hc.
  apply star_greedy; try assumption; [|rewrite append_length; lia].
  change (String c (t ++ rest)) with ((String c t) ++ rest)%string.
  rewrite take_append. exact Hk.
Qed.

Lemma other_than_slash ic c :
  c <> "/"%char -> Re.cls_match ic true [Re.Ch "/"] c = true.
Proof.
  destruct ic; destruct c as [[] [] [] [] [] [] [] []]; vm_compute;
    intuition congruence.
Qed.

Lemma no_slash_chars ic w :
  count_char "/" w = 0 -> all_chars (Re.cls_match ic true [Re.Ch "/"]) w = true.
Proof.
  induction w as [|c t IH]; [reflexivity|]. cbn [count_char all_chars].
  destruct (Ascii.eqb_spec c "/") as [->|Hne].
  - cbn. discriminate.
  - intros H. rewrite other_than_slash by assumption.
    apply IH. exact H.
Qed.

(* ---- strip ---- *)
Lemma rstrip_app a : forall b,
  PyMore.rstrip b = b -> 1 <= String.length b ->
  PyMore.rstrip (a ++ b) = (a ++ b)%string /\ 1 <= String.length (a ++ b).
Proof.
  induction a as [|c t IH]; intros b Hb Hl; [auto|].
  destruct (IH b Hb Hl) as [E L]. cbn [append PyMore.rstrip]. rewrite E.
  split; [|simpl; lia].
  destruct (t ++ b)%string; [simpl in L; lia | reflexivity].
Qed.

Lemma ends_with_app s p : PyMore.ends_with p (s ++ p) = true.
Proof.
  unfold PyMore.ends_with. rewrite append_length.
  replace (String.length s + String.length p - String.length p)
    with (String.length s) by lia.
  replace (Nat.leb (String.length p) (String.length s + String.length p))
    with true by (symmetry; apply Nat.leb_le; lia).
  cbn [andb]. apply String.eqb_eq.
  induction s; simpl; [destruct p; reflexivity | assumption].
Qed.

Lemma take_app_length s p :
  take (String.length (s ++ p) - String.length p) (s ++ p) = s.
Proof. apply take_append. Qed.

Lemma prefix_app p : forall x,
  String.prefix p (p ++ x) = true /\ drop (String.length p) (p ++ x) = x.
Proof.
  induction p as [|c t IH]; intros x; [destruct x; split; reflexivity|].
  destruct (IH x) as [IH1 IH2]. split; [|exact IH2].
  cbn [append]. rewrite prefix_cons, Ascii.eqb_refl. exact IH1.
Qed.

Lemma append_empty s : (s ++ "")%string = s.
Proof. induction s; simpl; [reflexivity | now rewrite IHs]. Qed.

Lemma run_Cat ic a b s cs k :
  Re.run ic (Re.Cat a b) s cs k
  = Re.run ic a s cs (fun s' cs' => Re.run ic b s' cs' k).
Proof. reflexivity. Qed.

Lemma run_Lit_same c t cs k : Re.run false (Re.Lit c) (String c t) cs k = k t cs.
Proof. cbn [Re.run Re.lit_match]. now rewrite Ascii.eqb_refl. Qed.

(** A URL made of a prefix, an owner, a slash and a name is matched by
    the pattern made the same way: the two groups are greedy and stop at
    the slash and at the end. *)
Lemma url_match prefix owner name tail :
  1 <= String.length owner -> count_char "/" owner = 0 ->
  1 <= String.length name -> count_char "/" name = 0 ->
  (forall cs (k : Re.cont), Re.run false tail "" cs k = k "" cs) ->
  PyMore.re_match false
    (Re.Cat (Re.Str prefix)
       (Re.Cat (Re.Grp 1 GitHubService.no_slash)
          (Re.Cat (Re.Lit "/") (Re.Cat (Re.Grp 2 GitHubService.no_slash) tail))))
    (prefix ++ owner ++ "/" ++ name)
  = Some [(2, name); (1, owner)].
Proof.
  intros Hlo Hco Hln Hcn Htail.
  unfold PyMore.re_match, Re.match_at.
  match goal with
  | |- match ?r with _ => _ end = _ =>
      assert (E : r = Some ("", [(2, name); (1, owner)])); [|now rewrite E]
  end.
  rewrite run_Cat, run_Str.
  destruct (prefix_app prefix (owner ++ "/" ++ name)) as [-> ->].
  rewrite run_Cat.
  apply group_greedy; [assumption | now apply no_slash_chars | reflexivity |].
  rewrite run_Cat. cbn [append]. rewrite run_Lit_same, run_Cat.
  rewrite <- (append_empty name) at 1.
  apply group_greedy; [assumption | now apply no_slash_chars | reflexivity |].
  rewrite Htail. reflexivity.
Qed.

Lemma url_tail cs (k : Re.cont) :
  Re.run false
    (Re.Cat GitHubService.opt_git (Re.Cat (Re.Opt (Re.Lit "/")) Re.Eol)) "" cs k
  = k "" cs.
Proof. reflexivity. Qed.

Lemma ssh_tail cs (k : Re.cont) :
  Re.run false (Re.Cat GitHubService.opt_git Re.Eol) "" cs k = k "" cs.
Proof. reflexivity. Qed.

Lemma strip_url p c owner name :
  Re.is_space c = false ->
  PyMore.strip (String c p ++ owner ++ "/" ++ name ++ ".git")
  = (String c p ++ owner ++ "/" ++ name ++ ".git")%string.
Proof.
  intros Hc. unfold PyMore.strip.
  replace (PyMore.lstrip (String c p ++ owner ++ "/" ++ name ++ ".git"))
    with (String c p ++ owner ++ "/" ++ name ++ ".git")%string
    by (cbn [append PyMore.lstrip]; now rewrite Hc).
  assert (L0 : 1 <= String.length ".git") by (simpl; lia).
  destruct (rstrip_app name ".git" eq_refl L0) as [E1 L1].
  destruct (rstrip_app "/" _ E1 L1) as [E2 L2].
  destruct (rstrip_app owner _ E2 L2) as [E3 L3].
  destruct (rstrip_app (String c p) _ E3 L3) as [E4 _]. exact E4.
Qed.

(** X24. A clone URL written as one of the three accepted prefixes, an owner,
    a slash, a name and .git is parsed back into the owner and the
    name. *)
Theorem clone_url_round_trip (owner name : string) :
  1 <= String.length owner ->
  count_char "/" owner = 0 ->
  count_char "/" name = 0 ->
  Forall (fun prefix =>
            GitHubService._parse_github_url
              (prefix ++ owner ++ "/" ++ name ++ ".git") = Some (owner, name))
         ["https://github.com/"; "git@github.com:"; "https://www.github.com/"].
Proof.
  intros Hlo Hco Hcn.
  assert (Hl : 1 <= String.length (name ++ ".git"))
    by (rewrite append_length; simpl; lia).
  assert (Hc : count_char "/" (name ++ ".git") = 0)
    by (rewrite count_char_app, Hcn; reflexivity).
  assert (Hrepo : (if PyMore.ends_with ".git" (name ++ ".git")
                   then take (String.length (name ++ ".git") - 4) (name ++ ".git")
                   else (name ++ ".git")%string) = name).
  { rewrite ends_with_app. apply (take_app_length name ".git"). }
  unfold GitHubService._parse_github_url, GitHubService.url_patterns.
  repeat constructor.
  - rewrite strip_url by reflexivity.
    cbn [GitHubService.first_match Re.Seq].
    rewrite (url_match "https://github.com/" owner (name ++ ".git") _ Hlo Hco Hl Hc url_tail).
    cbn [Re.group Nat.eqb]. now rewrite Hrepo.
  - rewrite strip_url by reflexivity.
    cbn [GitHubService.first_match Re.Seq].
    replace (PyMore.re_match false _ ("git@github.com:" ++ owner ++ "/" ++ name ++ ".git"))
      with (@None Re.caps) at 1 by reflexivity.
    rewrite (url_match "git@github.com:" owner (name ++ ".git") _ Hlo Hco Hl Hc ssh_tail).
    cbn [Re.group Nat.eqb]. now rewrite Hrepo.
  - rewrite strip_url by reflexivity.
    cbn [GitHubService.first_match Re.Seq].
    replace (PyMore.re_match false _ ("https://www.github.com/" ++ owner ++ "/" ++ name ++ ".git"))
      with (@None Re.caps) at 1 by reflexivity.
    replace (PyMore.re_match false _ ("https://www.github.com/" ++ owner ++ "/" ++ name ++ ".git"))
      with (@None Re.caps) at 1 by reflexivity.
    rewrite (url_match "https://www.github.com/" owner (name ++ ".git") _ Hlo Hco Hl Hc url_tail).
    cbn [Re.group Nat.eqb]. now rewrite Hrepo.
Qed.

(** The three URLs of the repository octo/repo. *)
Lemma clone_url_round_trip_witness :
  Forall (fun prefix =>
            GitHubService._parse_github_url
              (prefix ++ "octo" ++ "/" ++ "repo" ++ ".git") = Some ("octo", "repo"))
         ["https://github.com/"; "git@github.com:"; "https://www.github.com/"].
Proof.
  apply (clone_url_round_trip "octo" "repo"); [simpl; lia | reflexivity | reflexivity].
Defined.

(** ** The project type and the architecture type *)

Lemma nonempty_intersection_sym o s other :
  PySet.nonempty (PySet.intersection o s other)
  = PySet.nonempty (PySet.intersection o other s).
Proof.
  rewrite !nonempty_intersection. apply bool_eq_iff.
  rewrite !existsb_exists.
  split; intros [x [Hx Hm]]; apply set_mem_In in Hm; exists x;
    (split; [assumption | now apply set_mem_In]).
Qed.

(** X25. The overview's project type and the architecture type are computed
    from the same frameworks and languages, with a shorter list of
    back-end frameworks for the first.  They agree on the front end; a
    project type of "Backend API" implies the architecture "Backend", a
    "Static Website" is always a "Web Application", and an "Unknown"
    architecture is always a "Software Project". *)
Theorem project_type_and_architecture (o : PySet.SetOrder)
  (fws : PySet.t) (langs : dict nat) :
  let t := _determine_project_type o fws langs in
  let a := _determine_architecture o fws langs in
  (t = "Frontend Application" <-> a = "Full-stack" \/ a = "Frontend")
  /\ (t = "Backend API" -> a = "Backend")
  /\ (a = "Static Website" -> t = "Web Application")
  /\ (a = "Unknown" -> t = "Software Project").
Proof.
  cbv zeta. unfold _determine_project_type, _determine_architecture. cbv zeta.
  unfold frontend_frameworks, backend_frameworks.
  rewrite (nonempty_intersection_sym o fws ["React"; "Vue"; "Angular"]).
  rewrite (nonempty_intersection_sym o fws ["Django"; "Flask"; "FastAPI"; "Express"]).
  rewrite !nonempty_intersection.
  cbn [existsb].
  destruct (PySet.mem "React" fws), (PySet.mem "Vue" fws), (PySet.mem "Angular" fws),
    (PySet.mem "Express" fws), (PySet.mem "Django" fws), (PySet.mem "Flask" fws),
    (PySet.mem "FastAPI" fws), (PySet.mem "Spring" fws), (PySet.mem "Laravel" fws),
    (PySet.mem "Rails" fws), (mem langs "HTML" && mem langs "CSS");
    cbn; repeat split; intros; try discriminate; auto;
    match goal with
    | H : _ \/ _ |- _ => destruct H; discriminate
    end.
Qed.

(** ** The component hierarchy *)

Lemma filter_length_le {A} (p : A -> bool) l :
  List.length (filter p l) <= List.length l.
Proof. induction l as [|x r IH]; simpl; [lia | destruct (p x); simpl; lia]. Qed.

(** X26. The component hierarchy counts the files whose name contains .jsx,
    .tsx or .vue and lists the first ten of them, in the order of the
    input. *)
Theorem component_hierarchy_bounds (files : list FileRecord) :
  let h := _analyze_component_hierarchy files in
  total_components h <= List.length files
  /\ List.length (component_files h) = Nat.min 10 (total_components h)
  /\ (forall n, In n (component_files h) ->
        exists f, In f files /\ name f = n
                  /\ (contains ".jsx" n || contains ".tsx" n || contains ".vue" n) = true)
  /\ (total_components h <= 10 ->
        component_files h
        = map name (filter (fun f => contains ".jsx" (name f) || contains ".tsx" (name f)
                                     || contains ".vue" (name f)) files)).
Proof.
  cbv zeta. unfold _analyze_component_hierarchy. cbv zeta.
  cbn [total_components component_files].
  assert (E : forall f, contains_any component_exts (name f)
                        = (contains ".jsx" (name f) || contains ".tsx" (name f)
                           || contains ".vue" (name f))).
  { intros f. unfold contains_any, component_exts. cbn [existsb].
    now rewrite orb_false_r, orb_assoc. }
  rewrite (filter_ext _ _ E).
  set (l := filter _ files).
  split; [|split; [|split]].
  - rewrite length_map. apply filter_length_le.
  - apply length_firstn.
  - intros n Hn.
    assert (Hin : In n (map name l))
      by (rewrite <- (firstn_skipn 10 (map name l)); apply in_or_app; now left).
    apply in_map_iff in Hin. destruct Hin as [f [Hname Hf]].
    apply filter_In in Hf. destruct Hf as [Hf Hp].
    exists f. subst n. auto.
  - rewrite length_map. intros Hle. now apply firstn_all2; rewrite length_map.
Qed.

(** ** The request flow *)

Lemma prefix_app_needle p q : forall s,
  String.prefix (p ++ q) s = true -> String.prefix p s = true.
Proof.
  induction p as [|c t IH]; intros s H; [destruct s; reflexivity|].
  destruct s as [|a r]; [discriminate H|].
  cbn [append] in H. rewrite prefix_cons in *.
  destruct (Ascii.eqb c a); [now apply IH | discriminate H].
Qed.

Lemma contains_longer_needle p q s :
  contains (p ++ q) s = true -> contains p s = true.
Proof.
  induction s as [|a r IH]; cbn [contains]; rewrite !orb_true_iff.
  - intros [H|H]; [left; now apply (prefix_app_needle p q) | discriminate H].
  - intros [H|H]; [left; now apply (prefix_app_needle p q) | right; now apply IH].
Qed.

(** X27. The request flow names "Authentication" exactly when the content of
    some file, lower-cased, contains "auth" (the test for "authenticate"
    adds nothing); it names "Middleware processing" exactly when some
    content, lower-cased, contains "middleware"; it names nothing but its
    three labels, and none twice. *)
Theorem request_flow_labels (o : PySet.SetOrder) (files : list FileRecord) :
  let flows := _analyze_request_flow o files in
  (In "Authentication" flows
     <-> exists f, In f files /\ contains "auth" (lower (content f)) = true)
  /\ (In "Middleware processing" flows
     <-> exists f, In f files /\ contains "middleware" (lower (content f)) = true)
  /\ (In "Route handling" flows
     <-> exists f, In f files
           /\ (contains "@app.route" (content f) || contains "@router" (content f)) = true)
  /\ (forall l, In l flows ->
        In l ["Route handling"; "Middleware processing"; "Authentication"])
  /\ NoDup flows.
Proof.
  cbv zeta. unfold _analyze_request_flow. cbv zeta.
  assert (Hauth : forall c, (contains "authenticate" c || contains "auth" c)
                            = contains "auth" c).
  { intros c. destruct (contains "authenticate" c) eqn:E; [|reflexivity].
    symmetry. apply (contains_longer_needle "auth" "enticate" c E). }
  split; [|split; [|split; [|split]]].
  - rewrite to_list_In, set_of_list_In, in_flat_map.
    split; intros [f [Hf H]]; exists f; (split; [exact Hf|]).
    + rewrite Hauth in H.
      destruct (contains "@app.route" (content f) || contains "@router" (content f)),
        (contains "middleware" (lower (content f))),
        (contains "auth" (lower (content f))); simpl in H; intuition congruence.
    + rewrite Hauth, H. rewrite !in_app_iff. right. right. now left.
  - rewrite to_list_In, set_of_list_In, in_flat_map.
    split; intros [f [Hf H]]; exists f; (split; [exact Hf|]).
    + rewrite Hauth in H.
      destruct (contains "@app.route" (content f) || contains "@router" (content f)),
        (contains "middleware" (lower (content f))),
        (contains "auth" (lower (content f))); simpl in H; intuition congruence.
    + rewrite H. rewrite !in_app_iff. right. left. now left.
  - rewrite to_list_In, set_of_list_In, in_flat_map.
    split; intros [f [Hf H]]; exists f; (split; [exact Hf|]).
    + rewrite Hauth in H.
      destruct (contains "@app.route" (content f) || contains "@router" (content f)),
        (contains "middleware" (lower (content f))),
        (contains "auth" (lower (content f))); simpl in H; intuition congruence.
    + rewrite H. rewrite !in_app_iff. left. now left.
  - intros l. rewrite to_list_In, set_of_list_In, in_flat_map.
    intros [f [Hf H]]. rewrite Hauth in H.
    destruct (contains "@app.route" (content f) || contains "@router" (content f)),
      (contains "middleware" (lower (content f))),
      (contains "auth" (lower (content f))); simpl in *; intuition.
  - apply to_list_NoDup, set_of_list_NoDup.
Qed.

(* ----------------------------------------------------------------- *)
(** ** Further theorems at concrete inputs *)

(** A Flask and a React file, in both orders and under two set orders. *)
Lemma architecture_order_independent_witness :
  architecture_type (analyze_files PySet.insertion_order [flask_py; app_jsx])
  = architecture_type (analyze_files PySet.reverse_order [app_jsx; flask_py]).
Proof.
  apply (architecture_order_independent PySet.insertion_order PySet.reverse_order
           [flask_py; app_jsx] [app_jsx; flask_py]).
  apply perm_swap.
Defined.

(** The table of a CREATE TABLE statement. *)
Lemma extracted_names_are_words_witness :
  1 <= String.length "users" /\ all_chars Re.is_word "users" = true.
Proof.
  apply (extracted_names_are_words "CREATE TABLE users (id INT);" "users").
  left. vm_compute. left. reflexivity.
Defined.

(** The module of an import statement. *)
Lemma extracted_imports_well_formed_witness :
  1 <= String.length "react"
  /\ count_char squote "react" = 0 /\ count_char dquote "react" = 0.
Proof.
  apply (extracted_imports_well_formed "import React from 'react'" "react").
  vm_compute. left. reflexivity.
Defined.
